(** * github-api-script: the PR, code-review and commit report harvesters

    A shallow embedding of the three scripts
    - [2025/pull-request/pr.py]     (module [PR]),
    - [2025/code-review/review.py]  (module [Review]),
    - [2025/commit/commit.py]       (module [Commit]),
    followed by the properties of their paginators, filter pipelines,
    batch checkpointing and report finalisation.

    The scripts are dynamically typed and work on decoded JSON, so the
    embedding is over a type of Python values, with an explicit outcome
    (returned value or raised exception) where Python can raise. *)

From Stdlib Require Import ZArith String Ascii List Bool Lia Permutation Sorted.
From stdpp Require Import base option gmap strings.

Import ListNotations.
Set Warnings "-register-all".
Local Open Scope string_scope.
Local Open Scope list_scope.
Local Open Scope Z_scope.

(** ** Python values and the operations the scripts apply to them *)

Module Py.

(** Decoded JSON: [None], booleans, integers, strings, lists and
    string-keyed dicts.  A dict is an association list read by first match;
    dict values are kept free of repeated keys.  JSON reals are not
    modelled: every number the scripts read (counts, PR numbers, ids) is an
    integer.  A string is held in its UTF-8 encoding, one [ascii] per byte
    (text that has one: lone surrogates are not modelled). *)
Inductive value : Type :=
| VNone
| VBool (b : bool)
| VInt (n : Z)
| VStr (s : string)
| VList (l : list value)
| VDict (d : list (string * value)).

Inductive exn : Type :=
| AttributeError
| TypeError
| ValueError
| KeyError
| FileNotFoundError.

(** What evaluating a Python expression or statement gives. *)
Inductive outcome (A : Type) : Type :=
| Ret (a : A)
| Raise (e : exn).
Arguments Ret {A} a.
Arguments Raise {A} e.

Definition bind {A B : Type} (m : outcome A) (k : A -> outcome B) : outcome B :=
  match m with
  | Ret a => k a
  | Raise e => Raise e
  end.

Notation "'let!' x ':=' m 'in' k" := (bind m (fun x => k))
  (at level 10, x pattern, m at level 100, k at level 200).

(** [for x in xs: acc.extend(f(x))], stopping at the first exception. *)
Fixpoint for_extend {A B : Type} (f : A -> outcome (list B)) (xs : list A)
  : outcome (list B) :=
  match xs with
  | [] => Ret []
  | x :: rest =>
      let! ys := f x in
      let! zs := for_extend f rest in
      Ret (ys ++ zs)
  end.

(** [[f(x) for x in xs]], stopping at the first exception. *)
Fixpoint for_each {A B : Type} (f : A -> outcome B) (xs : list A)
  : outcome (list B) :=
  match xs with
  | [] => Ret []
  | x :: rest =>
      let! y := f x in
      let! ys := for_each f rest in
      Ret (y :: ys)
  end.

(** Truth value of an object: [if v], [not v], [v or w]. *)
Definition truthy (v : value) : bool :=
  match v with
  | VNone => false
  | VBool b => b
  | VInt n => negb (n =? 0)
  | VStr s => negb (String.eqb s "")
  | VList l => match l with [] => false | _ => true end
  | VDict d => match d with [] => false | _ => true end
  end.

Definition py_or (v w : value) : value := if truthy v then v else w.

Definition is_dict (v : value) : bool :=
  match v with VDict _ => true | _ => false end.
Definition is_list (v : value) : bool :=
  match v with VList _ => true | _ => false end.
Definition is_str (v : value) : bool :=
  match v with VStr _ => true | _ => false end.

Fixpoint assoc (k : string) (d : list (string * value)) : option value :=
  match d with
  | [] => None
  | (k', v) :: rest => if String.eqb k k' then Some v else assoc k rest
  end.

(** [v.get(k, default)]: only dicts have [get]. *)
Definition get (v : value) (k : string) (default : value) : outcome value :=
  match v with
  | VDict d => Ret (match assoc k d with Some x => x | None => default end)
  | _ => Raise AttributeError
  end.

(** [v[k]] for a string key [k]. *)
Definition item (v : value) (k : string) : outcome value :=
  match v with
  | VDict d => match assoc k d with Some x => Ret x | None => Raise KeyError end
  | _ => Raise TypeError
  end.

(** The characters of a string.  In UTF-8 a character (code point) is one
    byte that is not a continuation byte [10xxxxxx], followed by its
    continuation bytes.  [len] and slices count characters, not bytes.
    Equality, [startswith], splitting at a newline and the order [<] give
    on the encodings what Python gives on the characters. *)
Definition is_continuation (c : ascii) : bool :=
  let n := nat_of_ascii c in ((128 <=? n) && (n <? 192))%nat.

(** [len(s)] for a string [s]. *)
Fixpoint str_len (s : string) : nat :=
  match s with
  | EmptyString => O
  | String c rest =>
      if is_continuation c then str_len rest else S (str_len rest)
  end.

(** [s[:n]] for a string [s]: its first [n] characters, all of it when it
    has fewer. *)
Fixpoint str_take (n : nat) (s : string) : string :=
  match s with
  | EmptyString => EmptyString
  | String c rest =>
      if is_continuation c then String c (str_take n rest)
      else match n with
           | O => EmptyString
           | S m => String c (str_take m rest)
           end
  end.

(** [len(v)]. *)
Definition len (v : value) : outcome Z :=
  match v with
  | VStr s => Ret (Z.of_nat (str_len s))
  | VList l => Ret (Z.of_nat (List.length l))
  | VDict d => Ret (Z.of_nat (List.length d))
  | _ => Raise TypeError
  end.

(** [v[:n]] for a literal [n >= 0]: strings and lists can be sliced
    (slicing a dict raises too; which exception depends on the Python
    version, [TypeError] before 3.12). *)
Definition take (n : nat) (v : value) : outcome value :=
  match v with
  | VStr s => Ret (VStr (str_take n s))
  | VList l => Ret (VList (firstn n l))
  | _ => Raise TypeError
  end.

(** [l[a:b]] on a list, with Python's clamping of the bounds and its
    reading of negative bounds from the end. *)
Definition clamp (n i : Z) : Z :=
  if i <? 0 then Z.max 0 (n + i) else Z.min i n.

Definition slice {A : Type} (l : list A) (a b : Z) : list A :=
  let n := Z.of_nat (List.length l) in
  let a' := clamp n a in
  let b' := clamp n b in
  firstn (Z.to_nat (b' - a')) (skipn (Z.to_nat a') l).

(** [range(start, stop, step)] as the list of its values. *)
Definition range (start stop step : Z) : outcome (list Z) :=
  if step =? 0 then Raise ValueError
  else if 0 <? step then
    Ret (map (fun j => start + Z.of_nat j * step)
             (seq 0 (Z.to_nat ((stop - start + step - 1) / step))))
  else
    Ret (map (fun j => start + Z.of_nat j * step)
             (seq 0 (Z.to_nat ((start - stop - step - 1) / (- step))))).

(** [s.lower()] on the ASCII letters; the bytes of other characters are
    left as they are. *)
Definition lower_char (c : ascii) : ascii :=
  let n := nat_of_ascii c in
  if ((65 <=? n) && (n <=? 90))%nat then ascii_of_nat (n + 32) else c.

Definition upper_char (c : ascii) : ascii :=
  let n := nat_of_ascii c in
  if ((97 <=? n) && (n <=? 122))%nat then ascii_of_nat (n - 32) else c.

Definition is_cased (c : ascii) : bool :=
  let n := nat_of_ascii c in
  (((65 <=? n) && (n <=? 90)) || ((97 <=? n) && (n <=? 122)))%nat.

Fixpoint lower (s : string) : string :=
  match s with
  | EmptyString => EmptyString
  | String c rest => String (lower_char c) (lower rest)
  end.

(** [s.title()]: a cased character is upper-cased after an uncased one
    (or at the start) and lower-cased after a cased one. *)
Fixpoint title_from (prev_cased : bool) (s : string) : string :=
  match s with
  | EmptyString => EmptyString
  | String c rest =>
      String (if prev_cased then lower_char c else upper_char c)
             (title_from (is_cased c) rest)
  end.

Definition title (s : string) : string := title_from false s.

(** [v.lower()] and [v.title()]: only strings have these methods. *)
Definition lower_of (v : value) : outcome string :=
  match v with
  | VStr s => Ret (lower s)
  | _ => Raise AttributeError
  end.

Definition title_of (v : value) : outcome value :=
  match v with
  | VStr s => Ret (VStr (title s))
  | _ => Raise AttributeError
  end.

(** [s.startswith(p)]. *)
Definition startswith (s p : string) : bool := String.prefix p s.

(** [s.split('\n')[0]]: the text before the first newline. *)
Fixpoint first_line (s : string) : string :=
  match s with
  | EmptyString => EmptyString
  | String c rest =>
      if Ascii.eqb c "010"%char then EmptyString else String c (first_line rest)
  end.

(** [v.split('\n')[0]]. *)
Definition first_line_of (v : value) : outcome string :=
  match v with
  | VStr s => Ret (first_line s)
  | _ => Raise AttributeError
  end.

(** [v == s] for a string literal [s]. *)
Definition eq_str (v : value) (s : string) : bool :=
  match v with
  | VStr t => String.eqb t s
  | _ => false
  end.

(** The integer a number stands for; [bool] is a subclass of [int]. *)
Definition as_int (v : value) : option Z :=
  match v with
  | VInt n => Some n
  | VBool b => Some (if b then 1 else 0)
  | _ => None
  end.

Definition as_str (v : value) : option string :=
  match v with
  | VStr s => Some s
  | _ => None
  end.

(** [n >= v] for an integer [n]. *)
Definition int_ge (n : Z) (v : value) : outcome bool :=
  match as_int v with
  | Some m => Ret (m <=? n)
  | None => Raise TypeError
  end.

(** [v - w]: defined on numbers only. *)
Definition sub (v w : value) : outcome value :=
  match as_int v, as_int w with
  | Some a, Some b => Ret (VInt (a - b))
  | _, _ => Raise TypeError
  end.

(** [l.extend(xs)]: only lists have [extend]. *)
Definition extend (l : value) (xs : list value) : outcome value :=
  match l with
  | VList ys => Ret (VList (ys ++ xs))
  | _ => Raise AttributeError
  end.

(** [hash(v)] succeeds: lists and dicts are unhashable. *)
Definition hashable (v : value) : bool :=
  match v with
  | VList _ | VDict _ => false
  | _ => true
  end.

(** *** list.sort(key=..., reverse=...) *)

Section StableSort.
Context {A : Type} (le : A -> A -> bool).

Fixpoint insert_by (x : A) (l : list A) : list A :=
  match l with
  | [] => [x]
  | y :: rest => if le x y then x :: y :: rest else y :: insert_by x rest
  end.

(** Each element goes in front of the first later element that is not
    below it, so equal elements keep the order they came in. *)
Definition stable_sort (l : list A) : list A := fold_right insert_by [] l.
End StableSort.

Definition all_some {A : Type} (l : list (option A)) : option (list A) :=
  fold_right (fun o acc => match o, acc with
                           | Some x, Some xs => Some (x :: xs)
                           | _, _ => None
                           end) (Some []) l.

(** [l.sort(key=key, reverse=reverse)].  The keys are computed first, for
    every element.  Python's sort is stable, also with [reverse=True], and a
    stable sort has one possible result, so the algorithm is immaterial; a
    list of fewer than two elements is never compared.  Integer keys are
    ordered numerically and string keys by code point; keys that are
    [None], dicts or of mixed kinds cannot be compared ([TypeError]).
    List-valued keys, which Python compares elementwise, do not occur as
    sort keys of the reports and are not given an order here. *)
Definition sort_by (key : value -> outcome value) (reverse : bool)
    (l : list value) : outcome (list value) :=
  let! keys := for_each key l in
  if (List.length l <=? 1)%nat then Ret l
  else
    match all_some (map as_int keys), all_some (map as_str keys) with
    | Some ks, _ =>
        Ret (map snd (stable_sort
               (fun p q => if reverse then fst q <=? fst p else fst p <=? fst q)
               (combine ks l)))
    | None, Some ks =>
        Ret (map snd (stable_sort
               (fun p q => if reverse then String.leb (fst q) (fst p)
                           else String.leb (fst p) (fst q))
               (combine ks l)))
    | None, None => Raise TypeError
    end.

End Py.

(** ** The world outside the scripts: credentials, network, clock, files *)

Module World.
Import Py.

(** The URLs the scripts request.  The ones built by f-strings are kept
    symbolic, by the values they are built from; [DataUrl] is a URL read
    out of API data. *)
Inductive url : Type :=
| SearchUrl (query : string) (per_page page : Z)
| CommitsUrl (org repo user since_date until_date : string) (per_page page : Z)
| CommentsUrl (org repo : string) (pr_number : value)
| DataUrl (u : value).

(** What the network does with one GET. *)
Inductive reply : Type :=
| Body (v : value)                       (* a response whose body decodes to [v] *)
| HTTPError (code : Z) (reason : string) (* an HTTP error status *)
| Fault                                  (* any other failure inside [urlopen] *)
| Rejected.                              (* [urllib.request.Request] refuses the URL *)

(** [sprint_config] is imported from a module outside the three scripts:
    the table from sprint names to (start_date, end_date). *)
Record env : Type := {
  GITHUB_TOKEN : option string;
  ORGANIZATION : string;
  REPOSITORY : string;
  USERNAME : string;
  sprint_config : gmap string (string * string);
  net : url -> reply;
  (** [datetime.now().strftime('%Y%m%d_%H%M%S')]: reading 0 names the
      progress file, reading 1 the report files *)
  strftime_now : Z -> string;
  (** [datetime.now().isoformat()] when the batch starting at offset [i] is saved *)
  isoformat_now : Z -> string
}.

Definition with_repository (org repo : string) (w : env) : env :=
  {| GITHUB_TOKEN := GITHUB_TOKEN w;
     ORGANIZATION := org;
     REPOSITORY := repo;
     USERNAME := USERNAME w;
     sprint_config := sprint_config w;
     net := net w;
     strftime_now := strftime_now w;
     isoformat_now := isoformat_now w |}.

Definition has_token (w : env) : bool :=
  match GITHUB_TOKEN w with
  | Some t => negb (String.eqb t "")
  | None => false
  end.

(** [github_request(url)], the same in the three scripts up to the
    User-Agent header and the warnings printed: [ValueError] without a
    token, the decoded body on success, [None] on an HTTP error or any
    other exception inside the [try].  Building the [Request] is outside
    the [try]. *)
Definition github_request (w : env) (u : url) : outcome value :=
  if negb (has_token w) then Raise ValueError
  else
    match net w u with
    | Rejected => Raise ValueError
    | Body data => Ret data
    | HTTPError _ _ => Ret VNone
    | Fault => Ret VNone
    end.

(** Files: a JSON document or a CSV table of rows of cells. *)
Inductive file : Type :=
| JsonFile (doc : value)
| CsvFile (rows : list (list value)).

Record filesystem : Type := {
  files : gmap string file;
  (** whether the directory [csvs] exists *)
  csvs_dir : bool
}.

Definition write_file (name : string) (f : file) (fs : filesystem) : filesystem :=
  {| files := <[name := f]> (files fs); csvs_dir := csvs_dir fs |}.

Definition remove_file (name : string) (fs : filesystem) : filesystem :=
  {| files := delete name (files fs); csvs_dir := csvs_dir fs |}.

Definition makedirs_csvs (fs : filesystem) : filesystem :=
  {| files := files fs; csvs_dir := true |}.

Definition exists_file (name : string) (fs : filesystem) : bool :=
  match files fs !! name with Some _ => true | None => false end.

(** [save_progress(data, filename)]. *)
Definition save_progress (data : value) (filename : string) (fs : filesystem)
  : filesystem :=
  write_file filename (JsonFile data) fs.

(** [load_progress(filename)]: the decoded document, or [None] when the
    file does not exist; a file that is not JSON makes [json.load] raise. *)
Definition load_progress (filename : string) (fs : filesystem) : outcome value :=
  match files fs !! filename with
  | Some (JsonFile doc) => Ret doc
  | Some (CsvFile _) => Raise ValueError
  | None => Ret VNone
  end.

(** [writer.writerow] for each record in turn: the rows written, and the
    exception that stopped the loop if there was one. *)
Fixpoint write_rows (row : value -> outcome (list value)) (records : list value)
    (written : list (list value)) : outcome unit * list (list value) :=
  match records with
  | [] => (Ret tt, written)
  | r :: rest =>
      match row r with
      | Raise e => (Raise e, written)
      | Ret cells => write_rows row rest (written ++ [cells])
      end
  end.

(** [get_sprint_dates(sprint_name)]. *)
Definition get_sprint_dates (w : env) (sprint_name : string)
  : outcome (string * string) :=
  match sprint_config w !! sprint_name with
  | Some dates => Ret dates
  | None => Raise ValueError
  end.

(** Command-line arguments, as [parse_arguments] returns them
    ([--branch-prefix] exists in pr.py only). *)
Record args : Type := {
  arg_org : option string;
  arg_repo : option string;
  arg_user : option string;
  arg_sprint : string;
  arg_batch_size : Z;
  arg_branch_prefix : string
}.

(** [a or b] for an optional string [a]. *)
Definition or_default (a : option string) (b : string) : string :=
  match a with
  | Some s => if String.eqb s "" then b else s
  | None => b
  end.

(** The search paginator: [get_all_prs_fast] of pr.py and
    [get_filtered_prs] of review.py are the same code.  [fuel] bounds the
    iterations of [while True]. *)
Definition per_page : Z := 100.

(** The [return] statement after the loop. *)
Definition search_result (all_items : list value) (search_data : value)
  : outcome (list value * value) :=
  let count := VInt (Z.of_nat (List.length all_items)) in
  if truthy search_data then
    let! total := get search_data "total_count" count in
    Ret (all_items, total)
  else Ret (all_items, count).

Fixpoint search_loop (w : env) (query : string) (fuel : nat) (page : Z)
    (all_items : list value) : option (outcome (list value * value)) :=
  match fuel with
  | O => None
  | S fuel' =>
      match github_request w (SearchUrl query per_page page) with
      | Raise e => Some (Raise e)
      | Ret search_data =>
          if negb (truthy search_data) then Some (search_result all_items search_data)
          else
            match search_data with
            | VDict d =>
                let items := match assoc "items" d with Some x => x | None => VList [] end in
                let total_count := match assoc "total_count" d with Some x => x | None => VInt 0 end in
                match items with
                | VList its =>
                    if negb (truthy items) then Some (search_result all_items search_data)
                    else
                      let all_items' := all_items ++ its in
                      if Z.of_nat (List.length its) <? per_page
                      then Some (search_result all_items' search_data)
                      else
                        match int_ge (Z.of_nat (List.length all_items')) total_count with
                        | Raise e => Some (Raise e)
                        | Ret true => Some (search_result all_items' search_data)
                        | Ret false => search_loop w query fuel' (page + 1) all_items'
                        end
                | _ => Some (search_result all_items search_data)
                end
            | _ => Some (search_result all_items search_data)
            end
      end
  end.

Definition search_paginate (w : env) (query : string) (fuel : nat)
  : option (outcome (list value * value)) :=
  search_loop w query fuel 1 [].

End World.

(** ** review.py: the code-review comment report *)

Module Review.
Import Py World.

Definition get_filtered_prs := search_paginate.

(** The dict [get_pr_comments] builds for one comment of the user. *)
Definition user_comment (comment : value) : outcome value :=
  let! id := get comment "id" (VInt 0) in
  let! body := get comment "body" (VStr "") in
  let! created_at := get comment "created_at" (VStr "") in
  let! updated_at := get comment "updated_at" (VStr "") in
  let! html_url := get comment "html_url" (VStr "") in
  Ret (VDict [("id", id); ("body", body); ("created_at", created_at);
              ("updated_at", updated_at); ("url", html_url)]).

(** One iteration of the loop over [comments_data]. *)
Definition filter_comment (username : string) (comment : value)
  : outcome (list value) :=
  if negb (is_dict comment) then Ret []
  else
    let! comment_user := get comment "user" (VDict []) in
    if negb (is_dict comment_user) then Ret []
    else
      let! login := get comment_user "login" (VStr "") in
      let! login_lower := lower_of login in
      if String.eqb login_lower (lower username)
      then let! c := user_comment comment in Ret [c]
      else Ret [].

(** [get_pr_comments(pr_number, username)]. *)
Definition get_pr_comments (w : env) (pr_number : value) (username : string)
  : outcome (list value) :=
  let! comments_data :=
    github_request w (CommentsUrl (ORGANIZATION w) (REPOSITORY w) pr_number) in
  if negb (truthy comments_data) || negb (is_list comments_data) then Ret []
  else
    match comments_data with
    | VList cs => for_extend (filter_comment username) cs
    | _ => Ret []
    end.

(** [comment['body'][:200] + '...' if len(comment['body']) > 200 else comment['body']]. *)
Definition comment_preview (body : value) : outcome value :=
  let! n := len body in
  if 200 <? n then
    let! head := take 200 body in
    match head with
    | VStr s => Ret (VStr (String.append s "..."))
    | _ => Raise TypeError
    end
  else Ret body.

(** The [comment_info] dict of one comment. *)
Definition comment_info (pr pr_number pr_title pr_author : value)
    (base_branch : string) (comment : value) : outcome value :=
  let! html_url := get pr "html_url" (VStr "") in
  let! id := item comment "id" in
  let! body := item comment "body" in
  let! preview := comment_preview body in
  let! created_at := item comment "created_at" in
  let! updated_at := item comment "updated_at" in
  let! url := item comment "url" in
  Ret (VDict [("pr_number", pr_number); ("pr_title", pr_title);
              ("pr_author", pr_author); ("target_branch", VStr base_branch);
              ("pr_url", html_url); ("comment_id", id);
              ("comment_body", preview); ("comment_full_body", body);
              ("created_at", created_at); ("updated_at", updated_at);
              ("comment_url", url)]).

(** The target-branch test of line 210: [true] when the PR is kept. *)
Definition targets_wanted_branch (base_branch : string) : bool :=
  negb (negb (String.eqb base_branch "staging")
        && negb (startswith base_branch "release/")).

(** The body of the loop over a batch, for one [pr]: the [comment_info]
    dicts it appends to [batch_comments] ([continue] appends none). *)
Definition process_pr (w : env) (username : string) (pr : value)
  : outcome (list value) :=
  let! pr_number := get pr "number" (VInt 0) in
  let! pr_title := get pr "title" (VStr "Unknown Title") in
  let! user := get pr "user" VNone in
  let! pr_author :=
    (if is_dict user
     then let! u := get pr "user" (VDict []) in get u "login" (VStr "")
     else Ret (VStr "")) in
  let! author_lower := lower_of pr_author in
  if String.eqb author_lower (lower username) then Ret []
  else
    let! link := get pr "pull_request" (VDict []) in
    let! pr_detail_url := get link "url" VNone in
    if negb (truthy pr_detail_url) then Ret []
    else
      let! pr_details := github_request w (DataUrl pr_detail_url) in
      if negb (truthy pr_details) || negb (is_dict pr_details) then Ret []
      else
        let! base_info := get pr_details "base" VNone in
        if negb (is_dict base_info) then Ret []
        else
          let! base_ref := get base_info "ref" (VStr "") in
          match base_ref with
          | VStr base_branch =>
              if negb (targets_wanted_branch base_branch) then Ret []
              else
                let! _ := take 50 pr_title in
                let! pr_comments := get_pr_comments w pr_number username in
                for_each (comment_info pr pr_number pr_title pr_author base_branch)
                         pr_comments
          | _ => Ret []
          end.

Definition progress_data (w : env) (i : Z) (items : list value)
    (processed_prs all_comments : value) : outcome value :=
  let! processed_count := len processed_prs in
  let! comments_found := len all_comments in
  Ret (VDict [("timestamp", VStr (isoformat_now w i));
              ("total_prs", VInt (Z.of_nat (List.length items)));
              ("processed_count", VInt processed_count);
              ("comments_found", VInt comments_found);
              ("processed", processed_prs);
              ("all_comments", all_comments)]).

(** The state the batch loop carries: the two accumulating lists and
    the files. *)
Record loop_state : Type := {
  processed_prs : value;
  all_comments : value;
  disk : filesystem
}.

(** One iteration of [for i in range(start_index, len(items), batch_size)].
    An exception leaves the state as it was when it was raised. *)
Definition run_batch (w : env) (items : list value) (username : string)
    (batch_size : Z) (progress_file : string) (i : Z) (st : loop_state)
  : outcome unit * loop_state :=
  let batch := slice items i (i + batch_size) in
  match for_extend (process_pr w username) batch with
  | Raise e => (Raise e, st)
  | Ret batch_comments =>
      match extend (all_comments st) batch_comments with
      | Raise e => (Raise e, st)
      | Ret all_comments' =>
          let st1 := {| processed_prs := processed_prs st;
                        all_comments := all_comments';
                        disk := disk st |} in
          match extend (processed_prs st) batch with
          | Raise e => (Raise e, st1)
          | Ret processed_prs' =>
              let st2 := {| processed_prs := processed_prs';
                            all_comments := all_comments';
                            disk := disk st |} in
              match progress_data w i items processed_prs' all_comments' with
              | Raise e => (Raise e, st2)
              | Ret data =>
                  (Ret tt, {| processed_prs := processed_prs';
                              all_comments := all_comments';
                              disk := save_progress data progress_file (disk st) |})
              end
          end
      end
  end.

Fixpoint run_batches (w : env) (items : list value) (username : string)
    (batch_size : Z) (progress_file : string) (offsets : list Z)
    (st : loop_state) : outcome unit * loop_state :=
  match offsets with
  | [] => (Ret tt, st)
  | i :: rest =>
      match run_batch w items username batch_size progress_file i st with
      | (Raise e, st') => (Raise e, st')
      | (Ret _, st') =>
          run_batches w items username batch_size progress_file rest st'
      end
  end.

Definition progress_file_name (w : env) : string :=
  String.append "comment_processing_progress_"
    (String.append (strftime_now w 0) ".json").

(** The state the loop starts in: from the checkpoint when there is one. *)
Definition initial_state (progress : value) (fs : filesystem)
  : outcome (loop_state * Z) :=
  if truthy progress then
    let! _ := (let! p := get progress "processed" (VList []) in len p) in
    let! processed := get progress "processed" (VList []) in
    let! start_index := len processed in
    let! comments := get progress "all_comments" (VList []) in
    Ret ({| processed_prs := processed; all_comments := comments; disk := fs |},
         start_index)
  else
    Ret ({| processed_prs := VList []; all_comments := VList []; disk := fs |}, 0).

(** [process_prs_for_comments(items, username, batch_size)]: what it
    returns (or raises) and the files it leaves. *)
Definition process_prs_for_comments (w : env) (items : list value)
    (username : string) (batch_size : Z) (fs : filesystem)
  : outcome (value * string) * filesystem :=
  let progress_file := progress_file_name w in
  match load_progress progress_file fs with
  | Raise e => (Raise e, fs)
  | Ret progress =>
      match initial_state progress fs with
      | Raise e => (Raise e, fs)
      | Ret (st0, start_index) =>
          match range start_index (Z.of_nat (List.length items)) batch_size with
          | Raise e => (Raise e, fs)
          | Ret offsets =>
              match run_batches w items username batch_size progress_file offsets st0 with
              | (Raise e, st) => (Raise e, disk st)
              | (Ret _, st) => (Ret (all_comments st, progress_file), disk st)
              end
          end
      end
  end.

(** The cells of one CSV row, in column order. *)
Definition csv_row (comment : value) : outcome (list value) :=
  for_each (item comment)
    ["pr_number"; "pr_title"; "pr_author"; "target_branch"; "comment_id";
     "comment_body"; "created_at"; "updated_at"; "pr_url"; "comment_url"].

Definition headers : list value :=
  map VStr ["PR Number"; "PR Title"; "PR Author"; "Target Branch"; "Comment ID";
            "Comment Preview"; "Created At"; "Updated At"; "PR URL"; "Comment URL"].

(** [all_comments.sort(key=lambda x: x['created_at'], reverse=False)]. *)
Definition sort_comments (all_comments : value) : outcome (list value) :=
  match all_comments with
  | VList l => sort_by (fun x => item x "created_at") false l
  | _ => Raise AttributeError
  end.

(** [len(set(comment['pr_number'] for comment in all_comments))] succeeds
    when every PR number is hashable. *)
Definition count_unique_prs (comments : list value) : outcome unit :=
  let! numbers := for_each (fun c => item c "pr_number") comments in
  if forallb hashable numbers then Ret tt else Raise TypeError.

(** [generate_final_report(all_comments, progress_file, sprint_name, username)]:
    the value returned (the CSV file name, or [None]) and the files left. *)
Definition generate_final_report (w : env) (all_comments : value)
    (progress_file sprint_name username : string) (fs : filesystem)
  : outcome value * filesystem :=
  if negb (truthy all_comments) then (Ret VNone, fs)
  else
    match sort_comments all_comments with
    | Raise e => (Raise e, fs)
    | Ret sorted =>
        let timestamp := strftime_now w 1 in
        let filename :=
          String.concat "" ["csvs/"; username; "-comments-sprint-"; sprint_name;
                            "-"; timestamp; ".csv"] in
        let fs1 := makedirs_csvs fs in
        match write_rows csv_row sorted [headers] with
        | (Raise e, rows) => (Raise e, write_file filename (CsvFile rows) fs1)
        | (Ret _, rows) =>
            let fs2 := write_file filename (CsvFile rows) fs1 in
            let json_filename :=
              String.concat "" ["csvs/"; username; "-comments-full-sprint-";
                                sprint_name; "-"; timestamp; ".json"] in
            let fs3 := write_file json_filename (JsonFile (VList sorted)) fs2 in
            match count_unique_prs sorted with
            | Raise e => (Raise e, fs3)
            | Ret _ =>
                let fs4 := if exists_file progress_file fs3
                           then remove_file progress_file fs3 else fs3 in
                (Ret (VStr filename), fs4)
            end
        end
    end.

(** [main()]: the exit code and the files left; [None] when [fuel] does
    not cover the pagination. *)
Definition main (w0 : env) (a : args) (fuel : nat) (fs : filesystem)
  : option (outcome Z * filesystem) :=
  let w := with_repository (or_default (arg_org a) (ORGANIZATION w0))
                           (or_default (arg_repo a) (REPOSITORY w0)) w0 in
  let username := or_default (arg_user a) (USERNAME w0) in
  if negb (has_token w) then Some (Ret 1, fs)
  else if String.eqb (ORGANIZATION w) "" || String.eqb (REPOSITORY w) ""
          || String.eqb username ""
  then Some (Ret 1, fs)
  else
    match get_sprint_dates w (arg_sprint a) with
    | Raise _ => Some (Ret 1, fs)
    | Ret (start_date, end_date) =>
        let query :=
          String.concat "" ["is:pr repo:"; ORGANIZATION w; "/"; REPOSITORY w;
                            " created:"; start_date; ".."; end_date;
                            " -author:"; username] in
        match get_filtered_prs w query fuel with
        | None => None
        | Some (Raise e) => Some (Raise e, fs)
        | Some (Ret (items, total_count)) =>
            match items with
            | [] => Some (Ret 0, fs)
            | _ =>
                match process_prs_for_comments w items username (arg_batch_size a) fs with
                | (Raise e, fs') => Some (Raise e, fs')
                | (Ret (all_comments, progress_file), fs') =>
                    match generate_final_report w all_comments progress_file
                            (arg_sprint a) username fs' with
                    | (Raise e, fs'') => Some (Raise e, fs'')
                    | (Ret report_filename, fs'') => Some (Ret 0, fs'')
                    end
                end
            end
        end
    end.

End Review.

(** ** pr.py: the release-branch PR report *)

Module PR.
Import Py World.

Definition get_all_prs_fast := search_paginate.

(** The target-branch test of line 168: [true] when the PR is kept. *)
Definition targets_release_branch (base_branch : value) : bool :=
  match base_branch with
  | VStr b => startswith b "release/"
  | _ => false
  end.

(** The [pr_info] dict of a PR that passed the checks. *)
Definition pr_info (pr pr_details base_branch : value) : outcome value :=
  let! head_info := get pr_details "head" (VDict []) in
  let! origin_branch :=
    (if is_dict head_info then get head_info "ref" (VStr "") else Ret (VStr "")) in
  let! number := get pr "number" (VInt 0) in
  let! title := get pr "title" (VStr "") in
  let! additions := get pr_details "additions" (VInt 0) in
  let! deletions := get pr_details "deletions" (VInt 0) in
  let! created_at := get pr "created_at" (VStr "") in
  let! merged_at := get pr_details "merged_at" VNone in
  let! state := get pr "state" (VStr "unknown") in
  let! html_url := get pr "html_url" (VStr "") in
  Ret (VDict [("number", number); ("title", title);
              ("target_branch", base_branch); ("origin_branch", origin_branch);
              ("lines_added", py_or additions (VInt 0));
              ("lines_deleted", py_or deletions (VInt 0));
              ("created_at", created_at); ("merged_at", merged_at);
              ("state", state); ("url", html_url)]).

(** The body of the loop over a batch, for one [pr]: the [pr_info] dicts
    it appends to [batch_release_prs] ([continue] appends none). *)
Definition process_pr (w : env) (pr : value) : outcome (list value) :=
  let! _ := get pr "number" VNone in
  let! title := get pr "title" VNone in
  let! _ := take 50 title in
  let! link := get pr "pull_request" (VDict []) in
  let! pr_detail_url := get link "url" VNone in
  if negb (truthy pr_detail_url) then Ret []
  else
    let! pr_details := github_request w (DataUrl pr_detail_url) in
    if negb (truthy pr_details) || negb (is_dict pr_details) then Ret []
    else
      let! base_info := get pr_details "base" VNone in
      if negb (is_dict base_info) then Ret []
      else
        let! base_branch := get base_info "ref" (VStr "") in
        if negb (is_str base_branch) || negb (targets_release_branch base_branch)
        then Ret []
        else
          let! info := pr_info pr pr_details base_branch in
          Ret [info].

Definition progress_data (w : env) (i : Z) (items : list value)
    (processed_prs : value) (release_prs : list value) : outcome value :=
  let! processed_count := len processed_prs in
  Ret (VDict [("timestamp", VStr (isoformat_now w i));
              ("total_prs", VInt (Z.of_nat (List.length items)));
              ("processed_count", VInt processed_count);
              ("release_prs_found", VInt (Z.of_nat (List.length release_prs)));
              ("processed", processed_prs);
              ("release_prs", VList release_prs)]).

Record loop_state : Type := {
  processed_prs : value;
  release_prs : list value;
  disk : filesystem
}.

(** One iteration of [for i in range(start_index, len(items), batch_size)]. *)
Definition run_batch (w : env) (items : list value) (batch_size : Z)
    (progress_file : string) (i : Z) (st : loop_state)
  : outcome unit * loop_state :=
  let batch := slice items i (i + batch_size) in
  match for_extend (process_pr w) batch with
  | Raise e => (Raise e, st)
  | Ret batch_release_prs =>
      let release_prs' := release_prs st ++ batch_release_prs in
      let st1 := {| processed_prs := processed_prs st;
                    release_prs := release_prs';
                    disk := disk st |} in
      match extend (processed_prs st) batch with
      | Raise e => (Raise e, st1)
      | Ret processed_prs' =>
          let st2 := {| processed_prs := processed_prs';
                        release_prs := release_prs';
                        disk := disk st |} in
          match progress_data w i items processed_prs' release_prs' with
          | Raise e => (Raise e, st2)
          | Ret data =>
              (Ret tt, {| processed_prs := processed_prs';
                          release_prs := release_prs';
                          disk := save_progress data progress_file (disk st) |})
          end
      end
  end.

Fixpoint run_batches (w : env) (items : list value) (batch_size : Z)
    (progress_file : string) (offsets : list Z) (st : loop_state)
  : outcome unit * loop_state :=
  match offsets with
  | [] => (Ret tt, st)
  | i :: rest =>
      match run_batch w items batch_size progress_file i st with
      | (Raise e, st') => (Raise e, st')
      | (Ret _, st') => run_batches w items batch_size progress_file rest st'
      end
  end.

Definition progress_file_name (w : env) : string :=
  String.append "pr_processing_progress_"
    (String.append (strftime_now w 0) ".json").

(** The state the loop starts in.  [release_prs] starts empty whether or
    not there is a checkpoint: its [release_prs] entry is not read. *)
Definition initial_state (progress : value) (fs : filesystem)
  : outcome (loop_state * Z) :=
  if truthy progress then
    let! _ := (let! p := get progress "processed" (VList []) in len p) in
    let! processed := get progress "processed" (VList []) in
    let! start_index := len processed in
    Ret ({| processed_prs := processed; release_prs := []; disk := fs |},
         start_index)
  else
    Ret ({| processed_prs := VList []; release_prs := []; disk := fs |}, 0).

(** [process_prs_in_batches(items, batch_size)]. *)
Definition process_prs_in_batches (w : env) (items : list value)
    (batch_size : Z) (fs : filesystem)
  : outcome (list value * string) * filesystem :=
  let progress_file := progress_file_name w in
  match load_progress progress_file fs with
  | Raise e => (Raise e, fs)
  | Ret progress =>
      match initial_state progress fs with
      | Raise e => (Raise e, fs)
      | Ret (st0, start_index) =>
          match range start_index (Z.of_nat (List.length items)) batch_size with
          | Raise e => (Raise e, fs)
          | Ret offsets =>
              match run_batches w items batch_size progress_file offsets st0 with
              | (Raise e, st) => (Raise e, disk st)
              | (Ret _, st) => (Ret (release_prs st, progress_file), disk st)
              end
          end
      end
  end.

(** The cells of one CSV row, in column order. *)
Definition csv_row (pr : value) : outcome (list value) :=
  let! merged_at := item pr "merged_at" in
  let! status :=
    (if truthy merged_at then Ret (VStr "Merged")
     else let! state := item pr "state" in title_of state) in
  let! lines_added := item pr "lines_added" in
  let! lines_deleted := item pr "lines_deleted" in
  let! net_lines := sub lines_added lines_deleted in
  let! number := item pr "number" in
  let! title := item pr "title" in
  let! target_branch := item pr "target_branch" in
  let! origin_branch := item pr "origin_branch" in
  let! created_at := item pr "created_at" in
  let! url := item pr "url" in
  Ret [number; title; target_branch; origin_branch; lines_added; lines_deleted;
       net_lines; status; created_at; py_or merged_at (VStr ""); url].

Definition headers : list value :=
  map VStr ["PR Number"; "Title"; "Target Branch"; "Origin Branch";
            "Lines Added"; "Lines Deleted"; "Net Lines"; "Status";
            "Created At"; "Merged At"; "URL"].

(** [release_prs.sort(key=lambda x: x['number'], reverse=True)]. *)
Definition sort_release_prs (release_prs : list value) : outcome (list value) :=
  sort_by (fun x => item x "number") true release_prs.

(** [generate_final_report(release_prs, progress_file, sprint_name)].
    Nothing creates the directory [csvs] here: [open] fails without it. *)
Definition generate_final_report (w : env) (release_prs : list value)
    (progress_file sprint_name : string) (fs : filesystem)
  : outcome value * filesystem :=
  match release_prs with
  | [] => (Ret VNone, fs)
  | _ =>
      match sort_release_prs release_prs with
      | Raise e => (Raise e, fs)
      | Ret sorted =>
          let timestamp := strftime_now w 1 in
          let filename :=
            String.concat "" ["csvs/dika-pr-sprint-"; sprint_name; "-";
                              timestamp; ".csv"] in
          if negb (csvs_dir fs) then (Raise FileNotFoundError, fs)
          else
            match write_rows csv_row sorted [headers] with
            | (Raise e, rows) => (Raise e, write_file filename (CsvFile rows) fs)
            | (Ret _, rows) =>
                let fs1 := write_file filename (CsvFile rows) fs in
                let fs2 := if exists_file progress_file fs1
                           then remove_file progress_file fs1 else fs1 in
                (Ret (VStr filename), fs2)
            end
      end
  end.

(** [main()].  [args.branch_prefix] is only printed: it is passed to
    neither [process_prs_in_batches] nor [generate_final_report]. *)
Definition main (w : env) (a : args) (fuel : nat) (fs : filesystem)
  : option (outcome Z * filesystem) :=
  let org := or_default (arg_org a) (ORGANIZATION w) in
  let repo := or_default (arg_repo a) (REPOSITORY w) in
  let user := or_default (arg_user a) (USERNAME w) in
  if negb (has_token w) then Some (Ret 1, fs)
  else if String.eqb org "" || String.eqb repo "" || String.eqb user ""
  then Some (Ret 1, fs)
  else
    match get_sprint_dates w (arg_sprint a) with
    | Raise _ => Some (Ret 1, fs)
    | Ret (start_date, end_date) =>
        let query :=
          String.concat "" ["is:pr author:"; user; " repo:"; org; "/"; repo;
                            " created:"; start_date; ".."; end_date] in
        match get_all_prs_fast w query fuel with
        | None => None
        | Some (Raise e) => Some (Raise e, fs)
        | Some (Ret (items, total_count)) =>
            match items with
            | [] => Some (Ret 0, fs)
            | _ =>
                match process_prs_in_batches w items (arg_batch_size a) fs with
                | (Raise e, fs') => Some (Raise e, fs')
                | (Ret (release_prs, progress_file), fs') =>
                    match generate_final_report w release_prs progress_file
                            (arg_sprint a) fs' with
                    | (Raise e, fs'') => Some (Raise e, fs'')
                    | (Ret report_filename, fs'') => Some (Ret 0, fs'')
                    end
                end
            end
        end
    end.

End PR.

(** ** commit.py: the commit list *)

Module Commit.
Import Py World.

(** [get_all_commits_fast(org, repo, user, since_date, until_date)];
    [fuel] bounds the iterations of [while True]. *)
Fixpoint commits_loop (w : env) (org repo user since_date until_date : string)
    (fuel : nat) (page : Z) (all_commits : list value)
  : option (outcome (list value * Z)) :=
  match fuel with
  | O => None
  | S fuel' =>
      match github_request w
              (CommitsUrl org repo user since_date until_date per_page page) with
      | Raise e => Some (Raise e)
      | Ret commits_data =>
          if negb (truthy commits_data)
          then Some (Ret (all_commits, Z.of_nat (List.length all_commits)))
          else
            match commits_data with
            | VList cs =>
                let all_commits' := all_commits ++ cs in
                if Z.of_nat (List.length cs) <? per_page
                then Some (Ret (all_commits', Z.of_nat (List.length all_commits')))
                else commits_loop w org repo user since_date until_date fuel'
                       (page + 1) all_commits'
            | _ => Some (Ret (all_commits, Z.of_nat (List.length all_commits)))
            end
      end
  end.

Definition get_all_commits_fast (w : env)
    (org repo user since_date until_date : string) (fuel : nat)
  : option (outcome (list value * Z)) :=
  commits_loop w org repo user since_date until_date fuel 1 [].

(** The [commit_stats] dict: zeros unless the detail request gives a dict. *)
Definition commit_stats (w : env) (commit_detail_url : value)
  : outcome (value * value * value) :=
  if truthy commit_detail_url then
    let! commit_details := github_request w (DataUrl commit_detail_url) in
    if truthy commit_details && is_dict commit_details then
      let! stats := get commit_details "stats" (VDict []) in
      let! additions := get stats "additions" (VInt 0) in
      let! deletions := get stats "deletions" (VInt 0) in
      let! files := get commit_details "files" (VList []) in
      let! n := len files in
      Ret (additions, deletions, VInt n)
    else Ret (VInt 0, VInt 0, VInt 0)
  else Ret (VInt 0, VInt 0, VInt 0).

(** The body of the loop of [process_commits_for_listing] for one
    [commit]: the entry appended, or [None] after [continue]. *)
Definition process_commit (w : env) (commit : value) : outcome (option value) :=
  let! commit_info := get commit "commit" (VDict []) in
  let! sha := get commit "sha" (VStr "") in
  let! commit_sha := take 7 sha in
  let! message := get commit_info "message" (VStr "") in
  let! commit_message := first_line_of message in
  let! commit_detail_url := get commit "url" VNone in
  let! (additions, deletions, files) := commit_stats w commit_detail_url in
  let! author_info := get commit_info "author" (VDict []) in
  let! committer_info := get commit_info "committer" (VDict []) in
  let! committer_name := get committer_info "name" (VStr "") in
  if eq_str committer_name "GitHub" then Ret None
  else if startswith commit_message "Merge branch" then Ret None
  else
    let! html_url := get commit "html_url" (VStr "") in
    let! author_name := get author_info "name" (VStr "") in
    let! author_email := get author_info "email" (VStr "") in
    let! author_date := get author_info "date" (VStr "") in
    let! committer_date := get committer_info "date" (VStr "") in
    Ret (Some (VDict
      [("sha", sha); ("short_sha", commit_sha);
       ("message", VStr commit_message); ("full_message", message);
       ("author_name", author_name); ("author_email", author_email);
       ("author_date", author_date); ("committer_name", committer_name);
       ("committer_date", committer_date); ("lines_added", additions);
       ("lines_deleted", deletions); ("files_changed", files);
       ("url", html_url)])).

(** [process_commits_for_listing(commits)]. *)
Fixpoint process_commits_for_listing (w : env) (commits : list value)
  : outcome (list value) :=
  match commits with
  | [] => Ret []
  | commit :: rest =>
      let! entry := process_commit w commit in
      let! commit_list := process_commits_for_listing w rest in
      Ret (match entry with Some e => e :: commit_list | None => commit_list end)
  end.

(** The cells of one CSV row of the commit list, in column order. *)
Definition csv_row (sprint_name : string) (commit : value) : outcome (list value) :=
  let! lines_added := item commit "lines_added" in
  let! lines_deleted := item commit "lines_deleted" in
  let! net_lines := sub lines_added lines_deleted in
  let! sha := item commit "sha" in
  let! short_sha := item commit "short_sha" in
  let! message := item commit "message" in
  let! author_name := item commit "author_name" in
  let! author_email := item commit "author_email" in
  let! author_date := item commit "author_date" in
  let! committer_name := item commit "committer_name" in
  let! committer_date := item commit "committer_date" in
  let! files_changed := item commit "files_changed" in
  let! url := item commit "url" in
  Ret [VStr sprint_name; sha; short_sha; message; author_name; author_email;
       author_date; committer_name; committer_date; lines_added; lines_deleted;
       net_lines; files_changed; url].

Definition headers : list value :=
  map VStr ["Sprint"; "SHA"; "Short SHA"; "Message"; "Author Name"; "Author Email";
            "Author Date"; "Committer Name"; "Committer Date";
            "Lines Added"; "Lines Deleted"; "Net Lines"; "Files Changed"; "URL"].

(** [commit_list.sort(key=lambda x: x['author_date'], reverse=False)]. *)
Definition sort_commits (commit_list : list value) : outcome (list value) :=
  sort_by (fun x => item x "author_date") false commit_list.

(** [sum(commit['files_changed'] for commit in commit_list)] in the
    closing summary: the additions need numbers. *)
Definition sum_files_changed (commits : list value) : outcome unit :=
  let! counts := for_each (fun c => item c "files_changed") commits in
  if forallb (fun v => match as_int v with Some _ => true | None => false end) counts
  then Ret tt else Raise TypeError.

(** [generate_commit_list_report(commit_list, sprint_name, user)]: the
    value returned (the CSV file name, or [None]) and the files left.
    This script keeps no progress file. *)
Definition generate_commit_list_report (w : env) (commit_list : list value)
    (sprint_name user : string) (fs : filesystem)
  : outcome value * filesystem :=
  match commit_list with
  | [] => (Ret VNone, fs)
  | _ =>
      match sort_commits commit_list with
      | Raise e => (Raise e, fs)
      | Ret sorted =>
          let timestamp := strftime_now w 1 in
          let filename :=
            String.concat "" ["csvs/"; user; "-commit-list-sprint-"; sprint_name;
                              "-"; timestamp; ".csv"] in
          let fs1 := makedirs_csvs fs in
          match write_rows (csv_row sprint_name) sorted [headers] with
          | (Raise e, rows) => (Raise e, write_file filename (CsvFile rows) fs1)
          | (Ret _, rows) =>
              let fs2 := write_file filename (CsvFile rows) fs1 in
              match sum_files_changed sorted with
              | Raise e => (Raise e, fs2)
              | Ret _ => (Ret (VStr filename), fs2)
              end
          end
      end
  end.

(** [main()]. *)
Definition main (w : env) (a : args) (fuel : nat) (fs : filesystem)
  : option (outcome Z * filesystem) :=
  let org := or_default (arg_org a) (ORGANIZATION w) in
  let repo := or_default (arg_repo a) (REPOSITORY w) in
  let user := or_default (arg_user a) (USERNAME w) in
  if negb (has_token w) then Some (Ret 1, fs)
  else if String.eqb org "" || String.eqb repo "" || String.eqb user ""
  then Some (Ret 1, fs)
  else
    match get_sprint_dates w (arg_sprint a) with
    | Raise _ => Some (Ret 1, fs)
    | Ret (start_date, end_date) =>
        match get_all_commits_fast w org repo user start_date end_date fuel with
        | None => None
        | Some (Raise e) => Some (Raise e, fs)
        | Some (Ret (commits, total_count)) =>
            match commits with
            | [] => Some (Ret 0, fs)
            | _ =>
                match process_commits_for_listing w commits with
                | Raise e => Some (Raise e, fs)
                | Ret commit_list =>
                    match generate_commit_list_report w commit_list
                            (arg_sprint a) user fs with
                    | (Raise e, fs') => Some (Raise e, fs')
                    | (Ret report_filename, fs') => Some (Ret 0, fs')
                    end
                end
            end
        end
    end.

End Commit.

(** ** A concrete world, for running the scripts on examples *)

Module Demo.
Import Py World.

Definition pr_detail (base_ref : string) : value :=
  VDict [("base", VDict [("ref", VStr base_ref)]);
         ("head", VDict [("ref", VStr "feature/login")]);
         ("additions", VInt 12); ("deletions", VInt 5);
         ("merged_at", VNone)].

Definition comment (login body created_at : string) : value :=
  VDict [("id", VInt 7); ("user", VDict [("login", VStr login)]);
         ("body", VStr body); ("created_at", VStr created_at);
         ("updated_at", VStr created_at); ("html_url", VStr "c/7")].

Definition commit_detail : value :=
  VDict [("stats", VDict [("additions", VInt 3); ("deletions", VInt 1)]);
         ("files", VList [VDict [("filename", VStr "a.py")]])].

(** Replies to the item-level requests; the pages of the two list
    endpoints are given by [search] and [commits], page 1 first. *)
Definition replies (search commits : list reply) (u : url) : reply :=
  match u with
  | SearchUrl _ _ page => nth (Z.to_nat (page - 1)) search Fault
  | CommitsUrl _ _ _ _ _ _ page => nth (Z.to_nat (page - 1)) commits Fault
  | CommentsUrl _ _ _ =>
      Body (VList [comment "Dika-Paper" "Looks good" "2025-01-03T10:00:00Z";
                   comment "someone-else" "Thanks" "2025-01-03T11:00:00Z"])
  | DataUrl (VStr s) =>
      if String.eqb s "pulls/1" then Body (pr_detail "release/1.2")
      else if String.eqb s "pulls/2" then Body (pr_detail "staging")
      else if String.eqb s "pulls/3" then Body (pr_detail "main")
      else if String.eqb s "pulls/4" then Body (pr_detail "Release/x")
      else if String.eqb s "pulls/5" then Body (pr_detail "hotfix/1.0")
      else if String.eqb s "commits/1" then Body commit_detail
      else HTTPError 404 "Not Found"
  | DataUrl _ => Rejected
  end.

Definition world (search commits : list reply) : env :=
  {| GITHUB_TOKEN := Some "ghp_token";
     ORGANIZATION := "paper-indonesia";
     REPOSITORY := "paperangularapp";
     USERNAME := "dika-paper";
     sprint_config := {[ "224" := ("2025-01-01", "2025-01-14") ]};
     net := replies search commits;
     strftime_now := fun n => if n =? 0 then "20250102_090000" else "20250102_090500";
     isoformat_now := fun _ => "2025-01-02T09:00:01" |}.

Definition pr (number : Z) (author detail_url : string) : value :=
  VDict [("number", VInt number); ("title", VStr "Fix the login form");
         ("user", VDict [("login", VStr author)]);
         ("pull_request", VDict [("url", VStr detail_url)]);
         ("html_url", VStr "https://github.com/pr");
         ("created_at", VStr "2025-01-02T08:00:00Z");
         ("state", VStr "open")].

Definition search_page (items : list value) (total_count : Z) : reply :=
  Body (VDict [("total_count", VInt total_count); ("items", VList items)]).

Definition commit (sha message committer url : string) : value :=
  VDict [("sha", VStr sha); ("url", VStr url); ("html_url", VStr "https://github.com/c");
         ("commit", VDict [("message", VStr message);
                           ("author", VDict [("name", VStr "Dika"); ("email", VStr "d@x.io");
                                             ("date", VStr "2025-01-02T08:00:00Z")]);
                           ("committer", VDict [("name", VStr committer);
                                                ("date", VStr "2025-01-02T08:00:00Z")])])].

(** The value a search page decodes to. *)
Definition page_value (items : list value) (total_count : Z) : value :=
  VDict [("total_count", VInt total_count); ("items", VList items)].

(** 120 search results come as a page of 100 and a page of 20. *)
Definition two_pages : list value :=
  [page_value (repeat (pr 1 "alice" "pulls/1") 100) 120;
   page_value (repeat (pr 2 "bob" "pulls/2") 20) 120].

Definition two_commit_pages : list (list value) :=
  [repeat (commit "1f0c3e9a7b" "Add the sprint report" "Dika" "commits/1") 100;
   repeat (commit "77aa01b2c3" "Fix typo" "Dika" "commits/1") 3].

Definition no_files : filesystem := {| files := ∅; csvs_dir := true |}.

Definition cli (batch_size : Z) (branch_prefix : string) : args :=
  {| arg_org := None; arg_repo := None; arg_user := None; arg_sprint := "224";
     arg_batch_size := batch_size; arg_branch_prefix := branch_prefix |}.

(** Three PRs by other people, targeting release/1.2, staging and main. *)
Definition three_prs : list value :=
  [pr 1 "alice" "pulls/1"; pr 2 "bob" "pulls/2"; pr 3 "carol" "pulls/3"].

(** Two PRs that both target release/1.2. *)
Definition two_release_prs : list value :=
  [pr 1 "alice" "pulls/1"; pr 5 "bob" "pulls/1"].

(** The files a run of the PR report over [two_release_prs] with batch
    size 1 leaves when it is interrupted after its first batch. *)
Definition interrupted_pr_run : filesystem :=
  PR.disk (snd (PR.run_batches (world [] []) two_release_prs 1
                  (PR.progress_file_name (world [] [])) [0]
                  {| PR.processed_prs := VList []; PR.release_prs := [];
                     PR.disk := no_files |})).

(** The same for the comment report. *)
Definition interrupted_review_run : filesystem :=
  Review.disk (snd (Review.run_batches (world [] []) two_release_prs "dika-paper" 1
                      (Review.progress_file_name (world [] [])) [0]
                      {| Review.processed_prs := VList [];
                         Review.all_comments := VList [];
                         Review.disk := no_files |})).

(** Report records as the batches accumulate them, out of order and
    with a repeated key. *)
Definition comment_record (pr_number : Z) (created_at : string) : value :=
  VDict [("pr_number", VInt pr_number); ("pr_title", VStr "Fix the login form");
         ("pr_author", VStr "alice"); ("target_branch", VStr "staging");
         ("pr_url", VStr "https://github.com/pr"); ("comment_id", VInt 7);
         ("comment_body", VStr "Looks good");
         ("comment_full_body", VStr "Looks good");
         ("created_at", VStr created_at); ("updated_at", VStr created_at);
         ("comment_url", VStr "c/7")].

Definition accumulated_comments : list value :=
  [comment_record 4 "2025-01-03T10:00:00Z"; comment_record 9 "2025-01-01T08:30:00Z";
   comment_record 2 "2025-01-03T10:00:00Z"].

Definition pr_record (number : Z) (title : string) : value :=
  VDict [("number", VInt number); ("title", VStr title);
         ("target_branch", VStr "release/1.2"); ("origin_branch", VStr "feature/login");
         ("lines_added", VInt 12); ("lines_deleted", VInt 5);
         ("created_at", VStr "2025-01-02T08:00:00Z"); ("merged_at", VNone);
         ("state", VStr "open"); ("url", VStr "https://github.com/pr")].

Definition accumulated_prs : list value :=
  [pr_record 3 "first"; pr_record 8 "second"; pr_record 3 "third"].

(** Entries of the commit list as [process_commits_for_listing] builds
    them. *)
Definition commit_entry (sha author_date : string) : value :=
  VDict [("sha", VStr sha); ("short_sha", VStr (str_take 7 sha));
         ("message", VStr "Add the sprint report");
         ("full_message", VStr "Add the sprint report");
         ("author_name", VStr "Dika"); ("author_email", VStr "d@x.io");
         ("author_date", VStr author_date); ("committer_name", VStr "Dika");
         ("committer_date", VStr author_date); ("lines_added", VInt 3);
         ("lines_deleted", VInt 1); ("files_changed", VInt 1);
         ("url", VStr "https://github.com/c")].

Definition listed_commits : list value :=
  [commit_entry "9d8e7f6a5b" "2025-01-05T09:00:00Z";
   commit_entry "1f0c3e9a7b" "2025-01-02T08:00:00Z";
   commit_entry "77aa01b2c3" "2025-01-05T09:00:00Z"].

End Demo.

(** ** Notions the statements below use *)

Module Spec.
Import Py World.

(** The four refs the branch predicate is pinned on. *)
Definition branch_predicate_exact (accepts : string -> bool) : Prop :=
  accepts "staging" = true /\ accepts "release/1.2" = true /\
  accepts "main" = false /\ accepts "Release/x" = false.

(** The author login of a raw item, when it has one. *)
Definition author_login (pr : value) : option string :=
  match pr with
  | VDict d =>
      match assoc "user" d with
      | Some (VDict u) =>
          match assoc "login" u with
          | Some (VStr a) => Some a
          | _ => None
          end
      | _ => None
      end
  | _ => None
  end.

(** The comment report, run on a PR of somebody else whose detail request
    gives the base ref behind [detail_url]. *)
Definition review_keeps (detail_url : string) : bool :=
  match Review.process_pr (Demo.world [] []) "dika-paper"
          (Demo.pr 1 "alice" detail_url) with
  | Ret (_ :: _) => true
  | _ => false
  end.

Definition pr_report_keeps (detail_url : string) : bool :=
  match PR.process_pr (Demo.world [] []) (Demo.pr 1 "alice" detail_url) with
  | Ret (_ :: _) => true
  | _ => false
  end.

(** The committer name and the first line of the message of a fetched
    commit, read the way [process_commits_for_listing] reads them. *)
Definition committer_name (commit : value) : outcome value :=
  let! commit_info := get commit "commit" (VDict []) in
  let! committer_info := get commit_info "committer" (VDict []) in
  get committer_info "name" (VStr "").

(** [commit.get('commit', {}).get('message', '')]. *)
Definition commit_message (commit : value) : outcome value :=
  let! commit_info := get commit "commit" (VDict []) in
  get commit_info "message" (VStr "").

Definition message_first_line (commit : value) : outcome string :=
  let! commit_info := get commit "commit" (VDict []) in
  let! message := get commit_info "message" (VStr "") in
  first_line_of message.

(** The commits C10 speaks of: committed by "GitHub", or with a message
    whose first line starts with "Merge branch". *)
Definition is_merge_commit (commit : value) : bool :=
  match committer_name commit with
  | Ret name => eq_str name "GitHub"
  | Raise _ => false
  end
  || match message_first_line commit with
     | Ret line => startswith line "Merge branch"
     | Raise _ => false
     end.

(** The detail request of a commit does not make the listing raise:
    there is no URL, or the request is answered and a dict answer has a
    dict under "stats" and something with a length under "files". *)
Definition detail_well_formed (w : env) (commit_detail_url : value) : bool :=
  negb (truthy commit_detail_url)
  || has_token w
     && match net w (DataUrl commit_detail_url) with
        | Rejected => false
        | Body (VDict dd) =>
            match dd with
            | [] => true
            | _ =>
                match assoc "stats" dd with
                | None | Some (VDict _) =>
                    match assoc "files" dd with
                    | None | Some (VStr _) | Some (VList _) | Some (VDict _) => true
                    | _ => false
                    end
                | _ => false
                end
            end
        | _ => true
        end.

Definition dict_or_absent (o : option value) : bool :=
  match o with
  | None | Some (VDict _) => true
  | _ => false
  end.

(** A fetched commit of the shape the commits endpoint returns: a dict
    with a string "sha" and, under "commit", a dict with a string
    "message" and dicts "author" and "committer". *)
Definition well_formed_commit (w : env) (commit : value) : bool :=
  match commit with
  | VDict d =>
      match assoc "sha" d with
      | None | Some (VStr _) => true
      | _ => false
      end
      && match assoc "commit" d with
         | None => true
         | Some (VDict ci) =>
             match assoc "message" ci with
             | None | Some (VStr _) => true
             | _ => false
             end
             && dict_or_absent (assoc "author" ci)
             && dict_or_absent (assoc "committer" ci)
         | _ => false
         end
      && detail_well_formed w (match assoc "url" d with Some u => u | None => VNone end)
  | _ => false
  end.

(** *** Pages of the list endpoints *)

(** A page of the search endpoint: a dict with a list under "items" and
    an integer under "total_count". *)
Definition well_formed_page (v : value) : bool :=
  match v with
  | VDict d =>
      match assoc "items" d, assoc "total_count" d with
      | Some (VList _), Some (VInt _) => true
      | _, _ => false
      end
  | _ => false
  end.

Definition page_items (v : value) : list value :=
  match v with
  | VDict d =>
      match assoc "items" d with
      | Some (VList its) => its
      | _ => []
      end
  | _ => []
  end.

Definition reported_total (v : value) : Z :=
  match v with
  | VDict d =>
      match assoc "total_count" d with
      | Some (VInt t) => t
      | _ => 0
      end
  | _ => 0
  end.

(** The page ends the crawl when [count] items came before it: it has
    fewer than [per_page] items, or with it the count reaches the total
    it reports. *)
Definition stops_at (count : Z) (v : value) : bool :=
  let n := Z.of_nat (List.length (page_items v)) in
  (n <? per_page) || (reported_total v <=? count + n).

(** Whether some page of the sequence ends the crawl, and the pages up to
    and including the first that does. *)
Fixpoint terminates (count : Z) (pages : list value) : bool :=
  match pages with
  | [] => false
  | v :: rest =>
      stops_at count v
      || terminates (count + Z.of_nat (List.length (page_items v))) rest
  end.

Fixpoint fetched (count : Z) (pages : list value) : list value :=
  match pages with
  | [] => []
  | v :: rest =>
      if stops_at count v then [v]
      else v :: fetched (count + Z.of_nat (List.length (page_items v))) rest
  end.

Definition all_items (pages : list value) : list value :=
  concat (map page_items pages).

(** The search endpoint answers page [start + j] of [query] with the
    [j]-th of [pages]. *)
Definition serves (w : env) (query : string) (start : Z) (pages : list value)
  : Prop :=
  forall (j : nat) (v : value),
    nth_error pages j = Some v ->
    net w (SearchUrl query per_page (start + Z.of_nat j)) = Body v.

(** The same for the commits endpoint, whose pages are bare lists. *)
Definition serves_commits (w : env) (org repo user since_date until_date : string)
    (start : Z) (pages : list (list value)) : Prop :=
  forall (j : nat) (cs : list value),
    nth_error pages j = Some cs ->
    net w (CommitsUrl org repo user since_date until_date per_page
             (start + Z.of_nat j)) = Body (VList cs).

Definition short_page (cs : list value) : bool :=
  Z.of_nat (List.length cs) <? per_page.

Fixpoint fetched_commits (pages : list (list value)) : list (list value) :=
  match pages with
  | [] => []
  | cs :: rest => if short_page cs then [cs] else cs :: fetched_commits rest
  end.

(** *** Failing page requests *)

(** The total C5 expects after a truncated crawl: the total_count the
    API reported last, when it reported one. *)
Definition best_known_total (pages : list value) : value :=
  match pages with
  | [] => VInt 0
  | _ => VInt (reported_total (List.last pages VNone))
  end.

(** A page request that fails: a transport failure, or a body that is
    not a dict with a list of items. *)
Definition failed (r : reply) : bool :=
  match r with
  | Body (VDict d) =>
      match assoc "items" d with
      | Some (VList _) => false
      | None => match d with [] => true | _ => false end
      | Some _ => true
      end
  | Body _ => true
  | HTTPError _ _ | Fault => true
  | Rejected => false
  end.

(** C5 as it is stated, for the pages of [query] in the world [w]. *)
Definition silent_truncation_with_best_known_total (w : env) (query : string)
  : Prop :=
  forall (pages : list value) (fuel : nat),
    serves w query 1 pages ->
    forallb well_formed_page pages = true ->
    terminates 0 pages = false ->
    failed (net w (SearchUrl query per_page (Z.of_nat (List.length pages) + 1)))
      = true ->
    (List.length pages < fuel)%nat ->
    search_paginate w query fuel
    = Some (Ret (all_items pages, best_known_total pages)).

(** What the paginator returns as total after a failing request, when
    [count] items were accumulated: the count after a transport failure
    or a falsy body; the response's own total_count (the count when it
    has none) after a dict whose items are not a list.  A truthy body
    that is not a dict is not covered. *)
Definition total_after_failure (r : reply) (count : Z) : option value :=
  match r with
  | HTTPError _ _ | Fault => Some (VInt count)
  | Body v =>
      if negb (truthy v) then Some (VInt count)
      else
        match v with
        | VDict d =>
            match assoc "items" d with
            | Some (VList _) | None => None
            | Some _ =>
                Some (match assoc "total_count" d with
                      | Some t => t
                      | None => VInt count
                      end)
            end
        | _ => None
        end
  | Rejected => None
  end.

(** *** Checkpoints *)

(** The file [progress_file] holds a checkpoint over the first [c] of
    [items]: its "processed" list is those items and its
    "processed_count" is [c]. *)
Definition checkpoint_covers (fs : filesystem) (progress_file : string)
    (items : list value) (c : Z) : Prop :=
  exists d,
    files fs !! progress_file = Some (JsonFile (VDict d)) /\
    assoc "processed" d = Some (VList (firstn (Z.to_nat c) items)) /\
    assoc "processed_count" d = Some (VInt c) /\
    len (VList (firstn (Z.to_nat c) items)) = Ret c.

(** A checkpoint of the comment report that an earlier run over [items]
    left after [k] items: the items processed and the comments they
    gave. *)
Definition review_checkpoint (w : env) (username : string) (items : list value)
    (k : nat) (cp : value) : Prop :=
  (k <= List.length items)%nat /\
  exists d C,
    cp = VDict d /\
    assoc "processed" d = Some (VList (firstn k items)) /\
    assoc "all_comments" d = Some (VList C) /\
    for_extend (Review.process_pr w username) (firstn k items) = Ret C.

(** The offset at which a run that finds the files [fs] starts its
    loop: [start_index] of [process_prs_for_comments], resp.
    [process_prs_in_batches]. *)
Definition review_start_index (fs : filesystem) (progress_file : string)
  : outcome Z :=
  let! progress := load_progress progress_file fs in
  let! start := Review.initial_state progress fs in
  Ret (snd start).

Definition pr_start_index (fs : filesystem) (progress_file : string)
  : outcome Z :=
  let! progress := load_progress progress_file fs in
  let! start := PR.initial_state progress fs in
  Ret (snd start).

(** *** Sort keys of the report records *)

Definition has_created_at (x : value) : bool :=
  match item x "created_at" with
  | Ret (VStr _) => true
  | _ => false
  end.

Definition created_at (x : value) : string :=
  match item x "created_at" with
  | Ret (VStr s) => s
  | _ => ""
  end.

Definition has_number (x : value) : bool :=
  match item x "number" with
  | Ret v => match as_int v with Some _ => true | None => false end
  | Raise _ => false
  end.

Definition number (x : value) : Z :=
  match item x "number" with
  | Ret v => match as_int v with Some n => n | None => 0 end
  | Raise _ => 0
  end.

(** Ascending by creation timestamp; descending by PR number. *)
Definition older_first (x y : value) : Prop :=
  String.leb (created_at x) (created_at y) = true.

Definition higher_number_first (x y : value) : Prop :=
  number y <= number x.

(** The records of [l] created at [k], resp. numbered [k], in the order
    they have in [l]. *)
Definition created_at_is (k : string) (l : list value) : list value :=
  List.filter (fun x => String.eqb (created_at x) k) l.

Definition number_is (k : Z) (l : list value) : list value :=
  List.filter (fun x => Z.eqb (number x) k) l.

(** A reply to a request for a list (a page of commits, the comments of
    a PR) that is no list: a transport failure, or a body that is not a
    list. *)
Definition not_a_list (r : reply) : bool :=
  match r with
  | HTTPError _ _ | Fault => true
  | Body (VList _) => false
  | Body _ => true
  | Rejected => false
  end.

(** A reply to a detail request that gives no detail: a transport
    failure, or a body that is falsy or not a dict. *)
Definition no_detail (r : reply) : bool :=
  match r with
  | HTTPError _ _ | Fault => true
  | Body (VDict (_ :: _)) => false
  | Body _ => true
  | Rejected => false
  end.

(** The URL under ["pull_request"]["url"] of a search result. *)
Definition detail_url (pr : value) : option value :=
  match pr with
  | VDict d =>
      match assoc "pull_request" d with
      | Some (VDict link) => assoc "url" link
      | _ => None
      end
  | _ => None
  end.

Definition has_string_title (pr : value) : bool :=
  match pr with
  | VDict d => match assoc "title" d with Some (VStr _) => true | _ => false end
  | _ => false
  end.

(** Whether a comment (or a PR) was written by [username], up to case. *)
Definition written_by (username : string) (x : value) : bool :=
  match author_login x with
  | Some a => String.eqb (lower a) (lower username)
  | None => false
  end.

Definition has_login (x : value) : bool :=
  match author_login x with Some _ => true | None => false end.

Definition has_author_date (x : value) : bool :=
  match item x "author_date" with
  | Ret (VStr _) => true
  | _ => false
  end.

Definition author_date (x : value) : string :=
  match item x "author_date" with
  | Ret (VStr s) => s
  | _ => ""
  end.

(** The entries of [l] authored at [k], in the order they have in [l]. *)
Definition author_date_is (k : string) (l : list value) : list value :=
  List.filter (fun x => String.eqb (author_date x) k) l.

(** *** Runs *)

Definition transport_failure (r : reply) : bool :=
  match r with
  | HTTPError _ _ | Fault => true
  | _ => false
  end.

(** Organization, repository and user are all given, on the command
    line or in the environment. *)
Definition names_given (w : env) (a : args) : bool :=
  negb (String.eqb (or_default (arg_org a) (ORGANIZATION w)) "")
  && negb (String.eqb (or_default (arg_repo a) (REPOSITORY w)) "")
  && negb (String.eqb (or_default (arg_user a) (USERNAME w)) "").

End Spec.

(** * Properties *)

Import Py World.

(** ** The outcome monad and the loops over lists *)

Lemma bind_ret_r {A : Type} (m : outcome A) : bind m Ret = m.
Proof. destruct m; reflexivity. Qed.

Lemma for_extend_app {A B : Type} (f : A -> outcome (list B)) (xs ys : list A) :
  for_extend f (xs ++ ys) =
  let! a := for_extend f xs in let! b := for_extend f ys in Ret (a ++ b).
Proof.
  induction xs as [|x xs IH]; simpl.
  - now rewrite bind_ret_r.
  - destruct (f x) as [r|e]; simpl; [|reflexivity].
    rewrite IH. destruct (for_extend f xs) as [a|e]; simpl; [|reflexivity].
    destruct (for_extend f ys) as [b|e]; simpl; [|reflexivity].
    now rewrite app_assoc.
Qed.

Lemma for_extend_skip {A B : Type} (f : A -> outcome (list B)) (x : A)
    (before after : list A) :
  f x = Ret [] ->
  for_extend f (before ++ x :: after) = for_extend f (before ++ after).
Proof.
  intros Hx. rewrite !for_extend_app. simpl. rewrite Hx. simpl.
  now rewrite bind_ret_r.
Qed.

(** ** The target-branch predicates (C2) *)

Lemma review_branch_test (b : string) :
  Review.targets_wanted_branch b
  = String.eqb b "staging" || startswith b "release/".
Proof.
  unfold Review.targets_wanted_branch.
  destruct (String.eqb b "staging"), (startswith b "release/"); reflexivity.
Qed.

(** C2, as stated, fails: the PR report applies a target-branch test too
    (line 168 of pr.py), and that test rejects the base ref "staging",
    both as a predicate and when the filter pipeline runs on a PR whose
    base ref is "staging". *)
Lemma branch_predicate_not_exact_in_pr_report :
  ~ (Spec.branch_predicate_exact Review.targets_wanted_branch /\
     Spec.branch_predicate_exact (fun b => PR.targets_release_branch (VStr b)))
  /\ PR.process_pr (Demo.world [] []) (Demo.pr 2 "alice" "pulls/2") = Ret [].
Proof.
  split.
  - intros [_ [H _]]. discriminate H.
  - reflexivity.
Qed.

(** C2, amended: the comment report's target-branch test accepts
    "staging" and "release/1.2" and rejects "main" and "Release/x" (it
    accepts exactly "staging" and the refs that start with "release/",
    compared case-sensitively); the PR report's test accepts "release/1.2"
    and rejects "staging", "main" and "Release/x" (it accepts exactly the
    refs that start with "release/").  The filter pipelines keep and drop
    PRs with these base refs accordingly. *)
Theorem branch_predicates_per_report :
  Spec.branch_predicate_exact Review.targets_wanted_branch
  /\ (forall b, Review.targets_wanted_branch b
                = String.eqb b "staging" || startswith b "release/")
  /\ (PR.targets_release_branch (VStr "release/1.2") = true
      /\ PR.targets_release_branch (VStr "staging") = false
      /\ PR.targets_release_branch (VStr "main") = false
      /\ PR.targets_release_branch (VStr "Release/x") = false)
  /\ (forall b, PR.targets_release_branch (VStr b) = startswith b "release/")
  /\ map Spec.review_keeps ["pulls/2"; "pulls/1"; "pulls/3"; "pulls/4"]
     = [true; true; false; false]
  /\ map Spec.pr_report_keeps ["pulls/2"; "pulls/1"; "pulls/3"; "pulls/4"]
     = [false; true; false; false].
Proof.
  split; [repeat split; reflexivity|].
  split; [exact review_branch_test|].
  split; [repeat split; reflexivity|].
  split; [reflexivity|].
  split; vm_compute; reflexivity.
Qed.

(** ** Self-authored PRs in the comment report (C7) *)

Lemma process_pr_self_authored (w : env) (username : string) (pr : value)
    (a : string) :
  Spec.author_login pr = Some a ->
  lower a = lower username ->
  Review.process_pr w username pr = Ret [].
Proof.
  intros Hlogin Hsame.
  destruct pr as [| | | | |d]; try discriminate Hlogin.
  simpl in Hlogin.
  destruct (assoc "user" d) as [[| | | | |u]|] eqn:Huser; try discriminate Hlogin.
  destruct (assoc "login" u) as [[| | |s| |]|] eqn:Hl; try discriminate Hlogin.
  injection Hlogin as ->.
  unfold Review.process_pr. simpl. rewrite Huser. simpl. rewrite Hl. simpl.
  rewrite Hsame, String.eqb_refl. reflexivity.
Qed.

(** C7: a raw item whose author login equals the target username up to
    case is rejected by the comment report's pipeline, whatever the world
    answers for its details and comments and whatever else the item holds;
    it adds nothing to the comments collected from the batch it is in. *)
Theorem self_authored_pr_contributes_nothing (w : env) (username : string)
    (pr : value) (a : string) :
  Spec.author_login pr = Some a ->
  lower a = lower username ->
  Review.process_pr w username pr = Ret []
  /\ forall before after : list value,
       for_extend (Review.process_pr w username) (before ++ pr :: after)
       = for_extend (Review.process_pr w username) (before ++ after).
Proof.
  intros Hlogin Hsame.
  pose proof (process_pr_self_authored w username pr a Hlogin Hsame) as H.
  split; [exact H|].
  intros before after. now apply for_extend_skip.
Qed.

Lemma self_authored_pr_contributes_nothing_witness :
  Review.process_pr (Demo.world [] []) "dika-paper"
    (Demo.pr 1 "Dika-Paper" "pulls/1") = Ret []
  /\ forall before after : list value,
       for_extend (Review.process_pr (Demo.world [] []) "dika-paper")
         (before ++ Demo.pr 1 "Dika-Paper" "pulls/1" :: after)
       = for_extend (Review.process_pr (Demo.world [] []) "dika-paper")
           (before ++ after).
Proof.
  apply (self_authored_pr_contributes_nothing (Demo.world [] []) "dika-paper"
           (Demo.pr 1 "Dika-Paper" "pulls/1") "Dika-Paper");
    reflexivity.
Defined.

(** ** Merge commits in the commit list (C10) *)

Lemma process_commit_well_formed (w : env) (commit : value) :
  Spec.well_formed_commit w commit = true ->
  exists r,
    Commit.process_commit w commit = Ret r /\
    match r with
    | None => Spec.is_merge_commit commit = true
    | Some entry =>
        Spec.is_merge_commit commit = false /\
        item entry "sha" = get commit "sha" (VStr "")
    end.
Proof.
  intros Hwf.
  destruct commit as [| | | | |d]; try discriminate Hwf.
  unfold Spec.well_formed_commit in Hwf.
  apply andb_prop in Hwf as [Hwf Hdetail].
  apply andb_prop in Hwf as [Hsha Hci].
  assert (Hstats : exists t, Commit.commit_stats w
            (match assoc "url" d with Some u => u | None => VNone end) = Ret t).
  { unfold Spec.detail_well_formed in Hdetail. unfold Commit.commit_stats.
    destruct (truthy _); [|eauto]. simpl in Hdetail.
    apply andb_prop in Hdetail as [Htok Hnet].
    unfold github_request. rewrite Htok. simpl.
    destruct (net w _) as [v| | |]; try discriminate Hnet; simpl; eauto.
    destruct v as [| | | | |dd]; simpl; rewrite ?andb_false_r; eauto.
    destruct dd as [|p dd']; [simpl; eauto|].
    remember (p :: dd') as dd eqn:Hdd.
    replace (match dd with [] => false | _ :: _ => true end) with true
      by (subst dd; reflexivity).
    replace (match dd with [] => true | _ :: _ => _ end) with
      (match assoc "stats" dd with
       | None | Some (VDict _) =>
           match assoc "files" dd with
           | None | Some (VStr _) | Some (VList _) | Some (VDict _) => true
           | _ => false
           end
       | _ => false
       end) in Hnet by (subst dd; reflexivity).
    simpl.
    destruct (assoc "stats" dd) as [[| | | | |st]|]; try discriminate Hnet;
      destruct (assoc "files" dd) as [[| | | | |]|]; try discriminate Hnet;
      simpl; eauto. }
  destruct Hstats as [[[additions deletions] nfiles] Hstats].
  unfold Commit.process_commit, Spec.is_merge_commit, Spec.committer_name,
    Spec.message_first_line.
  simpl.
  destruct (assoc "commit" d) as [[| | | | |ci]|] eqn:Hcommit;
    try discriminate Hci.
  - apply andb_prop in Hci as [Hci Hcommitter].
    apply andb_prop in Hci as [Hmsg Hauthor].
    destruct (assoc "sha" d) as [[| | |sha| |]|] eqn:Hs; try discriminate Hsha;
      simpl;
      destruct (assoc "message" ci) as [[| | |msg| |]|]; try discriminate Hmsg;
      simpl; rewrite Hstats; simpl;
      destruct (assoc "author" ci) as [[| | | | |au]|]; try discriminate Hauthor;
      destruct (assoc "committer" ci) as [[| | | | |cm]|];
      try discriminate Hcommitter; simpl;
      repeat match goal with
        | |- context [if ?c then _ else _] => destruct c eqn:?
        end; simpl; eexists; (split; [reflexivity|]); simpl; auto.
  - destruct (assoc "sha" d) as [[| | |sha| |]|] eqn:Hs; try discriminate Hsha;
      simpl; rewrite Hstats; simpl; eexists; (split; [reflexivity|]);
      simpl; auto.
Qed.

Lemma process_commit_skips_exactly_merges (w : env) (commit : value)
    (r : option value) :
  Commit.process_commit w commit = Ret r ->
  (r = None <-> Spec.is_merge_commit commit = true).
Proof.
  unfold Commit.process_commit, Spec.is_merge_commit, Spec.committer_name,
    Spec.message_first_line.
  intros H.
  destruct (get commit "commit" (VDict [])) as [ci|] eqn:Hci; [|discriminate H].
  simpl in *.
  destruct (get commit "sha" (VStr "")) as [sha|]; [|discriminate H]. simpl in H.
  destruct (take 7 sha) as [short|]; [|discriminate H]. simpl in H.
  destruct (get ci "message" (VStr "")) as [msg|]; [|discriminate H]. simpl in *.
  destruct (first_line_of msg) as [line|]; [|discriminate H]. simpl in H.
  destruct (get commit "url" VNone) as [u|]; [|discriminate H]. simpl in H.
  destruct (Commit.commit_stats w u) as [[[a dl] f]|]; [|discriminate H].
  simpl in H.
  destruct (get ci "author" (VDict [])) as [au|]; [|discriminate H]. simpl in H.
  destruct (get ci "committer" (VDict [])) as [cm|]; [|discriminate H].
  simpl in *.
  destruct (get cm "name" (VStr "")) as [name|]; [|discriminate H]. simpl in *.
  destruct (eq_str name "GitHub"); simpl.
  - injection H as <-. tauto.
  - destruct (startswith line "Merge branch").
    + injection H as <-. tauto.
    + destruct (get commit "html_url" (VStr "")); [|discriminate H]. simpl in H.
      destruct (get au "name" (VStr "")); [|discriminate H]. simpl in H.
      destruct (get au "email" (VStr "")); [|discriminate H]. simpl in H.
      destruct (get au "date" (VStr "")); [|discriminate H]. simpl in H.
      destruct (get cm "date" (VStr "")); [|discriminate H]. simpl in H.
      injection H as <-. split; intros; discriminate.
Qed.

Lemma process_commits_well_formed (w : env) (commits : list value) :
  Forall (fun c => Spec.well_formed_commit w c = true) commits ->
  exists commit_list,
    Commit.process_commits_for_listing w commits = Ret commit_list /\
    Forall2 (fun c entry => item entry "sha" = get c "sha" (VStr ""))
      (List.filter (fun c => negb (Spec.is_merge_commit c)) commits) commit_list.
Proof.
  induction 1 as [|c commits Hc _ IH]; simpl.
  - exists []. split; [reflexivity|constructor].
  - destruct (process_commit_well_formed w c Hc) as [r [Hr Hshape]].
    destruct IH as [rest [Hrest Hall]].
    rewrite Hr, Hrest. simpl.
    destruct r as [entry|].
    + destruct Hshape as [Hmerge Hsha]. rewrite Hmerge. simpl.
      eexists. split; [reflexivity|]. now constructor.
    + rewrite Hshape. simpl. eexists. split; [reflexivity|assumption].
Qed.

(** C10: the commit listing appends no entry for a fetched commit whose
    committer name is "GitHub" or whose message's first line starts with
    "Merge branch", and exactly one entry for every other commit: whenever
    the loop body completes for a commit it has skipped the commit exactly
    in those two cases, and on well-formed commits the listing returns, in
    order, one entry (carrying the commit's sha) per commit that is not
    such a merge commit. *)
Theorem merge_commits_are_not_listed (w : env) (commits : list value) :
  Forall (fun c => Spec.well_formed_commit w c = true) commits ->
  (forall c r, Commit.process_commit w c = Ret r ->
               (r = None <-> Spec.is_merge_commit c = true))
  /\ exists commit_list,
       Commit.process_commits_for_listing w commits = Ret commit_list /\
       Forall2 (fun c entry => item entry "sha" = get c "sha" (VStr ""))
         (List.filter (fun c => negb (Spec.is_merge_commit c)) commits) commit_list /\
       List.length commit_list
       = List.length (List.filter (fun c => negb (Spec.is_merge_commit c)) commits).
Proof.
  intros Hwf. split.
  - intros c r. apply process_commit_skips_exactly_merges.
  - destruct (process_commits_well_formed w commits Hwf) as [l [Hl Hall]].
    exists l. split; [exact Hl|]. split; [exact Hall|].
    symmetry. eapply Forall2_length. exact Hall.
Qed.

Lemma merge_commits_are_not_listed_witness :
  let w := Demo.world [] [] in
  let commits :=
    [Demo.commit "1f0c3e9a7b" "Add the sprint report" "Dika" "commits/1";
     Demo.commit "77aa01b2c3" "Merge branch 'main' into feature" "Dika" "commits/1";
     Demo.commit "9d8e7f6a5b" "Update README" "GitHub" "commits/404"] in
  (forall c r, Commit.process_commit w c = Ret r ->
               (r = None <-> Spec.is_merge_commit c = true))
  /\ exists commit_list,
       Commit.process_commits_for_listing w commits = Ret commit_list /\
       Forall2 (fun c entry => item entry "sha" = get c "sha" (VStr ""))
         (List.filter (fun c => negb (Spec.is_merge_commit c)) commits) commit_list /\
       List.length commit_list
       = List.length (List.filter (fun c => negb (Spec.is_merge_commit c)) commits).
Proof.
  intros w commits.
  apply (merge_commits_are_not_listed w commits).
  repeat (constructor; try reflexivity).
Defined.

(** ** The paginators (C4, C5) *)

Lemma serves_tail (w : env) (query : string) (start : Z) (v : value)
    (pages : list value) :
  Spec.serves w query start (v :: pages) ->
  net w (SearchUrl query per_page start) = Body v /\
  Spec.serves w query (start + 1) pages.
Proof.
  intros H. split.
  - specialize (H O v eq_refl). now rewrite Z.add_0_r in H.
  - intros j x Hj. specialize (H (S j) x Hj).
    now replace (start + 1 + Z.of_nat j) with (start + Z.of_nat (S j)) by lia.
Qed.

Lemma request_served (w : env) (u : url) (v : value) :
  has_token w = true -> net w u = Body v -> github_request w u = Ret v.
Proof. intros Ht Hn. unfold github_request. now rewrite Ht, Hn. Qed.

(** One turn of the search loop on a well-formed page. *)
Lemma search_loop_page (w : env) (query : string) (fuel : nat) (page : Z)
    (acc : list value) (v : value) :
  has_token w = true ->
  net w (SearchUrl query per_page page) = Body v ->
  Spec.well_formed_page v = true ->
  search_loop w query (S fuel) page acc =
  if Spec.stops_at (Z.of_nat (List.length acc)) v
  then Some (Ret (acc ++ Spec.page_items v, VInt (Spec.reported_total v)))
  else search_loop w query fuel (page + 1) (acc ++ Spec.page_items v).
Proof.
  intros Ht Hn Hwf. simpl. rewrite (request_served w _ v Ht Hn).
  destruct v as [| | | | |d]; try discriminate Hwf.
  unfold Spec.well_formed_page in Hwf.
  unfold Spec.stops_at, Spec.page_items, Spec.reported_total.
  destruct (assoc "items" d) as [[| | | |its|]|] eqn:Hits; try discriminate Hwf.
  destruct (assoc "total_count" d) as [[| |t| | |]|] eqn:Htot;
    try discriminate Hwf.
  assert (Htruthy : truthy (VDict d) = true).
  { destruct d; [discriminate Hits|reflexivity]. }
  rewrite Htruthy. simpl negb. cbv iota.
  unfold search_result. rewrite Htruthy. simpl get. rewrite Htot. simpl bind.
  destruct its as [|x its'].
  - simpl. now rewrite app_nil_r.
  - set (its := x :: its'). simpl truthy. simpl negb. cbv iota.
    destruct (Z.of_nat (List.length its) <? per_page) eqn:Hshort; simpl orb.
    + reflexivity.
    + unfold int_ge. simpl as_int. rewrite length_app, Nat2Z.inj_add.
      destruct (t <=? _); reflexivity.
Qed.

Lemma search_loop_fetched (w : env) (query : string) (pages : list value) :
  has_token w = true ->
  forallb Spec.well_formed_page pages = true ->
  forall (fuel : nat) (start : Z) (acc : list value),
    Spec.serves w query start pages ->
    Spec.terminates (Z.of_nat (List.length acc)) pages = true ->
    (List.length pages <= fuel)%nat ->
    search_loop w query fuel start acc
    = let got := Spec.fetched (Z.of_nat (List.length acc)) pages in
      Some (Ret (acc ++ Spec.all_items got,
                 VInt (Spec.reported_total (List.last got VNone)))).
Proof.
  intros Ht. induction pages as [|v pages IH]; intros Hwf fuel start acc Hs Hterm Hfuel.
  - discriminate Hterm.
  - simpl in Hwf. apply andb_prop in Hwf as [Hv Hwf].
    apply serves_tail in Hs as [Hn Hs].
    destruct fuel as [|fuel]; [simpl in Hfuel; lia|].
    rewrite (search_loop_page w query fuel start acc v Ht Hn Hv).
    simpl in Hterm. simpl Spec.fetched.
    destruct (Spec.stops_at (Z.of_nat (List.length acc)) v) eqn:Hstop.
    + unfold Spec.all_items. simpl. now rewrite app_nil_r.
    + simpl in Hterm.
      assert (Hlen : Z.of_nat (List.length (acc ++ Spec.page_items v))
                     = Z.of_nat (List.length acc)
                       + Z.of_nat (List.length (Spec.page_items v))).
      { now rewrite length_app, Nat2Z.inj_add. }
      rewrite (IH Hwf fuel (start + 1) (acc ++ Spec.page_items v) Hs);
        [|now rewrite Hlen|simpl in Hfuel; lia].
      rewrite Hlen. cbv zeta. unfold Spec.all_items. simpl concat.
      rewrite <- app_assoc.
      destruct (Spec.fetched _ pages) eqn:Hf; [|reflexivity].
      exfalso. clear - Hterm Hf.
      destruct pages; [discriminate Hterm|]. simpl in Hf.
      destruct (Spec.stops_at _ _); discriminate Hf.
Qed.

Lemma serves_commits_tail (w : env) (org repo user since_date until_date : string)
    (start : Z) (cs : list value) (pages : list (list value)) :
  Spec.serves_commits w org repo user since_date until_date start (cs :: pages) ->
  net w (CommitsUrl org repo user since_date until_date per_page start)
    = Body (VList cs) /\
  Spec.serves_commits w org repo user since_date until_date (start + 1) pages.
Proof.
  intros H. split.
  - specialize (H O cs eq_refl). now rewrite Z.add_0_r in H.
  - intros j x Hj. specialize (H (S j) x Hj).
    now replace (start + 1 + Z.of_nat j) with (start + Z.of_nat (S j)) by lia.
Qed.

Lemma commits_loop_fetched (w : env) (org repo user since_date until_date : string)
    (pages : list (list value)) :
  has_token w = true ->
  forall (fuel : nat) (start : Z) (acc : list value),
    Spec.serves_commits w org repo user since_date until_date start pages ->
    existsb Spec.short_page pages = true ->
    (List.length pages <= fuel)%nat ->
    Commit.commits_loop w org repo user since_date until_date fuel start acc
    = let got := acc ++ concat (Spec.fetched_commits pages) in
      Some (Ret (got, Z.of_nat (List.length got))).
Proof.
  intros Ht. induction pages as [|cs pages IH]; intros fuel start acc Hs Hshort Hfuel.
  - discriminate Hshort.
  - apply serves_commits_tail in Hs as [Hn Hs].
    destruct fuel as [|fuel]; [simpl in Hfuel; lia|].
    simpl Commit.commits_loop. rewrite (request_served w _ _ Ht Hn).
    simpl in Hshort. simpl Spec.fetched_commits.
    unfold Spec.short_page in *.
    destruct cs as [|c cs'].
    + simpl. now rewrite app_nil_r.
    + set (cs := c :: cs') in *. simpl truthy. simpl negb. cbv iota.
      destruct (Z.of_nat (List.length cs) <? per_page) eqn:Hlt.
      * simpl. now rewrite app_nil_r.
      * simpl in Hshort.
        rewrite (IH fuel (start + 1) (acc ++ cs) Hs Hshort);
          [|simpl in Hfuel; lia].
        cbv zeta. simpl concat. now rewrite <- app_assoc.
Qed.

(** C4: when the pages the search endpoint serves are well formed and
    some page has fewer than [per_page] (100) items, or brings the number
    of items to the total it reports, the search paginator (the same code
    in review.py and pr.py) terminates (any fuel that covers the pages is
    enough) and returns exactly the items of the pages up to and including
    the first such page, concatenated in fetch order.  The commits
    paginator, which has no reported total, does so whenever some page of
    commits has fewer than 100 of them.  Each paginator has its own
    pages: neither statement asks anything of the other endpoint. *)
Theorem pagination_terminates_with_all_fetched_items
    (w : env) (query : string) (pages : list value) (fuel : nat)
    (org repo user since_date until_date : string)
    (commit_pages : list (list value)) (commit_fuel : nat) :
  has_token w = true ->
  (Spec.serves w query 1 pages ->
   forallb Spec.well_formed_page pages = true ->
   Spec.terminates 0 pages = true ->
   (List.length pages <= fuel)%nat ->
   let result :=
     Some (Ret (Spec.all_items (Spec.fetched 0 pages),
                VInt (Spec.reported_total (List.last (Spec.fetched 0 pages) VNone)))) in
   Review.get_filtered_prs w query fuel = result
   /\ PR.get_all_prs_fast w query fuel = result)
  /\ (Spec.serves_commits w org repo user since_date until_date 1 commit_pages ->
      existsb Spec.short_page commit_pages = true ->
      (List.length commit_pages <= commit_fuel)%nat ->
      Commit.get_all_commits_fast w org repo user since_date until_date commit_fuel
      = Some (Ret (concat (Spec.fetched_commits commit_pages),
                   Z.of_nat (List.length (concat (Spec.fetched_commits commit_pages)))))).
Proof.
  intros Ht. split.
  - intros Hs Hwf Hterm Hfuel result.
    assert (Hsearch : search_paginate w query fuel = result).
    { unfold search_paginate.
      now rewrite (search_loop_fetched w query pages Ht Hwf fuel 1 [] Hs Hterm Hfuel). }
    split; exact Hsearch.
  - intros Hcs Hshort Hcfuel. unfold Commit.get_all_commits_fast.
    now rewrite (commits_loop_fetched w org repo user since_date until_date
                   commit_pages Ht commit_fuel 1 [] Hcs Hshort Hcfuel).
Qed.

Lemma pagination_terminates_with_all_fetched_items_witness :
  let search_world := Demo.world (map Body Demo.two_pages) [] in
  let commit_world :=
    Demo.world [] (map (fun cs => Body (VList cs)) Demo.two_commit_pages) in
  let result :=
    Some (Ret (Spec.all_items (Spec.fetched 0 Demo.two_pages),
               VInt (Spec.reported_total
                       (List.last (Spec.fetched 0 Demo.two_pages) VNone)))) in
  (Review.get_filtered_prs search_world "is:pr" 2 = result
   /\ PR.get_all_prs_fast search_world "is:pr" 2 = result)
  /\ Commit.get_all_commits_fast commit_world "o" "r" "u" "2025-01-01" "2025-01-14" 2
     = Some (Ret (concat (Spec.fetched_commits Demo.two_commit_pages),
                  Z.of_nat (List.length
                              (concat (Spec.fetched_commits Demo.two_commit_pages))))).
Proof.
  intros search_world commit_world result. split.
  - apply (pagination_terminates_with_all_fetched_items search_world "is:pr"
             Demo.two_pages 2 "o" "r" "u" "2025-01-01" "2025-01-14" [] 0 eq_refl).
    + intros [|[|[|j]]] v H; simpl in H; try discriminate H;
        injection H as <-; reflexivity.
    + vm_compute. reflexivity.
    + vm_compute. reflexivity.
    + simpl. lia.
  - apply (pagination_terminates_with_all_fetched_items commit_world "is:pr"
             [] 0 "o" "r" "u" "2025-01-01" "2025-01-14" Demo.two_commit_pages 2
             eq_refl).
    + intros [|[|[|j]]] v H; simpl in H; try discriminate H;
        injection H as <-; reflexivity.
    + vm_compute. reflexivity.
    + simpl. lia.
Defined.

Lemma search_loop_continues (w : env) (query : string) (pages : list value) :
  has_token w = true ->
  forallb Spec.well_formed_page pages = true ->
  forall (fuel : nat) (start : Z) (acc : list value),
    Spec.serves w query start pages ->
    Spec.terminates (Z.of_nat (List.length acc)) pages = false ->
    search_loop w query (List.length pages + fuel) start acc
    = search_loop w query fuel (start + Z.of_nat (List.length pages))
        (acc ++ Spec.all_items pages).
Proof.
  intros Ht. induction pages as [|v pages IH]; intros Hwf fuel start acc Hs Hterm.
  - simpl. unfold Spec.all_items. simpl. now rewrite app_nil_r, Z.add_0_r.
  - simpl in Hwf. apply andb_prop in Hwf as [Hv Hwf].
    apply serves_tail in Hs as [Hn Hs].
    simpl in Hterm. apply orb_false_elim in Hterm as [Hstop Hterm].
    change (List.length (v :: pages) + fuel)%nat
      with (S (List.length pages + fuel)).
    rewrite (search_loop_page w query _ start acc v Ht Hn Hv), Hstop.
    rewrite (IH Hwf fuel (start + 1) (acc ++ Spec.page_items v) Hs).
    + unfold Spec.all_items. simpl concat. rewrite <- app_assoc.
      f_equal. simpl List.length. lia.
    + now rewrite length_app, Nat2Z.inj_add.
Qed.

Lemma search_loop_failure (w : env) (query : string) (fuel : nat) (page : Z)
    (acc : list value) (total : value) :
  has_token w = true ->
  Spec.total_after_failure (net w (SearchUrl query per_page page))
    (Z.of_nat (List.length acc)) = Some total ->
  search_loop w query (S fuel) page acc = Some (Ret (acc, total)).
Proof.
  intros Ht Hfail. simpl. unfold github_request. rewrite Ht. simpl negb. cbv iota.
  unfold Spec.total_after_failure in Hfail.
  destruct (net w _) as [v|code reason| |]; try discriminate Hfail.
  - destruct (truthy v) eqn:Htruthy; simpl in Hfail.
    + destruct v as [| | | | |d]; try discriminate Hfail.
      simpl negb. cbv iota.
      destruct (assoc "items" d) as [[| | | | |]|] eqn:Hits;
        try discriminate Hfail;
        injection Hfail as <-; unfold search_result; rewrite Htruthy;
        reflexivity.
    + injection Hfail as <-. simpl. unfold search_result. now rewrite Htruthy.
  - injection Hfail as <-. reflexivity.
  - injection Hfail as <-. reflexivity.
Qed.

(** C5, as stated, fails.  When page 1 brings 100 items and reports a
    total of 250 and the request for page 2 fails, the paginator returns
    the 100 items with total 100, not the 250 the API reported; and a
    non-empty body that is not a dict (here a list) makes it raise
    [AttributeError] in its [return] statement instead of stopping
    silently. *)
Lemma truncated_crawl_forgets_reported_total :
  let w := Demo.world
             [Demo.search_page (repeat (Demo.pr 1 "alice" "pulls/1") 100) 250; Fault]
             [] in
  ~ Spec.silent_truncation_with_best_known_total w "is:pr"
  /\ (exists items,
        Review.get_filtered_prs w "is:pr" 2 = Some (Ret (items, VInt 100)) /\
        List.length items = 100%nat)
  /\ Review.get_filtered_prs (Demo.world [Body (VList [VInt 1])] []) "is:pr" 1
     = Some (Raise AttributeError).
Proof.
  intros w. split; [|split].
  - intros H.
    specialize (H [Demo.page_value (repeat (Demo.pr 1 "alice" "pulls/1") 100) 250]
                  2%nat).
    assert (Hgot : search_paginate w "is:pr" 2
                   = Some (Ret (repeat (Demo.pr 1 "alice" "pulls/1") 100, VInt 100)))
      by (vm_compute; reflexivity).
    rewrite Hgot in H.
    assert (Hne : VInt 100 <> Spec.best_known_total
              [Demo.page_value (repeat (Demo.pr 1 "alice" "pulls/1") 100) 250])
      by (vm_compute; discriminate).
    apply Hne.
    assert (Heq : Some (Ret (repeat (Demo.pr 1 "alice" "pulls/1") 100, VInt 100))
                  = Some (Ret (Spec.all_items
                     [Demo.page_value (repeat (Demo.pr 1 "alice" "pulls/1") 100) 250],
                     Spec.best_known_total
                     [Demo.page_value (repeat (Demo.pr 1 "alice" "pulls/1") 100) 250]))).
    { apply H.
      - intros [|[|j]] v Hj; simpl in Hj; try discriminate Hj;
          injection Hj as <-; reflexivity.
      - vm_compute; reflexivity.
      - vm_compute; reflexivity.
      - vm_compute; reflexivity.
      - simpl; lia. }
    now injection Heq.
  - eexists. split; [vm_compute; reflexivity|]. vm_compute. reflexivity.
  - vm_compute. reflexivity.
Qed.

(** C5, amended: when the request for a page fails by a transport
    failure (an HTTP error status or any other fault) or gives a falsy
    body (null, an empty dict or list, 0, an empty string), or gives a dict
    whose "items" is not a list, after earlier pages
    that were all well formed and did not end the crawl, the paginator
    stops without raising and returns the items accumulated from those
    earlier pages; the total it returns with them is the number of
    accumulated items after a transport failure or a falsy body, and the
    failing response's own total_count (the number of accumulated items
    when it has none) after a dict with malformed items. *)
Theorem truncated_crawl_returns_accumulated_items (w : env) (query : string)
    (pages : list value) (fuel : nat) (total : value) :
  has_token w = true ->
  Spec.serves w query 1 pages ->
  forallb Spec.well_formed_page pages = true ->
  Spec.terminates 0 pages = false ->
  Spec.total_after_failure
    (net w (SearchUrl query per_page (Z.of_nat (List.length pages) + 1)))
    (Z.of_nat (List.length (Spec.all_items pages))) = Some total ->
  (List.length pages < fuel)%nat ->
  Review.get_filtered_prs w query fuel = Some (Ret (Spec.all_items pages, total))
  /\ PR.get_all_prs_fast w query fuel = Some (Ret (Spec.all_items pages, total)).
Proof.
  intros Ht Hs Hwf Hterm Hfail Hfuel.
  assert (H : search_paginate w query fuel
              = Some (Ret (Spec.all_items pages, total))).
  { unfold search_paginate.
    replace fuel with (List.length pages + S (fuel - List.length pages - 1))%nat
      by lia.
    rewrite (search_loop_continues w query pages Ht Hwf _ 1 [] Hs Hterm).
    simpl app. apply search_loop_failure; [exact Ht|].
    now replace (1 + Z.of_nat (List.length pages))
      with (Z.of_nat (List.length pages) + 1) by lia. }
  split; exact H.
Qed.

Lemma truncated_crawl_returns_accumulated_items_witness :
  let w := Demo.world
             [Demo.search_page (repeat (Demo.pr 1 "alice" "pulls/1") 100) 250; Fault]
             [] in
  let pages := [Demo.page_value (repeat (Demo.pr 1 "alice" "pulls/1") 100) 250] in
  Review.get_filtered_prs w "is:pr" 2
  = Some (Ret (Spec.all_items pages, VInt 100))
  /\ PR.get_all_prs_fast w "is:pr" 2
     = Some (Ret (Spec.all_items pages, VInt 100)).
Proof.
  intros w pages.
  apply (truncated_crawl_returns_accumulated_items w "is:pr" pages 2 (VInt 100)).
  - reflexivity.
  - intros [|[|j]] v Hj; simpl in Hj; try discriminate Hj;
      injection Hj as <-; reflexivity.
  - vm_compute. reflexivity.
  - vm_compute. reflexivity.
  - vm_compute. reflexivity.
  - simpl. lia.
Defined.

(** ** Batches: ranges and slices *)

Lemma range_done (start stop step : Z) :
  0 < step -> stop <= start -> range start stop step = Ret [].
Proof.
  intros Hstep Hle. unfold range.
  destruct (Z.eqb_spec step 0) as [->|_]; [lia|].
  destruct (Z.ltb_spec 0 step) as [_|]; [|lia].
  assert (Hq : (stop - start + step - 1) / step <= 0).
  { apply Z.le_trans with ((step - 1) / step).
    - apply Z.div_le_mono; lia.
    - rewrite Z.div_small; lia. }
  replace (Z.to_nat ((stop - start + step - 1) / step)) with O by lia.
  reflexivity.
Qed.

Lemma range_step (start stop step : Z) :
  0 < step -> start < stop ->
  exists rest,
    range (start + step) stop step = Ret rest /\
    range start stop step = Ret (start :: rest).
Proof.
  intros Hstep Hlt. unfold range.
  destruct (Z.eqb_spec step 0) as [->|_]; [lia|].
  destruct (Z.ltb_spec 0 step) as [_|]; [|lia].
  eexists. split; [reflexivity|].
  assert (Hq : (stop - start + step - 1) / step
               = (stop - (start + step) + step - 1) / step + 1).
  { rewrite <- (Z.div_add _ 1 step) by lia. f_equal. lia. }
  assert (0 <= (stop - (start + step) + step - 1) / step)
    by (apply Z.div_pos; lia).
  rewrite Hq, Z2Nat.inj_add by lia.
  change (Z.to_nat 1) with 1%nat. rewrite Nat.add_1_r.
  cbn [seq map]. f_equal. f_equal; [lia|].
  rewrite <- seq_shift, map_map. apply map_ext. intros j. lia.
Qed.

Lemma slice_batch {A : Type} (l : list A) (i size : Z) :
  0 <= i <= Z.of_nat (List.length l) -> 0 < size ->
  slice l i (i + size)
  = firstn (Z.to_nat size) (skipn (Z.to_nat i) l).
Proof.
  intros Hi Hsize. unfold slice, clamp.
  destruct (Z.ltb_spec i 0); [lia|].
  destruct (Z.ltb_spec (i + size) 0); [lia|].
  rewrite (Z.min_l i) by lia.
  destruct (Z.le_ge_cases (i + size) (Z.of_nat (List.length l))) as [Hin|Hout].
  - rewrite Z.min_l by lia. f_equal. lia.
  - rewrite Z.min_r by lia.
    rewrite !firstn_all2; [reflexivity| |]; rewrite length_skipn; lia.
Qed.

Lemma firstn_plus {A : Type} (k n : nat) (l : list A) :
  firstn (k + n) l = firstn k l ++ firstn n (skipn k l).
Proof.
  revert l. induction k as [|k IH]; intros l; [reflexivity|].
  destruct l as [|x l]; simpl.
  - now destruct n.
  - now rewrite IH.
Qed.

(** The batch at offset [i] extends the first [i] items to the first
    [min (i + size) (len l)] items. *)
Lemma firstn_slice {A : Type} (l : list A) (i size : Z) :
  0 <= i <= Z.of_nat (List.length l) -> 0 < size ->
  firstn (Z.to_nat i) l ++ slice l i (i + size)
  = firstn (Z.to_nat (Z.min (i + size) (Z.of_nat (List.length l)))) l.
Proof.
  intros Hi Hsize. rewrite slice_batch by assumption.
  rewrite <- firstn_plus.
  destruct (Z.le_ge_cases (i + size) (Z.of_nat (List.length l))).
  - rewrite Z.min_l by lia. f_equal. lia.
  - rewrite Z.min_r by lia.
    rewrite !firstn_all2; [reflexivity| |]; lia.
Qed.

Lemma skipn_slice {A : Type} (l : list A) (i size : Z) :
  0 <= i <= Z.of_nat (List.length l) -> 0 < size ->
  skipn (Z.to_nat i) l
  = slice l i (i + size) ++ skipn (Z.to_nat (i + size)) l.
Proof.
  intros Hi Hsize. rewrite slice_batch by assumption.
  rewrite <- (firstn_skipn (Z.to_nat size) (skipn (Z.to_nat i) l)) at 1.
  f_equal. rewrite skipn_skipn. f_equal. lia.
Qed.

(** ** The batch loop of the comment report *)

Section ReviewBatches.
Variables (w : env) (items : list value) (username : string)
          (batch_size : Z) (progress_file : string).
Hypothesis batch_size_pos : 0 < batch_size.

Let n := Z.of_nat (List.length items).
Let process := Review.process_pr w username.

(** A batch whose PRs are all processed without an exception extends
    both lists and overwrites the checkpoint with the whole state. *)
Lemma review_run_batch_ret (i : Z) (P C R : list value) (fs : filesystem) :
  for_extend process (slice items i (i + batch_size)) = Ret R ->
  let P' := P ++ slice items i (i + batch_size) in
  Review.run_batch w items username batch_size progress_file i
    {| Review.processed_prs := VList P; Review.all_comments := VList C;
       Review.disk := fs |}
  = (Ret tt,
     {| Review.processed_prs := VList P';
        Review.all_comments := VList (C ++ R);
        Review.disk :=
          save_progress
            (VDict [("timestamp", VStr (isoformat_now w i));
                    ("total_prs", VInt n);
                    ("processed_count", VInt (Z.of_nat (List.length P')));
                    ("comments_found", VInt (Z.of_nat (List.length (C ++ R))));
                    ("processed", VList P');
                    ("all_comments", VList (C ++ R))])
            progress_file fs |}).
Proof.
  intros HR. unfold Review.run_batch. fold process. rewrite HR. reflexivity.
Qed.

Lemma review_run_batch_raise (i : Z) (st : Review.loop_state) (e : exn) :
  for_extend process (slice items i (i + batch_size)) = Raise e ->
  Review.run_batch w items username batch_size progress_file i st
  = (Raise e, st).
Proof.
  intros HR. unfold Review.run_batch. fold process. now rewrite HR.
Qed.

(** The whole loop from offset [i]: it processes the items from [i] on,
    in order, and returns what processing them one after the other
    gives. *)
Lemma review_run_batches_from (m : nat) :
  forall (i : Z) (offsets : list Z) (P C : list value) (fs : filesystem),
    0 <= i -> n - i <= Z.of_nat m ->
    range i n batch_size = Ret offsets ->
    let st := {| Review.processed_prs := VList P;
                 Review.all_comments := VList C; Review.disk := fs |} in
    let run := Review.run_batches w items username batch_size progress_file
                 offsets st in
    match for_extend process (skipn (Z.to_nat i) items) with
    | Ret R =>
        fst run = Ret tt /\
        Review.processed_prs (snd run) = VList (P ++ skipn (Z.to_nat i) items) /\
        Review.all_comments (snd run) = VList (C ++ R)
    | Raise e => fst run = Raise e
    end.
Proof.
  induction m as [|m IH]; intros i offsets P C fs Hi Hm Hrange st run.
  - assert (Hdone : n <= i) by lia.
    rewrite (range_done i n batch_size batch_size_pos Hdone) in Hrange.
    injection Hrange as <-.
    rewrite skipn_all2 by (subst n; lia). simpl.
    subst run st. simpl. now rewrite !app_nil_r.
  - destruct (Z.le_gt_cases n i) as [Hdone|Hmore].
    + rewrite (range_done i n batch_size batch_size_pos Hdone) in Hrange.
      injection Hrange as <-.
      rewrite skipn_all2 by (subst n; lia). simpl.
      subst run st. simpl. now rewrite !app_nil_r.
    + destruct (range_step i n batch_size batch_size_pos) as [rest [Hrest Hcons]];
        [lia|].
      rewrite Hcons in Hrange. injection Hrange as <-.
      rewrite (skipn_slice items i batch_size) by (subst n; lia).
      rewrite for_extend_app.
      subst run st. simpl Review.run_batches.
      destruct (for_extend process (slice items i (i + batch_size)))
        as [Rb|e] eqn:Hbatch.
      * rewrite (review_run_batch_ret i P C Rb fs Hbatch). cbv zeta.
        simpl bind.
        specialize (IH (i + batch_size) rest
                      (P ++ slice items i (i + batch_size)) (C ++ Rb)
                      (save_progress
                         (VDict [("timestamp", VStr (isoformat_now w i));
                                 ("total_prs", VInt n);
                                 ("processed_count",
                                  VInt (Z.of_nat (List.length
                                     (P ++ slice items i (i + batch_size)))));
                                 ("comments_found",
                                  VInt (Z.of_nat (List.length (C ++ Rb))));
                                 ("processed",
                                  VList (P ++ slice items i (i + batch_size)));
                                 ("all_comments", VList (C ++ Rb))])
                         progress_file fs)).
        cbv zeta in IH.
        destruct (for_extend process (skipn (Z.to_nat (i + batch_size)) items))
          as [Rt|e]; simpl bind.
        -- destruct IH as [H1 [H2 H3]]; [lia|lia|exact Hrest|].
           rewrite H1, H2, H3. now rewrite <- !app_assoc.
        -- apply IH; [lia|lia|exact Hrest].
      * rewrite (review_run_batch_raise i _ e Hbatch). reflexivity.
Qed.

(** The state after the first [m] batches of a loop that started at
    offset [i] with the first [i] items processed: the first
    [min (i + m * batch_size) n] items are processed, the comments are
    those of these items, and from the first batch on the checkpoint
    holds both. *)
Lemma review_after_batches (m : nat) :
  forall (i : Z) (offsets : list Z) (C : list value) (fs : filesystem),
    0 <= i ->
    range i n batch_size = Ret offsets ->
    (m <= List.length offsets)%nat ->
    let st := {| Review.processed_prs := VList (firstn (Z.to_nat i) items);
                 Review.all_comments := VList C; Review.disk := fs |} in
    let run := Review.run_batches w items username batch_size progress_file
                 (firstn m offsets) st in
    let c := Z.min (i + Z.of_nat m * batch_size) n in
    fst run = Ret tt ->
    Review.processed_prs (snd run) = VList (firstn (Z.to_nat c) items) /\
    (exists C',
       Review.all_comments (snd run) = VList C' /\
       (for_extend process (firstn (Z.to_nat i) items) = Ret C ->
        for_extend process (firstn (Z.to_nat c) items) = Ret C') /\
       ((0 < m)%nat ->
        exists d,
          files (Review.disk (snd run)) !! progress_file
            = Some (JsonFile (VDict d)) /\
          assoc "processed" d = Some (VList (firstn (Z.to_nat c) items)) /\
          assoc "processed_count" d = Some (VInt c) /\
          assoc "all_comments" d = Some (VList C'))).
Proof.
  induction m as [|m IH]; intros i offsets C fs Hi Hrange Hm st run c Hrun.
  - subst run st c. simpl.
    assert (Hsame : firstn (Z.to_nat (Z.min (i + Z.of_nat 0 * batch_size) n)) items
                    = firstn (Z.to_nat i) items).
    { destruct (Z.le_gt_cases i n).
      - f_equal. lia.
      - rewrite !firstn_all2; [reflexivity| |]; subst n; lia. }
    rewrite Hsame. split; [reflexivity|].
    exists C. split; [reflexivity|]. split; [tauto|]. lia.
  - destruct (Z.le_gt_cases n i) as [Hdone|Hmore].
    { rewrite (range_done i n batch_size batch_size_pos Hdone) in Hrange.
      injection Hrange as <-. simpl in Hm. lia. }
    destruct (range_step i n batch_size batch_size_pos) as [rest [Hrest Hcons]];
      [lia|].
    rewrite Hcons in Hrange. injection Hrange as <-.
    simpl in Hm.
    subst run st. simpl firstn in *. simpl Review.run_batches in *.
    destruct (for_extend process (slice items i (i + batch_size)))
      as [Rb|e] eqn:Hbatch.
    2:{ rewrite (review_run_batch_raise i _ e Hbatch) in Hrun.
        discriminate Hrun. }
    rewrite (review_run_batch_ret i _ C Rb fs Hbatch) in *. cbv zeta in *.
    assert (Hext : firstn (Z.to_nat i) items ++ slice items i (i + batch_size)
                   = firstn (Z.to_nat (i + batch_size)) items).
    { rewrite firstn_slice by (subst n; lia).
      destruct (Z.le_gt_cases (i + batch_size) n).
      - f_equal. lia.
      - rewrite !firstn_all2; [reflexivity| |]; subst n; lia. }
    assert (HC' : for_extend process (firstn (Z.to_nat i) items) = Ret C ->
                  for_extend process (firstn (Z.to_nat (i + batch_size)) items)
                  = Ret (C ++ Rb)).
    { intros HC. rewrite <- Hext, for_extend_app, HC, Hbatch. reflexivity. }
    rewrite Hext in *.
    set (fs1 := save_progress _ progress_file fs) in *.
    specialize (IH (i + batch_size) rest (C ++ Rb) fs1).
    cbv zeta in IH.
    replace (Z.min (i + batch_size + Z.of_nat m * batch_size) n) with c in IH
      by (subst c; lia).
    destruct IH as [HP [C' [Hall [Hres Hfile]]]];
      [lia|exact Hrest|lia|exact Hrun|].
    split; [exact HP|]. exists C'. split; [exact Hall|].
    split; [intros HC; apply Hres, HC', HC|].
    intros _. destruct m as [|m].
    + simpl in *. injection Hall as <-.
      assert (Hc : firstn (Z.to_nat c) items
                   = firstn (Z.to_nat (i + batch_size)) items).
      { injection HP as HP. now rewrite HP. }
      eexists. split; [apply lookup_insert_eq|].
      simpl. rewrite Hc. split; [reflexivity|]. split; [|reflexivity].
      do 2 f_equal. rewrite <- Hc.
      rewrite length_firstn. subst c n. lia.
    + apply Hfile. lia.
Qed.

(** The batches of a loop that starts at offset [i] are the items from
    [i] on, no more and no less. *)
Lemma batches_cover_the_rest (m : nat) :
  forall (i : Z) (offsets : list Z),
    0 <= i -> n - i <= Z.of_nat m ->
    range i n batch_size = Ret offsets ->
    concat (map (fun j => slice items j (j + batch_size)) offsets)
    = skipn (Z.to_nat i) items.
Proof.
  induction m as [|m IH]; intros i offsets Hi Hm Hrange;
    destruct (Z.le_gt_cases n i) as [Hdone|Hmore]; try lia.
  1,2: rewrite (range_done i n batch_size batch_size_pos Hdone) in Hrange;
    injection Hrange as <-; rewrite skipn_all2 by (subst n; lia);
    reflexivity.
  destruct (range_step i n batch_size batch_size_pos) as [rest [Hrest Hcons]];
    [lia|].
  rewrite Hcons in Hrange. injection Hrange as <-. simpl.
  rewrite (IH (i + batch_size) rest) by (try lia; exact Hrest).
  symmetry. apply skipn_slice; subst n; lia.
Qed.

End ReviewBatches.

(** A run of the comment report that resumes from the checkpoint an
    earlier run left after [k] items processes the items from index [k]
    on and returns what a run from scratch returns. *)
Lemma review_resume_matches_fresh_run (w : env) (items : list value)
    (username : string) (batch_size : Z) (k : nat) (cp : value)
    (fs fs0 : filesystem) :
  0 < batch_size ->
  Spec.review_checkpoint w username items k cp ->
  files fs !! Review.progress_file_name w = Some (JsonFile cp) ->
  files fs0 !! Review.progress_file_name w = None ->
  fst (Review.process_prs_for_comments w items username batch_size fs)
  = fst (Review.process_prs_for_comments w items username batch_size fs0)
  /\ exists offsets,
       range (Z.of_nat k) (Z.of_nat (List.length items)) batch_size
       = Ret offsets /\
       concat (map (fun j => slice items j (j + batch_size)) offsets)
       = skipn k items.
Proof.
  intros batch_size_pos [Hk [d [C [-> [Hp [Hc HC]]]]]] Hfile Hnone.
  set (n := Z.of_nat (List.length items)).
  set (process := Review.process_pr w username).
  assert (Hrange : forall i, exists offsets, range i n batch_size = Ret offsets).
  { intros i. unfold range.
    destruct (Z.eqb_spec batch_size 0); [lia|].
    destruct (0 <? batch_size); eauto. }
  destruct (Hrange (Z.of_nat k)) as [offsets Hoff].
  destruct (Hrange 0) as [offsets0 Hoff0].
  split.
  - unfold Review.process_prs_for_comments, load_progress.
    rewrite Hfile, Hnone.
    assert (Htruthy : truthy (VDict d) = true)
      by (destruct d; [discriminate Hp|reflexivity]).
    unfold Review.initial_state. rewrite Htruthy.
    simpl get. rewrite Hp, Hc. simpl bind. simpl truthy. cbv iota.
    rewrite length_firstn, Nat.min_l by exact Hk.
    fold n. rewrite Hoff, Hoff0.
    pose proof (review_run_batches_from w items username batch_size
                  (Review.progress_file_name w) batch_size_pos
                  (Z.to_nat (n - Z.of_nat k))
                  (Z.of_nat k) offsets (firstn k items) C fs) as Hres.
    pose proof (review_run_batches_from w items username batch_size
                  (Review.progress_file_name w) batch_size_pos
                  (Z.to_nat n) 0 offsets0 [] [] fs0) as Hfresh.
    fold n process in Hres, Hfresh.
    cbv zeta in Hres, Hfresh.
    rewrite Nat2Z.id in Hres.
    assert (Hsplit : for_extend process items
                     = let! b := for_extend process (skipn k items) in
                       Ret (C ++ b)).
    { rewrite <- (firstn_skipn k items) at 1.
      rewrite for_extend_app. unfold process. now rewrite HC. }
    change (skipn (Z.to_nat 0) items) with items in Hfresh.
    rewrite Hsplit in Hfresh.
    destruct (Review.run_batches w items username batch_size
                (Review.progress_file_name w) offsets _) as [r st].
    destruct (Review.run_batches w items username batch_size
                (Review.progress_file_name w) offsets0 _) as [r0 st0].
    simpl fst in *. simpl snd in *.
    destruct (for_extend process (skipn k items)) as [R|e]; simpl bind in Hfresh.
    + destruct Hres as [-> [_ Hall]]; [lia|subst n; lia|exact Hoff|].
      destruct Hfresh as [-> [_ Hall0]]; [lia|subst n; lia|exact Hoff0|].
      simpl. now rewrite Hall, Hall0.
    + rewrite Hres, Hfresh by (try exact Hoff; try exact Hoff0; subst n; lia).
      reflexivity.
  - exists offsets. split; [exact Hoff|].
    rewrite (batches_cover_the_rest items batch_size batch_size_pos
               (Z.to_nat (n - Z.of_nat k)) (Z.of_nat k) offsets)
      by (try exact Hoff; subst n; lia).
    now rewrite Nat2Z.id.
Qed.



(** ** The batch loop of the PR report *)

Section PRBatches.
Variables (w : env) (items : list value) (batch_size : Z)
          (progress_file : string).
Hypothesis batch_size_pos : 0 < batch_size.

Let n := Z.of_nat (List.length items).
Let process := PR.process_pr w.

Lemma pr_run_batch_ret (i : Z) (P Rs R : list value) (fs : filesystem) :
  for_extend process (slice items i (i + batch_size)) = Ret R ->
  let P' := P ++ slice items i (i + batch_size) in
  PR.run_batch w items batch_size progress_file i
    {| PR.processed_prs := VList P; PR.release_prs := Rs; PR.disk := fs |}
  = (Ret tt,
     {| PR.processed_prs := VList P';
        PR.release_prs := Rs ++ R;
        PR.disk :=
          save_progress
            (VDict [("timestamp", VStr (isoformat_now w i));
                    ("total_prs", VInt n);
                    ("processed_count", VInt (Z.of_nat (List.length P')));
                    ("release_prs_found", VInt (Z.of_nat (List.length (Rs ++ R))));
                    ("processed", VList P');
                    ("release_prs", VList (Rs ++ R))])
            progress_file fs |}).
Proof.
  intros HR. unfold PR.run_batch. fold process. rewrite HR. reflexivity.
Qed.

Lemma pr_run_batch_raise (i : Z) (st : PR.loop_state) (e : exn) :
  for_extend process (slice items i (i + batch_size)) = Raise e ->
  PR.run_batch w items batch_size progress_file i st = (Raise e, st).
Proof.
  intros HR. unfold PR.run_batch. fold process. now rewrite HR.
Qed.

(** The state after the first [m] batches of a loop that started at
    offset [i] with the first [i] items processed. *)
Lemma pr_after_batches (m : nat) :
  forall (i : Z) (offsets : list Z) (Rs : list value) (fs : filesystem),
    0 <= i ->
    range i n batch_size = Ret offsets ->
    (m <= List.length offsets)%nat ->
    let st := {| PR.processed_prs := VList (firstn (Z.to_nat i) items);
                 PR.release_prs := Rs; PR.disk := fs |} in
    let run := PR.run_batches w items batch_size progress_file
                 (firstn m offsets) st in
    let c := Z.min (i + Z.of_nat m * batch_size) n in
    fst run = Ret tt ->
    PR.processed_prs (snd run) = VList (firstn (Z.to_nat c) items) /\
    ((0 < m)%nat ->
     exists d,
       files (PR.disk (snd run)) !! progress_file = Some (JsonFile (VDict d)) /\
       assoc "processed" d = Some (VList (firstn (Z.to_nat c) items)) /\
       assoc "processed_count" d = Some (VInt c)).
Proof.
  induction m as [|m IH]; intros i offsets Rs fs Hi Hrange Hm st run c Hrun.
  - subst run st c. simpl.
    assert (Hsame : firstn (Z.to_nat (Z.min (i + Z.of_nat 0 * batch_size) n)) items
                    = firstn (Z.to_nat i) items).
    { destruct (Z.le_gt_cases i n).
      - f_equal. lia.
      - rewrite !firstn_all2; [reflexivity| |]; subst n; lia. }
    rewrite Hsame. split; [reflexivity|]. lia.
  - destruct (Z.le_gt_cases n i) as [Hdone|Hmore].
    { rewrite (range_done i n batch_size batch_size_pos Hdone) in Hrange.
      injection Hrange as <-. simpl in Hm. lia. }
    destruct (range_step i n batch_size batch_size_pos) as [rest [Hrest Hcons]];
      [lia|].
    rewrite Hcons in Hrange. injection Hrange as <-.
    simpl in Hm.
    subst run st. simpl firstn in *. simpl PR.run_batches in *.
    destruct (for_extend process (slice items i (i + batch_size)))
      as [Rb|e] eqn:Hbatch.
    2:{ rewrite (pr_run_batch_raise i _ e Hbatch) in Hrun. discriminate Hrun. }
    rewrite (pr_run_batch_ret i _ Rs Rb fs Hbatch) in *. cbv zeta in *.
    assert (Hext : firstn (Z.to_nat i) items ++ slice items i (i + batch_size)
                   = firstn (Z.to_nat (i + batch_size)) items).
    { rewrite firstn_slice by (subst n; lia).
      destruct (Z.le_gt_cases (i + batch_size) n).
      - f_equal. lia.
      - rewrite !firstn_all2; [reflexivity| |]; subst n; lia. }
    rewrite Hext in *.
    set (fs1 := save_progress _ progress_file fs) in *.
    specialize (IH (i + batch_size) rest (Rs ++ Rb) fs1).
    cbv zeta in IH.
    replace (Z.min (i + batch_size + Z.of_nat m * batch_size) n) with c in IH
      by (subst c; lia).
    destruct IH as [HP Hfile]; [lia|exact Hrest|lia|exact Hrun|].
    split; [exact HP|].
    intros _. destruct m as [|m].
    + simpl in *.
      assert (Hc : firstn (Z.to_nat c) items
                   = firstn (Z.to_nat (i + batch_size)) items).
      { injection HP as HP. now rewrite HP. }
      eexists. split; [apply lookup_insert_eq|].
      simpl. rewrite Hc. split; [reflexivity|].
      do 2 f_equal. rewrite <- Hc.
      rewrite length_firstn. subst c n. lia.
    + apply Hfile. lia.
Qed.

(** The whole loop from offset [i]: the results it adds are those of the
    items from [i] on. *)
Lemma pr_run_batches_from (m : nat) :
  forall (i : Z) (offsets : list Z) (P Rs : list value) (fs : filesystem),
    0 <= i -> n - i <= Z.of_nat m ->
    range i n batch_size = Ret offsets ->
    let st := {| PR.processed_prs := VList P; PR.release_prs := Rs;
                 PR.disk := fs |} in
    let run := PR.run_batches w items batch_size progress_file offsets st in
    match for_extend process (skipn (Z.to_nat i) items) with
    | Ret R =>
        fst run = Ret tt /\
        PR.processed_prs (snd run) = VList (P ++ skipn (Z.to_nat i) items) /\
        PR.release_prs (snd run) = Rs ++ R
    | Raise e => fst run = Raise e
    end.
Proof.
  induction m as [|m IH]; intros i offsets P Rs fs Hi Hm Hrange st run.
  - assert (Hdone : n <= i) by lia.
    rewrite (range_done i n batch_size batch_size_pos Hdone) in Hrange.
    injection Hrange as <-.
    rewrite skipn_all2 by (subst n; lia). simpl.
    subst run st. simpl. now rewrite !app_nil_r.
  - destruct (Z.le_gt_cases n i) as [Hdone|Hmore].
    + rewrite (range_done i n batch_size batch_size_pos Hdone) in Hrange.
      injection Hrange as <-.
      rewrite skipn_all2 by (subst n; lia). simpl.
      subst run st. simpl. now rewrite !app_nil_r.
    + destruct (range_step i n batch_size batch_size_pos) as [rest [Hrest Hcons]];
        [lia|].
      rewrite Hcons in Hrange. injection Hrange as <-.
      rewrite (skipn_slice items i batch_size) by (subst n; lia).
      rewrite for_extend_app.
      subst run st. simpl PR.run_batches.
      destruct (for_extend process (slice items i (i + batch_size)))
        as [Rb|e] eqn:Hbatch.
      * rewrite (pr_run_batch_ret i P Rs Rb fs Hbatch). cbv zeta.
        simpl bind.
        match goal with
        | |- context [PR.run_batches _ _ _ _ rest
                        {| PR.processed_prs := _; PR.release_prs := _;
                           PR.disk := ?fs1 |}] =>
            specialize (IH (i + batch_size) rest
                          (P ++ slice items i (i + batch_size)) (Rs ++ Rb) fs1)
        end.
        cbv zeta in IH.
        destruct (for_extend process (skipn (Z.to_nat (i + batch_size)) items))
          as [Rt|e]; simpl bind.
        -- destruct IH as [H1 [H2 H3]]; [lia|lia|exact Hrest|].
           rewrite H1, H2, H3. now rewrite <- !app_assoc.
        -- apply IH; [lia|lia|exact Hrest].
      * rewrite (pr_run_batch_raise i _ e Hbatch). reflexivity.
Qed.

End PRBatches.

(** What [process_prs_in_batches] returns: from scratch, the release PRs
    among all the items; from a checkpoint over the first [k] items, the
    release PRs among the items from [k] on and no others. *)
Lemma pr_report_results (w : env) (items : list value) (batch_size : Z)
    (k : nat) (d : list (string * value)) (fs fs0 : filesystem) :
  0 < batch_size ->
  (k <= List.length items)%nat ->
  files fs !! PR.progress_file_name w = Some (JsonFile (VDict d)) ->
  assoc "processed" d = Some (VList (firstn k items)) ->
  files fs0 !! PR.progress_file_name w = None ->
  fst (PR.process_prs_in_batches w items batch_size fs)
  = (let! found := for_extend (PR.process_pr w) (skipn k items) in
     Ret (found, PR.progress_file_name w))
  /\ fst (PR.process_prs_in_batches w items batch_size fs0)
     = (let! found := for_extend (PR.process_pr w) items in
        Ret (found, PR.progress_file_name w)).
Proof.
  intros Hpos Hk Hfile Hp Hnone.
  set (n := Z.of_nat (List.length items)).
  assert (Hrange : forall i, exists offsets, range i n batch_size = Ret offsets).
  { intros i. unfold range.
    destruct (Z.eqb_spec batch_size 0); [lia|].
    destruct (0 <? batch_size); eauto. }
  destruct (Hrange (Z.of_nat k)) as [offsets Hoff].
  destruct (Hrange 0) as [offsets0 Hoff0].
  assert (Htruthy : truthy (VDict d) = true)
    by (destruct d; [discriminate Hp|reflexivity]).
  unfold PR.process_prs_in_batches, load_progress.
  rewrite Hfile, Hnone. unfold PR.initial_state. rewrite Htruthy.
  simpl get. rewrite Hp. simpl bind. simpl truthy. cbv iota.
  rewrite length_firstn, Nat.min_l by exact Hk.
  fold n. rewrite Hoff, Hoff0.
  pose proof (pr_run_batches_from w items batch_size (PR.progress_file_name w)
                Hpos (Z.to_nat (n - Z.of_nat k)) (Z.of_nat k) offsets
                (firstn k items) [] fs) as Hres.
  pose proof (pr_run_batches_from w items batch_size (PR.progress_file_name w)
                Hpos (Z.to_nat n) 0 offsets0 [] [] fs0) as Hfresh.
  fold n in Hres, Hfresh. cbv zeta in Hres, Hfresh.
  rewrite Nat2Z.id in Hres.
  change (skipn (Z.to_nat 0) items) with items in Hfresh.
  destruct (PR.run_batches w items batch_size (PR.progress_file_name w) offsets _)
    as [r st].
  destruct (PR.run_batches w items batch_size (PR.progress_file_name w) offsets0 _)
    as [r0 st0].
  simpl fst in *. simpl snd in *.
  split.
  - destruct (for_extend (PR.process_pr w) (skipn k items)) as [R|e].
    + destruct Hres as [-> [_ Hall]]; [lia|subst n; lia|exact Hoff|].
      simpl. now rewrite Hall.
    + rewrite Hres by (try exact Hoff; subst n; lia). reflexivity.
  - destruct (for_extend (PR.process_pr w) items) as [R|e].
    + destruct Hfresh as [-> [_ Hall]]; [lia|subst n; lia|exact Hoff0|].
      simpl. now rewrite Hall.
    + rewrite Hfresh by (try exact Hoff0; subst n; lia). reflexivity.
Qed.

(** ** The checkpoint after each batch (C8) *)

Lemma range_nth (start stop step : Z) (offsets : list Z) (j : nat) (i : Z) :
  range start stop step = Ret offsets ->
  nth_error offsets j = Some i ->
  i = start + Z.of_nat j * step /\ (j < List.length offsets)%nat.
Proof.
  intros Hrange Hnth.
  assert (Hlt : (j < List.length offsets)%nat)
    by (apply nth_error_Some; congruence).
  split; [|exact Hlt].
  unfold range in Hrange.
  destruct (step =? 0); [discriminate Hrange|].
  destruct (0 <? step); injection Hrange as <-;
    rewrite length_map, length_seq in Hlt;
    rewrite nth_error_map, nth_error_seq in Hnth;
    apply Nat.ltb_lt in Hlt; rewrite Hlt in Hnth;
    simpl in Hnth; now injection Hnth as <-.
Qed.

Lemma covered_checkpoint_start_index (fs : filesystem) (progress_file : string)
    (items : list value) (c : Z) :
  Spec.checkpoint_covers fs progress_file items c ->
  Spec.review_start_index fs progress_file = Ret c /\
  Spec.pr_start_index fs progress_file = Ret c.
Proof.
  intros [d [Hfile [Hp [_ Hlen]]]].
  assert (Htruthy : truthy (VDict d) = true)
    by (destruct d; [discriminate Hp|reflexivity]).
  unfold Spec.review_start_index, Spec.pr_start_index, load_progress.
  rewrite Hfile. simpl bind.
  unfold Review.initial_state, PR.initial_state. rewrite Htruthy.
  simpl get. rewrite Hp. cbv [bind]. rewrite !Hlen.
  split; reflexivity.
Qed.

(** C8: in both reports, when the batch that starts at offset [i] (the
    [j]-th batch of a loop that started at offset [k] with the first [k]
    items processed) has completed, the checkpoint file holds as
    "processed" the first [min (i + batch_size) (len items)] items of the
    input, every item consumed so far whether kept or dropped, with that
    number as "processed_count".  A run of [process_prs_for_comments],
    resp. [process_prs_in_batches], that finds this file starts its loop
    at exactly that offset: it does what the loop over
    [range(consumed, len(items), batch_size)] does from the lists the
    checkpoint holds (for the PR report, from an empty [release_prs]),
    whatever the batch size of the resumed run. *)
Theorem checkpoint_length_is_items_consumed
    (w : env) (items : list value) (username : string)
    (batch_size resumed_batch_size : Z) (k j : nat) (i : Z) (offsets : list Z)
    (comments release_prs : list value) (fs : filesystem) :
  0 < batch_size ->
  0 < resumed_batch_size ->
  range (Z.of_nat k) (Z.of_nat (List.length items)) batch_size = Ret offsets ->
  nth_error offsets j = Some i ->
  let consumed := Z.min (i + batch_size) (Z.of_nat (List.length items)) in
  let review_run :=
    Review.run_batches w items username batch_size (Review.progress_file_name w)
      (firstn (S j) offsets)
      {| Review.processed_prs := VList (firstn k items);
         Review.all_comments := VList comments; Review.disk := fs |} in
  let pr_run :=
    PR.run_batches w items batch_size (PR.progress_file_name w)
      (firstn (S j) offsets)
      {| PR.processed_prs := VList (firstn k items);
         PR.release_prs := release_prs; PR.disk := fs |} in
  (fst review_run = Ret tt ->
   Spec.checkpoint_covers (Review.disk (snd review_run))
     (Review.progress_file_name w) items consumed
   /\ exists rest,
        range consumed (Z.of_nat (List.length items)) resumed_batch_size = Ret rest
        /\ let resumed :=
             Review.process_prs_for_comments w items username resumed_batch_size
               (Review.disk (snd review_run)) in
           let continued :=
             Review.run_batches w items username resumed_batch_size
               (Review.progress_file_name w) rest (snd review_run) in
           fst resumed
           = (let! _ := fst continued in
              Ret (Review.all_comments (snd continued), Review.progress_file_name w))
           /\ snd resumed = Review.disk (snd continued))
  /\ (fst pr_run = Ret tt ->
      Spec.checkpoint_covers (PR.disk (snd pr_run)) (PR.progress_file_name w)
        items consumed
      /\ exists rest,
           range consumed (Z.of_nat (List.length items)) resumed_batch_size = Ret rest
           /\ let resumed :=
                PR.process_prs_in_batches w items resumed_batch_size
                  (PR.disk (snd pr_run)) in
              let continued :=
                PR.run_batches w items resumed_batch_size (PR.progress_file_name w)
                  rest
                  {| PR.processed_prs := PR.processed_prs (snd pr_run);
                     PR.release_prs := [];
                     PR.disk := PR.disk (snd pr_run) |} in
              fst resumed
              = (let! _ := fst continued in
                 Ret (PR.release_prs (snd continued), PR.progress_file_name w))
              /\ snd resumed = PR.disk (snd continued)).
Proof.
  intros Hpos Hpos' Hrange Hnth consumed review_run pr_run.
  destruct (range_nth _ _ _ _ _ _ Hrange Hnth) as [Hi Hj].
  assert (Hconsumed : consumed
            = Z.min (Z.of_nat k + Z.of_nat (S j) * batch_size)
                    (Z.of_nat (List.length items)))
    by (subst consumed; lia).
  assert (Hlen : len (VList (firstn (Z.to_nat consumed) items)) = Ret consumed).
  { simpl. rewrite length_firstn. f_equal. subst consumed. lia. }
  assert (Hrest : exists rest,
            range consumed (Z.of_nat (List.length items)) resumed_batch_size
            = Ret rest).
  { unfold range. destruct (Z.eqb_spec resumed_batch_size 0); [lia|].
    destruct (0 <? resumed_batch_size); eauto. }
  destruct Hrest as [rest Hrest].
  split; intros Hrun.
  - pose proof (review_after_batches w items username batch_size
                  (Review.progress_file_name w)
                  Hpos (S j) (Z.of_nat k) offsets comments fs) as H.
    cbv zeta in H. rewrite Nat2Z.id in H. fold review_run in H.
    rewrite <- Hconsumed in H.
    destruct H as [HP [C' [Hall [_ Hfile]]]]; [lia|exact Hrange|lia|exact Hrun|].
    destruct Hfile as [d [Hf [Hp [Hc Ha]]]]; [lia|].
    split; [exists d; auto|].
    exists rest. split; [exact Hrest|].
    assert (Htruthy : truthy (VDict d) = true)
      by (destruct d; [discriminate Hp|reflexivity]).
    cbv zeta. unfold Review.process_prs_for_comments, load_progress.
    rewrite Hf. unfold Review.initial_state. rewrite Htruthy.
    simpl get. rewrite Hp, Ha. cbv [bind]. rewrite !Hlen, Hrest.
    destruct (snd review_run) as [P A D]. simpl in HP, Hall. subst P A.
    simpl Review.disk.
    destruct (Review.run_batches w items username resumed_batch_size
                (Review.progress_file_name w) rest _) as [[[]|e] st];
      split; reflexivity.
  - pose proof (pr_after_batches w items batch_size (PR.progress_file_name w)
                  Hpos (S j) (Z.of_nat k) offsets release_prs fs) as H.
    cbv zeta in H. rewrite Nat2Z.id in H. fold pr_run in H.
    rewrite <- Hconsumed in H.
    destruct H as [HP Hfile]; [lia|exact Hrange|lia|exact Hrun|].
    destruct Hfile as [d [Hf [Hp Hc]]]; [lia|].
    split; [exists d; auto|].
    exists rest. split; [exact Hrest|].
    assert (Htruthy : truthy (VDict d) = true)
      by (destruct d; [discriminate Hp|reflexivity]).
    cbv zeta. unfold PR.process_prs_in_batches, load_progress.
    rewrite Hf. unfold PR.initial_state. rewrite Htruthy.
    simpl get. rewrite Hp. cbv [bind]. rewrite !Hlen, Hrest.
    rewrite HP.
    destruct (PR.run_batches w items resumed_batch_size
                (PR.progress_file_name w) rest _) as [[[]|e] st];
      split; reflexivity.
Qed.

Lemma checkpoint_length_is_items_consumed_witness :
  let w := Demo.world [] [] in
  let review_run :=
    Review.run_batches w Demo.three_prs "dika-paper" 1 (Review.progress_file_name w)
      [0; 1]
      {| Review.processed_prs := VList []; Review.all_comments := VList [];
         Review.disk := Demo.no_files |} in
  let pr_run :=
    PR.run_batches w Demo.three_prs 1 (PR.progress_file_name w) [0; 1]
      {| PR.processed_prs := VList []; PR.release_prs := [];
         PR.disk := Demo.no_files |} in
  (Spec.checkpoint_covers (Review.disk (snd review_run))
     (Review.progress_file_name w) Demo.three_prs 2
   /\ exists rest,
        range 2 3 2 = Ret rest
        /\ let resumed :=
             Review.process_prs_for_comments w Demo.three_prs "dika-paper" 2
               (Review.disk (snd review_run)) in
           let continued :=
             Review.run_batches w Demo.three_prs "dika-paper" 2
               (Review.progress_file_name w) rest (snd review_run) in
           fst resumed
           = (let! _ := fst continued in
              Ret (Review.all_comments (snd continued), Review.progress_file_name w))
           /\ snd resumed = Review.disk (snd continued))
  /\ (Spec.checkpoint_covers (PR.disk (snd pr_run)) (PR.progress_file_name w)
        Demo.three_prs 2
      /\ exists rest,
           range 2 3 2 = Ret rest
           /\ let resumed :=
                PR.process_prs_in_batches w Demo.three_prs 2 (PR.disk (snd pr_run)) in
              let continued :=
                PR.run_batches w Demo.three_prs 2 (PR.progress_file_name w) rest
                  {| PR.processed_prs := PR.processed_prs (snd pr_run);
                     PR.release_prs := [];
                     PR.disk := PR.disk (snd pr_run) |} in
              fst resumed
              = (let! _ := fst continued in
                 Ret (PR.release_prs (snd continued), PR.progress_file_name w))
              /\ snd resumed = PR.disk (snd continued)).
Proof.
  intros w review_run pr_run.
  destruct (checkpoint_length_is_items_consumed w Demo.three_prs "dika-paper" 1 2
              0 1 1 [0; 1; 2] [] [] Demo.no_files)
    as [Hreview Hpr]; [lia|lia|reflexivity|reflexivity|].
  split; [apply Hreview|apply Hpr]; vm_compute; reflexivity.
Defined.

(** ** Resuming from a checkpoint (C1) *)

(** C1 fails in pr.py.  A run of the PR report over two PRs that both
    target release/1.2, with batch size 1, is interrupted after its first
    batch; the checkpoint it leaves holds one processed PR and one release
    PR.  The resumed run starts at offset 1 and processes only the second
    PR, but it returns that PR alone: [release_prs] starts empty and the
    checkpoint's "release_prs" is never read.  A run from scratch returns
    both.  The comment report, which reads "all_comments" back, returns
    the same from its checkpoint as from scratch.  (In general: lemmas
    [pr_report_results] and [review_resume_matches_fresh_run].) *)
Theorem pr_report_resume_loses_earlier_results :
  let w := Demo.world [] [] in
  let items := Demo.two_release_prs in
  let resumed := fst (PR.process_prs_in_batches w items 1 Demo.interrupted_pr_run) in
  let fresh := fst (PR.process_prs_in_batches w items 1 Demo.no_files) in
  Spec.pr_start_index Demo.interrupted_pr_run (PR.progress_file_name w) = Ret 1
  /\ fresh = (let! found := for_extend (PR.process_pr w) items in
              Ret (found, PR.progress_file_name w))
  /\ resumed = (let! found := for_extend (PR.process_pr w) (skipn 1 items) in
                Ret (found, PR.progress_file_name w))
  /\ (exists first second, fresh = Ret ([first; second], PR.progress_file_name w)
                           /\ resumed = Ret ([second], PR.progress_file_name w))
  /\ resumed <> fresh
  /\ fst (Review.process_prs_for_comments w items "dika-paper" 1
            Demo.interrupted_review_run)
     = fst (Review.process_prs_for_comments w items "dika-paper" 1 Demo.no_files).
Proof.
  intros w items resumed fresh.
  split; [vm_compute; reflexivity|].
  split; [vm_compute; reflexivity|].
  split; [vm_compute; reflexivity|].
  split; [do 2 eexists; split; vm_compute; reflexivity|].
  split; [vm_compute; discriminate|].
  vm_compute; reflexivity.
Qed.

(** ** The branch prefix option (C3) *)

(** C3 fails in pr.py.  With [--branch-prefix hotfix/], a PR whose base
    ref is "hotfix/1.0" (which starts with the prefix) is dropped and the
    run ends without a report, while a PR whose base ref is "release/1.2"
    (which does not) is kept and reported: [main] never hands
    [args.branch_prefix] on, and the test stays the literal "release/".
    The outcome of [main] is the same for every prefix. *)
Theorem branch_prefix_option_is_ignored :
  let hotfix_world :=
    Demo.world [Demo.search_page [Demo.pr 1 "dika-paper" "pulls/5"] 1] [] in
  let release_world :=
    Demo.world [Demo.search_page [Demo.pr 1 "dika-paper" "pulls/1"] 1] [] in
  let a := Demo.cli 25 "hotfix/" in
  startswith "hotfix/1.0" (arg_branch_prefix a) = true
  /\ PR.process_pr hotfix_world (Demo.pr 1 "dika-paper" "pulls/5") = Ret []
  /\ (exists fs,
        PR.main hotfix_world a 2 Demo.no_files = Some (Ret 0, fs) /\
        exists_file "csvs/dika-pr-sprint-224-20250102_090500.csv" fs = false)
  /\ startswith "release/1.2" (arg_branch_prefix a) = false
  /\ (exists kept,
        PR.process_pr release_world (Demo.pr 1 "dika-paper" "pulls/1") = Ret [kept])
  /\ (exists fs,
        PR.main release_world a 2 Demo.no_files = Some (Ret 0, fs) /\
        exists_file "csvs/dika-pr-sprint-224-20250102_090500.csv" fs = true)
  /\ (forall (w : env) (batch_size : Z) (p q : string) (fuel : nat)
             (fs : filesystem),
        PR.main w (Demo.cli batch_size p) fuel fs
        = PR.main w (Demo.cli batch_size q) fuel fs).
Proof.
  intros hotfix_world release_world a.
  split; [reflexivity|].
  split; [reflexivity|].
  split; [eexists; split; vm_compute; reflexivity|].
  split; [reflexivity|].
  split; [eexists; vm_compute; reflexivity|].
  split; [eexists; split; vm_compute; reflexivity|].
  reflexivity.
Qed.

(** ** The checkpoint file after a run (C6) *)

Lemma report_removes_checkpoint_pr (w : env) (release_prs : list value)
    (progress_file sprint_name filename : string) (fs fs' : filesystem) :
  PR.generate_final_report w release_prs progress_file sprint_name fs
    = (Ret (VStr filename), fs') ->
  exists_file progress_file fs' = false.
Proof.
  unfold PR.generate_final_report. intros H.
  destruct release_prs as [|r rs]; [discriminate H|].
  destruct (PR.sort_release_prs (r :: rs)) as [sorted|]; [|discriminate H].
  destruct (csvs_dir fs); [|discriminate H]. simpl negb in H. cbv iota in H.
  destruct (write_rows PR.csv_row sorted [PR.headers]) as [[[]|] rows];
    [|discriminate H].
  injection H as _ <-.
  match goal with
  | |- context [if exists_file progress_file ?f then _ else _] =>
      destruct (exists_file progress_file f) eqn:Hex; [|exact Hex]
  end.
  unfold exists_file, remove_file. simpl. now rewrite lookup_delete_eq.
Qed.

(** C6 fails in both scripts.  When the search returns one PR and that
    PR targets "main", every batch is processed, nothing is kept, [main]
    exits with code 0, and the checkpoint file is still there:
    [generate_final_report] returns at its empty-result test, before the
    clean-up at its end.  When a report is written the file is removed
    (lemma [report_removes_checkpoint_pr]; for the comment report, lemma
    [review_report_dump_in_sorted_order] further down). *)
Theorem checkpoint_survives_empty_result :
  let w := Demo.world [Demo.search_page [Demo.pr 3 "alice" "pulls/3"] 1] [] in
  (exists fs,
     PR.main w (Demo.cli 25 "release/") 2 Demo.no_files = Some (Ret 0, fs) /\
     exists_file (PR.progress_file_name w) fs = true)
  /\ (exists fs,
        Review.main w (Demo.cli 25 "release/") 2 Demo.no_files = Some (Ret 0, fs) /\
        exists_file (Review.progress_file_name w) fs = true)
  /\ (forall fs, PR.generate_final_report w [] (PR.progress_file_name w) "224" fs
                 = (Ret VNone, fs))
  /\ (forall fs, Review.generate_final_report w (VList [])
                   (Review.progress_file_name w) "224" "dika-paper" fs
                 = (Ret VNone, fs)).
Proof.
  intros w.
  split; [eexists; split; vm_compute; reflexivity|].
  split; [eexists; split; vm_compute; reflexivity|].
  split; reflexivity.
Qed.

(** ** Stable sorting by a key *)

Section StableSortFacts.
Context {A K : Type} (key : A -> K) (leb eqb : K -> K -> bool).
Hypothesis leb_total : forall a b, leb a b = true \/ leb b a = true.
Hypothesis leb_trans :
  forall a b c, leb a b = true -> leb b c = true -> leb a c = true.
Hypothesis leb_antisym : forall a b, leb a b = true -> leb b a = true -> a = b.
Hypothesis eqb_eq : forall a b, eqb a b = true <-> a = b.

Let le (x y : A) : bool := leb (key x) (key y).
Let below (x y : A) : Prop := le x y = true.
Let with_key (k : K) (x : A) : bool := eqb (key x) k.

Lemma leb_refl (a : K) : leb a a = true.
Proof. destruct (leb_total a a); assumption. Qed.

Lemma insert_by_permutation (x : A) (l : list A) :
  Permutation (x :: l) (insert_by le x l).
Proof.
  induction l as [|y l IH]; simpl; [reflexivity|].
  destruct (le x y); [reflexivity|].
  rewrite perm_swap. now constructor.
Qed.

Lemma stable_sort_permutation (l : list A) :
  Permutation l (stable_sort le l).
Proof.
  induction l as [|x l IH]; simpl; [constructor|].
  rewrite <- insert_by_permutation. now constructor.
Qed.

Lemma insert_by_sorted (x : A) (l : list A) :
  StronglySorted below l -> StronglySorted below (insert_by le x l).
Proof.
  induction 1 as [|y l Hl IH Hy]; simpl.
  - repeat constructor.
  - destruct (le x y) eqn:Hxy.
    + constructor; [now constructor|].
      constructor; [exact Hxy|].
      eapply List.Forall_impl; [|exact Hy].
      intros z Hz. unfold below, le in *. eapply leb_trans; eassumption.
    + constructor; [exact IH|].
      assert (Hyx : below y x).
      { unfold below, le in *.
        destruct (leb_total (key x) (key y)); [congruence|assumption]. }
      eapply Permutation_Forall; [apply insert_by_permutation|].
      now constructor.
Qed.

Lemma stable_sort_sorted (l : list A) : StronglySorted below (stable_sort le l).
Proof.
  induction l as [|x l IH]; simpl; [constructor|].
  now apply insert_by_sorted.
Qed.

(** Inserting puts the new element in front of the elements with its
    key. *)
Lemma insert_by_with_key (k : K) (x : A) (l : list A) :
  List.filter (with_key k) (insert_by le x l)
  = if with_key k x then x :: List.filter (with_key k) l
    else List.filter (with_key k) l.
Proof.
  induction l as [|y l IH]; simpl; [reflexivity|].
  destruct (le x y) eqn:Hxy; simpl; [reflexivity|].
  rewrite IH.
  destruct (with_key k x) eqn:Hx; [|reflexivity].
  destruct (with_key k y) eqn:Hy; [|reflexivity].
  exfalso. unfold with_key, le in *.
  apply eqb_eq in Hx, Hy. rewrite Hx, Hy, leb_refl in Hxy. discriminate Hxy.
Qed.

(** Stability: the elements with one key come out in the order they
    went in. *)
Lemma stable_sort_stable (k : K) (l : list A) :
  List.filter (with_key k) (stable_sort le l) = List.filter (with_key k) l.
Proof.
  induction l as [|x l IH]; simpl; [reflexivity|].
  rewrite insert_by_with_key, IH. reflexivity.
Qed.

Lemma with_key_In (x : A) (l : list A) :
  In x l <-> In x (List.filter (with_key (key x)) l).
Proof.
  rewrite filter_In. unfold with_key. rewrite eqb_eq. tauto.
Qed.

(** A sorted list is determined by the order of its elements within
    each key. *)
Lemma sorted_stable_unique (s : list A) :
  forall s' : list A,
    StronglySorted below s -> StronglySorted below s' ->
    (forall k, List.filter (with_key k) s = List.filter (with_key k) s') ->
    s = s'.
Proof.
  induction s as [|a t IH]; intros s' Hs Hs' Hsame.
  - destruct s' as [|b t']; [reflexivity|].
    exfalso. assert (Hb : In b (b :: t')) by apply in_eq.
    apply (proj1 (with_key_In b (b :: t'))) in Hb.
    rewrite <- Hsame in Hb. exact Hb.
  - destruct s' as [|b t'].
    { exfalso. assert (Ha : In a (a :: t)) by apply in_eq.
      apply (proj1 (with_key_In a (a :: t))) in Ha.
      rewrite Hsame in Ha. exact Ha. }
    apply StronglySorted_inv in Hs as [Ht Ha].
    apply StronglySorted_inv in Hs' as [Ht' Hb].
    assert (Hab : below a b).
    { assert (Hin : In b (a :: t)).
      { apply (proj2 (with_key_In b (a :: t))). rewrite Hsame.
        apply (proj1 (with_key_In b (b :: t'))). apply in_eq. }
      destruct Hin as [->|Hin]; [apply leb_refl|].
      rewrite List.Forall_forall in Ha. now apply Ha. }
    assert (Hba : below b a).
    { assert (Hin : In a (b :: t')).
      { apply (proj2 (with_key_In a (b :: t'))). rewrite <- Hsame.
        apply (proj1 (with_key_In a (a :: t))). apply in_eq. }
      destruct Hin as [->|Hin]; [apply leb_refl|].
      rewrite List.Forall_forall in Hb. now apply Hb. }
    assert (Hkey : key a = key b) by now apply leb_antisym.
    assert (Hhead : a = b).
    { specialize (Hsame (key a)). simpl in Hsame. unfold with_key in Hsame.
      rewrite <- Hkey in Hsame.
      assert (Hrefl : eqb (key a) (key a) = true) by now apply eqb_eq.
      rewrite Hrefl in Hsame. now injection Hsame. }
    subst b. f_equal. apply IH; [exact Ht|exact Ht'|].
    intros k. specialize (Hsame k). simpl in Hsame.
    destruct (with_key k a); [now injection Hsame|exact Hsame].
Qed.

(** The order in which the elements were accumulated matters only
    within equal keys. *)
Lemma stable_sort_order_independent (l l' : list A) :
  (forall k, List.filter (with_key k) l' = List.filter (with_key k) l) ->
  stable_sort le l' = stable_sort le l.
Proof.
  intros Hsame. apply sorted_stable_unique; try apply stable_sort_sorted.
  intros k. now rewrite !stable_sort_stable.
Qed.

End StableSortFacts.

Lemma insert_by_map {A B : Type} (f : A -> B) (le : B -> B -> bool) (x : A)
    (l : list A) :
  insert_by le (f x) (map f l) = map f (insert_by (fun a b => le (f a) (f b)) x l).
Proof.
  induction l as [|y l IH]; simpl; [reflexivity|].
  destruct (le (f x) (f y)); simpl; [reflexivity|]. now rewrite IH.
Qed.

Lemma stable_sort_map {A B : Type} (f : A -> B) (le : B -> B -> bool)
    (l : list A) :
  stable_sort le (map f l) = map f (stable_sort (fun a b => le (f a) (f b)) l).
Proof.
  induction l as [|x l IH]; simpl; [reflexivity|].
  now rewrite IH, insert_by_map.
Qed.

(** ** The order of the final reports (C9) *)

Lemma string_compare_trans (a : string) :
  forall b c : string,
    String.compare a b <> Gt -> String.compare b c <> Gt ->
    String.compare a c <> Gt.
Proof.
  induction a as [|ca a IH]; intros [|cb b] [|cc c]; simpl; try congruence.
  intros H1 H2.
  destruct (Ascii.compare ca cb) eqn:E1.
  - apply Ascii.compare_eq_iff in E1. subst cb.
    destruct (Ascii.compare ca cc); [now apply (IH b)|discriminate|exact H2].
  - destruct (Ascii.compare cb cc) eqn:E2.
    + apply Ascii.compare_eq_iff in E2. subst cc. now rewrite E1.
    + assert (E3 : Ascii.compare ca cc = Lt).
      { unfold Ascii.compare in *. rewrite N.compare_lt_iff in *. lia. }
      now rewrite E3.
    + congruence.
  - congruence.
Qed.

Lemma string_leb_trans (a b c : string) :
  String.leb a b = true -> String.leb b c = true -> String.leb a c = true.
Proof.
  unfold String.leb. intros H1 H2.
  pose proof (string_compare_trans a b c) as H.
  destruct (String.compare a b); try discriminate H1;
    destruct (String.compare b c); try discriminate H2;
    destruct (String.compare a c); try reflexivity;
    exfalso; apply H; congruence.
Qed.

Lemma for_each_ret {A B : Type} (f : A -> outcome B) (g : A -> B) (l : list A) :
  Forall (fun x => f x = Ret (g x)) l -> for_each f l = Ret (map g l).
Proof.
  induction 1 as [|x l Hx _ IH]; simpl; [reflexivity|].
  now rewrite Hx, IH.
Qed.

Lemma all_some_map {A B : Type} (f : A -> option B) (g : A -> B) (l : list A) :
  Forall (fun x => f x = Some (g x)) l ->
  all_some (map f l) = Some (map g l).
Proof.
  induction 1 as [|x l Hx _ IH]; simpl; [reflexivity|].
  unfold all_some in *. simpl. now rewrite Hx, IH.
Qed.

Lemma all_some_none {A B : Type} (f : A -> option B) (x : A) (l : list A) :
  f x = None -> all_some (map f (x :: l)) = None.
Proof. intros Hx. unfold all_some. simpl. now rewrite Hx. Qed.

Lemma combine_keys {A K : Type} (kf : A -> K) (l : list A) :
  combine (map kf l) l = map (fun x => (kf x, x)) l.
Proof. induction l as [|x l IH]; simpl; [reflexivity|]. now rewrite IH. Qed.

Lemma map_snd_keys {A K : Type} (kf : A -> K) (l : list A) :
  map snd (map (fun x => (kf x, x)) l) = l.
Proof. rewrite map_map. simpl. apply map_id. Qed.

Lemma stable_sort_short {A : Type} (le : A -> A -> bool) (l : list A) :
  (List.length l <= 1)%nat -> stable_sort le l = l.
Proof.
  destruct l as [|x [|y l]]; simpl; intros H; try reflexivity. lia.
Qed.

(** [sort_by] on records whose keys are all strings. *)
Lemma sort_by_strings (key : value -> outcome value) (kf : value -> string)
    (reverse : bool) (l : list value) :
  Forall (fun x => key x = Ret (VStr (kf x))) l ->
  sort_by key reverse l
  = Ret (stable_sort
           (fun x y => if reverse then String.leb (kf y) (kf x)
                       else String.leb (kf x) (kf y)) l).
Proof.
  intros Hkeys. unfold sort_by.
  rewrite (for_each_ret key (fun x => VStr (kf x)) l Hkeys). simpl bind.
  destruct (Nat.leb_spec (List.length l) 1) as [Hshort|Hlong].
  - now rewrite stable_sort_short.
  - destruct l as [|x l']; [simpl in Hlong; lia|].
    rewrite !map_map.
    rewrite (all_some_none (fun y => as_int (VStr (kf y))) x l') by reflexivity.
    rewrite (all_some_map (fun y => as_str (VStr (kf y))) kf)
      by (apply List.Forall_forall; reflexivity).
    rewrite combine_keys.
    rewrite (stable_sort_map (fun x => (kf x, x))
               (fun p q => if reverse then String.leb (fst q) (fst p)
                           else String.leb (fst p) (fst q))).
    now rewrite map_snd_keys.
Qed.

(** [sort_by] on records whose keys are all integers. *)
Lemma sort_by_ints (key : value -> outcome value) (kv : value -> value)
    (kf : value -> Z) (reverse : bool) (l : list value) :
  Forall (fun x => key x = Ret (kv x)) l ->
  Forall (fun x => as_int (kv x) = Some (kf x)) l ->
  sort_by key reverse l
  = Ret (stable_sort
           (fun x y => if reverse then kf y <=? kf x else kf x <=? kf y) l).
Proof.
  intros Hkeys Hints. unfold sort_by.
  rewrite (for_each_ret key kv l Hkeys). simpl bind.
  destruct (Nat.leb_spec (List.length l) 1) as [Hshort|Hlong].
  - now rewrite stable_sort_short.
  - rewrite map_map, (all_some_map _ kf) by exact Hints.
    rewrite combine_keys.
    rewrite (stable_sort_map (fun x => (kf x, x))
               (fun p q => if reverse then fst q <=? fst p
                           else fst p <=? fst q)).
    now rewrite map_snd_keys.
Qed.

Lemma z_leb_total (a b : Z) : (a <=? b) = true \/ (b <=? a) = true.
Proof. destruct (Z.leb_spec a b); [now left|right; apply Z.leb_le; lia]. Qed.

Lemma z_leb_trans (a b c : Z) :
  (a <=? b) = true -> (b <=? c) = true -> (a <=? c) = true.
Proof. rewrite !Z.leb_le. lia. Qed.

Lemma z_leb_antisym (a b : Z) : (a <=? b) = true -> (b <=? a) = true -> a = b.
Proof. rewrite !Z.leb_le. lia. Qed.

Lemma created_at_key (l : list value) :
  Forall (fun x => Spec.has_created_at x = true) l ->
  Forall (fun x => item x "created_at" = Ret (VStr (Spec.created_at x))) l.
Proof.
  apply List.Forall_impl. intros x. unfold Spec.has_created_at, Spec.created_at.
  destruct (item x "created_at") as [[| | |s| |]|]; intros H;
    try discriminate H; reflexivity.
Qed.

Lemma number_key (l : list value) :
  Forall (fun x => Spec.has_number x = true) l ->
  Forall (fun x => item x "number"
                   = Ret (match item x "number" with Ret v => v | Raise _ => VNone end)) l
  /\ Forall (fun x => as_int (match item x "number" with Ret v => v | Raise _ => VNone end)
                      = Some (Spec.number x)) l.
Proof.
  intros H. split; (eapply List.Forall_impl; [|exact H]); intros x;
    unfold Spec.has_number, Spec.number;
    destruct (item x "number") as [v|]; intros Hx; try discriminate Hx;
    try reflexivity.
  destruct (as_int v); [reflexivity|discriminate Hx].
Qed.

Lemma same_keys_same_shape {K : Type} (kf : value -> K) (eqb : K -> K -> bool)
    (P : value -> Prop) (l l' : list value) :
  (forall a b, eqb a b = true <-> a = b) ->
  (forall k, List.filter (fun x => eqb (kf x) k) l'
             = List.filter (fun x => eqb (kf x) k) l) ->
  Forall P l -> Forall P l'.
Proof.
  intros Heqb Hsame Hl. apply List.Forall_forall. intros x Hx.
  rewrite List.Forall_forall in Hl. apply Hl.
  assert (Hin : In x (List.filter (fun y => eqb (kf y) (kf x)) l')).
  { apply filter_In. split; [exact Hx|]. now apply Heqb. }
  rewrite Hsame in Hin. now apply filter_In in Hin.
Qed.

Lemma sort_comments_stable_sort (l : list value) :
  Forall (fun x => Spec.has_created_at x = true) l ->
  Review.sort_comments (VList l)
  = Ret (stable_sort (fun x y => String.leb (Spec.created_at x) (Spec.created_at y)) l).
Proof.
  intros H. unfold Review.sort_comments.
  exact (sort_by_strings _ Spec.created_at false l (created_at_key l H)).
Qed.

Lemma sort_release_prs_stable_sort (l : list value) :
  Forall (fun x => Spec.has_number x = true) l ->
  PR.sort_release_prs l
  = Ret (stable_sort (fun x y => Spec.number y <=? Spec.number x) l).
Proof.
  intros H. unfold PR.sort_release_prs.
  destruct (number_key l H) as [Hk Hi].
  exact (sort_by_ints _ _ Spec.number true l Hk Hi).
Qed.

(** On records accumulated out of order and with a repeated key: the
    comment created first comes first and the two comments with the same
    timestamp keep their order (PR 4 before PR 2); the PR with the highest
    number comes first and the two PRs numbered 3 keep theirs. *)
Example sorted_reports_example :
  Review.sort_comments (VList Demo.accumulated_comments)
  = Ret [Demo.comment_record 9 "2025-01-01T08:30:00Z";
         Demo.comment_record 4 "2025-01-03T10:00:00Z";
         Demo.comment_record 2 "2025-01-03T10:00:00Z"]
  /\ PR.sort_release_prs Demo.accumulated_prs
     = Ret [Demo.pr_record 8 "second"; Demo.pr_record 3 "first";
            Demo.pr_record 3 "third"].
Proof. split; vm_compute; reflexivity. Qed.

(** ** What the report files hold *)

Lemma write_rows_all (row : value -> outcome (list value)) (records : list value) :
  forall written rows',
    write_rows row records written = (Ret tt, rows') ->
    exists rows, for_each row records = Ret rows /\ rows' = written ++ rows.
Proof.
  induction records as [|r records IH]; intros written rows' H; simpl in *.
  - injection H as <-. exists []. now rewrite app_nil_r.
  - destruct (row r) as [cells|]; [|discriminate H].
    destruct (IH _ _ H) as [rows [Hrows ->]].
    exists (cells :: rows). simpl. rewrite Hrows. split; [reflexivity|].
    now rewrite <- app_assoc.
Qed.


(** The JSON file of the comment report holds the comment records in
    the order the sort gave, and the run leaves no checkpoint behind. *)
Lemma review_report_dump_in_sorted_order (w : env) (all_comments : value)
    (progress_file sprint_name username filename : string)
    (fs fs' : filesystem) :
  Review.generate_final_report w all_comments progress_file sprint_name username fs
    = (Ret (VStr filename), fs') ->
  let json_filename :=
    String.concat "" ["csvs/"; username; "-comments-full-sprint-"; sprint_name;
                      "-"; strftime_now w 1; ".json"] in
  exists sorted,
    Review.sort_comments all_comments = Ret sorted /\
    exists_file progress_file fs' = false /\
    (json_filename <> progress_file ->
     files fs' !! json_filename = Some (JsonFile (VList sorted))).
Proof.
  intros H json_filename. unfold Review.generate_final_report in H.
  destruct (truthy all_comments); [|discriminate H]. simpl negb in H. cbv iota in H.
  destruct (Review.sort_comments all_comments) as [sorted|]; [|discriminate H].
  destruct (write_rows Review.csv_row sorted [Review.headers]) as [[[]|] rows];
    [|discriminate H].
  destruct (Review.count_unique_prs sorted) as [[]|]; [|discriminate H].
  injection H as _ <-.
  exists sorted. split; [reflexivity|].
  match goal with
  | |- context [if exists_file progress_file ?f then _ else _] =>
      destruct (exists_file progress_file f) eqn:Hex
  end.
  - split.
    + unfold exists_file, remove_file. simpl. now rewrite lookup_delete_eq.
    + intros Hne. simpl. rewrite lookup_delete_ne by congruence.
      apply lookup_insert_eq.
  - split; [exact Hex|]. intros _. apply lookup_insert_eq.
Qed.

(** ** The final reports are written in sorted order (C9) *)

Lemma append_cancel_l (s x y : string) :
  String.append s x = String.append s y -> x = y.
Proof.
  induction s as [|c s IH]; intros H; [exact H|].
  apply IH.
  change (String c (String.append s x) = String c (String.append s y)) in H.
  now injection H.
Qed.

(** The files of a report are in [csvs/]. *)
Lemma csvs_file_is_no_progress_file (progress_file name : string) :
  String.prefix "csvs/" progress_file = false ->
  String.append "csvs/" name <> progress_file.
Proof.
  intros Hp <-.
  assert (Hpre : String.prefix "csvs/" (String.append "csvs/" name) = true)
    by (destruct name; reflexivity).
  congruence.
Qed.

(** What a comment report that returns a file name has written. *)
Lemma review_report_written (w : env) (all_comments : value)
    (progress_file sprint_name username filename : string)
    (fs fs' : filesystem) :
  Review.generate_final_report w all_comments progress_file sprint_name username fs
    = (Ret (VStr filename), fs') ->
  String.prefix "csvs/" progress_file = false ->
  let json_filename :=
    String.concat "" ["csvs/"; username; "-comments-full-sprint-"; sprint_name;
                      "-"; strftime_now w 1; ".json"] in
  exists sorted rows,
    truthy all_comments = true /\
    Review.sort_comments all_comments = Ret sorted /\
    for_each Review.csv_row sorted = Ret rows /\
    files fs' !! filename = Some (CsvFile (Review.headers :: rows)) /\
    files fs' !! json_filename = Some (JsonFile (VList sorted)).
Proof.
  intros H Hp json_filename. unfold Review.generate_final_report in H.
  destruct (truthy all_comments); [|discriminate H]. simpl negb in H. cbv iota in H.
  destruct (Review.sort_comments all_comments) as [sorted|]; [|discriminate H].
  destruct (write_rows Review.csv_row sorted [Review.headers]) as [[[]|] rows'] eqn:Hw;
    [|discriminate H].
  destruct (write_rows_all _ _ _ _ Hw) as [rows [Hrows ->]].
  destruct (Review.count_unique_prs sorted) as [[]|]; [|discriminate H].
  injection H as Hname <-. fold json_filename.
  exists sorted, rows.
  split; [reflexivity|]. split; [reflexivity|]. split; [exact Hrows|].
  assert (Hcsv : filename <> progress_file).
  { rewrite <- Hname.
    exact (csvs_file_is_no_progress_file progress_file
             (String.concat "" [username; "-comments-sprint-"; sprint_name; "-";
                                strftime_now w 1; ".csv"]) Hp). }
  assert (Hjson : json_filename <> progress_file).
  { exact (csvs_file_is_no_progress_file progress_file
             (String.concat "" [username; "-comments-full-sprint-"; sprint_name;
                                "-"; strftime_now w 1; ".json"]) Hp). }
  assert (Hdiff : json_filename <> filename).
  { rewrite <- Hname. intros Heq.
    apply (append_cancel_l "csvs/"), (append_cancel_l ""),
          (append_cancel_l username), (append_cancel_l "") in Heq.
    discriminate Heq. }
  rewrite Hname.
  destruct (exists_file progress_file _); simpl;
    rewrite ?lookup_delete_ne by congruence.
  - split; [rewrite lookup_insert_ne by exact Hdiff|]; apply lookup_insert_eq.
  - split; [rewrite lookup_insert_ne by exact Hdiff|]; apply lookup_insert_eq.
Qed.

(** What a PR report that returns a file name has written. *)
Lemma pr_report_written (w : env) (release_prs : list value)
    (progress_file sprint_name filename : string) (fs fs' : filesystem) :
  PR.generate_final_report w release_prs progress_file sprint_name fs
    = (Ret (VStr filename), fs') ->
  String.prefix "csvs/" progress_file = false ->
  exists sorted rows,
    release_prs <> [] /\
    PR.sort_release_prs release_prs = Ret sorted /\
    for_each PR.csv_row sorted = Ret rows /\
    files fs' !! filename = Some (CsvFile (PR.headers :: rows)).
Proof.
  unfold PR.generate_final_report. intros H Hp.
  destruct release_prs as [|r rs]; [discriminate H|].
  destruct (PR.sort_release_prs (r :: rs)) as [sorted|]; [|discriminate H].
  destruct (csvs_dir fs); [|discriminate H]. simpl negb in H. cbv iota in H.
  destruct (write_rows PR.csv_row sorted [PR.headers]) as [[[]|] rows'] eqn:Hw;
    [|discriminate H].
  destruct (write_rows_all _ _ _ _ Hw) as [rows [Hrows ->]].
  injection H as Hname <-.
  assert (Hcsv : filename <> progress_file).
  { rewrite <- Hname.
    exact (csvs_file_is_no_progress_file progress_file
             (String.concat "" ["dika-pr-sprint-"; sprint_name; "-";
                                strftime_now w 1; ".csv"]) Hp). }
  rewrite Hname.
  exists sorted, rows. split; [discriminate|]. split; [reflexivity|].
  split; [exact Hrows|].
  destruct (exists_file progress_file _); simpl.
  - rewrite lookup_delete_ne by congruence. apply lookup_insert_eq.
  - apply lookup_insert_eq.
Qed.

Lemma same_keys_not_empty {K : Type} (kf : value -> K) (eqb : K -> K -> bool)
    (l l' : list value) :
  (forall a, eqb a a = true) ->
  (forall k, List.filter (fun x => eqb (kf x) k) l'
             = List.filter (fun x => eqb (kf x) k) l) ->
  l <> [] -> l' <> [].
Proof.
  intros Hrefl Hsame Hl ->. destruct l as [|x l]; [congruence|].
  specialize (Hsame (kf x)). simpl in Hsame. rewrite Hrefl in Hsame.
  discriminate Hsame.
Qed.

(** C9: a report that [generate_final_report] writes holds the
    accumulated records in sorted order, and nothing but the sort decides
    that order.  When the comment report returns a file name, its CSV file
    holds the header and one row per record of a list [sorted], and its
    JSON file holds [sorted] itself, where [sorted] is a rearrangement of
    the accumulated comments, ascending by "created_at", with the comments
    of equal timestamp in their accumulation order; and the report writes
    the same files for every other accumulation order that agrees on the
    order within equal timestamps.  The same holds for the CSV file of the
    PR report, by "number" descending.  (The progress file is not a file
    of [csvs/], where the reports go.) *)
Theorem final_reports_are_stably_sorted (w : env) (comments prs : list value)
    (progress_file sprint_name username comments_csv prs_csv : string)
    (fs review_fs fs0 pr_fs : filesystem) :
  (String.prefix "csvs/" progress_file = false ->
   Forall (fun x => Spec.has_created_at x = true) comments ->
   Review.generate_final_report w (VList comments) progress_file sprint_name
     username fs = (Ret (VStr comments_csv), review_fs) ->
   exists sorted rows,
     for_each Review.csv_row sorted = Ret rows
     /\ files review_fs !! comments_csv = Some (CsvFile (Review.headers :: rows))
     /\ files review_fs
          !! String.concat "" ["csvs/"; username; "-comments-full-sprint-";
                               sprint_name; "-"; strftime_now w 1; ".json"]
        = Some (JsonFile (VList sorted))
     /\ Permutation comments sorted
     /\ StronglySorted Spec.older_first sorted
     /\ (forall k, Spec.created_at_is k sorted = Spec.created_at_is k comments)
     /\ (forall comments',
           (forall k, Spec.created_at_is k comments' = Spec.created_at_is k comments) ->
           Review.generate_final_report w (VList comments') progress_file
             sprint_name username fs = (Ret (VStr comments_csv), review_fs)))
  /\ (String.prefix "csvs/" progress_file = false ->
      Forall (fun x => Spec.has_number x = true) prs ->
      PR.generate_final_report w prs progress_file sprint_name fs0
        = (Ret (VStr prs_csv), pr_fs) ->
      exists sorted rows,
        for_each PR.csv_row sorted = Ret rows
        /\ files pr_fs !! prs_csv = Some (CsvFile (PR.headers :: rows))
        /\ Permutation prs sorted
        /\ StronglySorted Spec.higher_number_first sorted
        /\ (forall k, Spec.number_is k sorted = Spec.number_is k prs)
        /\ (forall prs',
              (forall k, Spec.number_is k prs' = Spec.number_is k prs) ->
              PR.generate_final_report w prs' progress_file sprint_name fs0
              = (Ret (VStr prs_csv), pr_fs))).
Proof.
  split.
  - intros Hp Hc Hrun.
    destruct (review_report_written _ _ _ _ _ _ _ _ Hrun Hp)
      as [sorted [rows [Htruthy [Hsort [Hrows [Hcsv Hjson]]]]]].
    rewrite (sort_comments_stable_sort comments Hc) in Hsort.
    injection Hsort as <-.
    eexists _, rows.
    split; [exact Hrows|]. split; [exact Hcsv|]. split; [exact Hjson|].
    split; [apply stable_sort_permutation|].
    split.
    { apply (stable_sort_sorted Spec.created_at String.leb);
        [apply String.leb_total|apply string_leb_trans]. }
    split.
    { intros k. unfold Spec.created_at_is.
      apply (stable_sort_stable Spec.created_at String.leb String.eqb);
        [apply String.leb_total|apply String.eqb_eq]. }
    intros comments' Hsame. rewrite <- Hrun.
    assert (Hc' : Forall (fun x => Spec.has_created_at x = true) comments').
    { eapply (same_keys_same_shape Spec.created_at String.eqb);
        [apply String.eqb_eq|exact Hsame|exact Hc]. }
    assert (Hne : comments' <> []).
    { apply (same_keys_not_empty Spec.created_at String.eqb comments comments');
        [apply String.eqb_refl|exact Hsame|].
      intros ->. discriminate Htruthy. }
    unfold Review.generate_final_report.
    rewrite (sort_comments_stable_sort comments' Hc'),
            (sort_comments_stable_sort comments Hc).
    rewrite (stable_sort_order_independent Spec.created_at String.leb String.eqb
               String.leb_total string_leb_trans String.leb_antisym
               String.eqb_eq comments comments' Hsame).
    rewrite Htruthy.
    destruct comments' as [|c' comments']; [congruence|reflexivity].
  - intros Hp Hn Hrun.
    destruct (pr_report_written _ _ _ _ _ _ _ Hrun Hp)
      as [sorted [rows [Hprs [Hsort [Hrows Hcsv]]]]].
    rewrite (sort_release_prs_stable_sort prs Hn) in Hsort.
    injection Hsort as <-.
    assert (Htotal : forall a b : Z, (b <=? a) = true \/ (a <=? b) = true)
      by (intros a b; apply z_leb_total).
    assert (Htrans : forall a b c : Z,
               (b <=? a) = true -> (c <=? b) = true -> (c <=? a) = true)
      by (intros a b c H1 H2; eapply z_leb_trans; eassumption).
    eexists _, rows.
    split; [exact Hrows|]. split; [exact Hcsv|].
    split; [apply stable_sort_permutation|].
    split.
    { assert (Hsorted : StronglySorted
                (fun x y => (Spec.number y <=? Spec.number x) = true)
                (stable_sort (fun x y => Spec.number y <=? Spec.number x) prs))
        by (apply (stable_sort_sorted Spec.number (fun a b => b <=? a));
            assumption).
      eapply StronglySorted_ind with
        (P := StronglySorted Spec.higher_number_first); [| |exact Hsorted].
      - constructor.
      - intros a l _ IH Ha. constructor; [exact IH|].
        eapply List.Forall_impl; [|exact Ha].
        intros b Hb. unfold Spec.higher_number_first. now apply Z.leb_le. }
    split.
    { intros k. unfold Spec.number_is.
      apply (stable_sort_stable Spec.number (fun a b => b <=? a) Z.eqb);
        [assumption|apply Z.eqb_eq]. }
    intros prs' Hsame. rewrite <- Hrun.
    assert (Hn' : Forall (fun x => Spec.has_number x = true) prs').
    { eapply (same_keys_same_shape Spec.number Z.eqb);
        [apply Z.eqb_eq|exact Hsame|exact Hn]. }
    assert (Hne : prs' <> []).
    { apply (same_keys_not_empty Spec.number Z.eqb prs prs');
        [apply Z.eqb_refl|exact Hsame|exact Hprs]. }
    unfold PR.generate_final_report.
    rewrite (sort_release_prs_stable_sort prs' Hn'),
            (sort_release_prs_stable_sort prs Hn).
    rewrite (stable_sort_order_independent Spec.number (fun a b => b <=? a) Z.eqb
               Htotal Htrans (fun a b H1 H2 => z_leb_antisym a b H2 H1)
               Z.eqb_eq prs prs' Hsame).
    destruct prs' as [|p' prs']; [congruence|].
    destruct prs as [|p prs]; [congruence|reflexivity].
Qed.

Lemma final_reports_are_stably_sorted_witness :
  let w := Demo.world [] [] in
  let review_run :=
    Review.generate_final_report w (VList Demo.accumulated_comments)
      (Review.progress_file_name w) "224" "dika-paper" Demo.interrupted_review_run in
  let pr_run :=
    PR.generate_final_report w Demo.accumulated_prs (PR.progress_file_name w)
      "224" Demo.interrupted_pr_run in
  (exists sorted rows,
     for_each Review.csv_row sorted = Ret rows
     /\ files (snd review_run)
          !! "csvs/dika-paper-comments-sprint-224-20250102_090500.csv"
        = Some (CsvFile (Review.headers :: rows))
     /\ files (snd review_run)
          !! String.concat "" ["csvs/"; "dika-paper"; "-comments-full-sprint-";
                               "224"; "-"; strftime_now w 1; ".json"]
        = Some (JsonFile (VList sorted))
     /\ Permutation Demo.accumulated_comments sorted
     /\ StronglySorted Spec.older_first sorted
     /\ (forall k, Spec.created_at_is k sorted
                   = Spec.created_at_is k Demo.accumulated_comments)
     /\ (forall comments',
           (forall k, Spec.created_at_is k comments'
                      = Spec.created_at_is k Demo.accumulated_comments) ->
           Review.generate_final_report w (VList comments')
             (Review.progress_file_name w) "224" "dika-paper"
             Demo.interrupted_review_run
           = (Ret (VStr "csvs/dika-paper-comments-sprint-224-20250102_090500.csv"),
              snd review_run)))
  /\ (exists sorted rows,
        for_each PR.csv_row sorted = Ret rows
        /\ files (snd pr_run) !! "csvs/dika-pr-sprint-224-20250102_090500.csv"
           = Some (CsvFile (PR.headers :: rows))
        /\ Permutation Demo.accumulated_prs sorted
        /\ StronglySorted Spec.higher_number_first sorted
        /\ (forall k, Spec.number_is k sorted = Spec.number_is k Demo.accumulated_prs)
        /\ (forall prs',
              (forall k, Spec.number_is k prs' = Spec.number_is k Demo.accumulated_prs) ->
              PR.generate_final_report w prs' (PR.progress_file_name w) "224"
                Demo.interrupted_pr_run
              = (Ret (VStr "csvs/dika-pr-sprint-224-20250102_090500.csv"),
                 snd pr_run))).
Proof.
  intros w review_run pr_run. split.
  - apply (final_reports_are_stably_sorted w Demo.accumulated_comments []
             (Review.progress_file_name w) "224" "dika-paper" _ ""
             Demo.interrupted_review_run (snd review_run) Demo.no_files Demo.no_files);
      [reflexivity|repeat (constructor; try reflexivity)|vm_compute; reflexivity].
  - apply (final_reports_are_stably_sorted w [] Demo.accumulated_prs
             (PR.progress_file_name w) "224" "dika-paper" "" _
             Demo.no_files Demo.no_files Demo.interrupted_pr_run (snd pr_run));
      [reflexivity|repeat (constructor; try reflexivity)|vm_compute; reflexivity].
Defined.


(** * Further properties of the scripts *)

(** ** Progress files *)


(** ** Batches *)

Lemma batches_sizes (items : list value) (batch_size : Z) (m : nat) :
  0 < batch_size ->
  forall (i : Z) (offsets : list Z),
    0 <= i -> Z.of_nat (List.length items) - i <= Z.of_nat m ->
    range i (Z.of_nat (List.length items)) batch_size = Ret offsets ->
    Forall (fun j => (0 < List.length (slice items j (j + batch_size))
                      <= Z.to_nat batch_size)%nat) offsets.
Proof.
  intros Hpos. set (n := Z.of_nat (List.length items)).
  induction m as [|m IH]; intros i offsets Hi Hm Hrange;
    destruct (Z.le_gt_cases n i) as [Hdone|Hmore]; try lia.
  1,2: rewrite (range_done i n batch_size Hpos Hdone) in Hrange;
    injection Hrange as <-; constructor.
  destruct (range_step i n batch_size Hpos) as [rest [Hrest Hcons]]; [lia|].
  rewrite Hcons in Hrange. injection Hrange as <-.
  constructor.
  - rewrite slice_batch by (subst n; lia).
    rewrite length_firstn, length_skipn. subst n. lia.
  - apply (IH (i + batch_size)); [lia|lia|exact Hrest].
Qed.

(** For a positive batch size the batches [items[i:i+batch_size]] over
    [range(0, len(items), batch_size)] are contiguous and cover the items
    exactly once, in order; every batch holds at least one and at most
    [batch_size] items. *)
Theorem batches_partition_the_items (items : list value) (batch_size : Z)
    (offsets : list Z) :
  0 < batch_size ->
  range 0 (Z.of_nat (List.length items)) batch_size = Ret offsets ->
  concat (map (fun i => slice items i (i + batch_size)) offsets) = items
  /\ Forall (fun i => (0 < List.length (slice items i (i + batch_size))
                       <= Z.to_nat batch_size)%nat) offsets.
Proof.
  intros Hpos Hrange. split.
  - rewrite (batches_cover_the_rest items batch_size Hpos
               (List.length items) 0 offsets); [reflexivity|lia|lia|exact Hrange].
  - apply (batches_sizes items batch_size (List.length items) Hpos 0 offsets);
      [lia|lia|exact Hrange].
Qed.

Lemma batches_partition_the_items_witness :
  concat (map (fun i => slice Demo.three_prs i (i + 2)) [0; 2]) = Demo.three_prs
  /\ Forall (fun i => (0 < List.length (slice Demo.three_prs i (i + 2))
                       <= Z.to_nat 2)%nat) [0; 2].
Proof.
  apply (batches_partition_the_items Demo.three_prs 2 [0; 2]);
    [lia|reflexivity].
Defined.

Lemma range_backwards (start stop step : Z) :
  step < 0 -> start <= stop -> range start stop step = Ret [].
Proof.
  intros Hstep Hle. unfold range.
  destruct (Z.eqb_spec step 0) as [->|_]; [lia|].
  destruct (Z.ltb_spec 0 step) as [|_]; [lia|].
  assert (Hq : (start - stop - step - 1) / - step <= 0).
  { apply Z.le_trans with ((- step - 1) / - step).
    - apply Z.div_le_mono; lia.
    - rewrite Z.div_small; lia. }
  replace (Z.to_nat ((start - stop - step - 1) / - step)) with O by lia.
  reflexivity.
Qed.

(** A batch size that is not positive is not rejected.  From scratch,
    batch size 0 makes both batch processors raise [ValueError] (from
    [range]) before anything is processed or written, and a negative batch
    size makes them process nothing, write no checkpoint and return an
    empty result, whatever the items are. *)
Theorem non_positive_batch_size (w : env) (items : list value)
    (username : string) (batch_size : Z) (fs : filesystem) :
  batch_size <= 0 ->
  files fs !! PR.progress_file_name w = None ->
  files fs !! Review.progress_file_name w = None ->
  PR.process_prs_in_batches w items batch_size fs
  = (if batch_size =? 0 then Raise ValueError
     else Ret ([], PR.progress_file_name w), fs)
  /\ Review.process_prs_for_comments w items username batch_size fs
     = (if batch_size =? 0 then Raise ValueError
        else Ret (VList [], Review.progress_file_name w), fs).
Proof.
  intros Hle Hpr Hreview.
  unfold PR.process_prs_in_batches, Review.process_prs_for_comments,
    load_progress.
  rewrite Hpr, Hreview. simpl.
  destruct (Z.eqb_spec batch_size 0) as [->|Hne].
  - split; reflexivity.
  - rewrite (range_backwards 0 _ batch_size) by lia. split; reflexivity.
Qed.

Lemma non_positive_batch_size_witness :
  PR.process_prs_in_batches (Demo.world [] []) Demo.three_prs (-5) Demo.no_files
  = (Ret ([], PR.progress_file_name (Demo.world [] [])), Demo.no_files)
  /\ Review.process_prs_for_comments (Demo.world [] []) Demo.three_prs
       "dika-paper" (-5) Demo.no_files
     = (Ret (VList [], Review.progress_file_name (Demo.world [] [])), Demo.no_files).
Proof.
  apply (non_positive_batch_size (Demo.world [] []) Demo.three_prs "dika-paper"
           (-5) Demo.no_files); [lia|reflexivity|reflexivity].
Defined.

Lemma range_exists (start stop step : Z) :
  0 < step -> exists offsets, range start stop step = Ret offsets.
Proof.
  intros Hpos. unfold range.
  destruct (Z.eqb_spec step 0); [lia|].
  destruct (0 <? step); eauto.
Qed.

(** From scratch and with any positive batch size, both batch processors
    return what processing the items one after the other gives (the
    records in item order, or the first exception): the batch size only
    decides when checkpoints are written. *)
Theorem results_do_not_depend_on_batch_size (w : env) (items : list value)
    (username : string) (batch_size : Z) (fs : filesystem) :
  0 < batch_size ->
  files fs !! PR.progress_file_name w = None ->
  files fs !! Review.progress_file_name w = None ->
  fst (PR.process_prs_in_batches w items batch_size fs)
  = (let! found := for_extend (PR.process_pr w) items in
     Ret (found, PR.progress_file_name w))
  /\ fst (Review.process_prs_for_comments w items username batch_size fs)
     = (let! found := for_extend (Review.process_pr w username) items in
        Ret (VList found, Review.progress_file_name w)).
Proof.
  intros Hpos Hpr Hreview.
  set (n := Z.of_nat (List.length items)).
  destruct (range_exists 0 n batch_size Hpos) as [offsets Hoff].
  unfold PR.process_prs_in_batches, Review.process_prs_for_comments,
    load_progress.
  rewrite Hpr, Hreview. simpl truthy. cbv iota.
  unfold PR.initial_state, Review.initial_state. simpl truthy. cbv iota.
  fold n. rewrite Hoff.
  pose proof (pr_run_batches_from w items batch_size (PR.progress_file_name w)
                Hpos (Z.to_nat n) 0 offsets [] [] fs) as HP.
  pose proof (review_run_batches_from w items username batch_size
                (Review.progress_file_name w) Hpos (Z.to_nat n) 0 offsets [] [] fs)
    as HR.
  fold n in HP, HR. cbv zeta in HP, HR.
  change (skipn (Z.to_nat 0) items) with items in HP, HR.
  destruct (PR.run_batches w items batch_size (PR.progress_file_name w) offsets _)
    as [r st].
  destruct (Review.run_batches w items username batch_size
              (Review.progress_file_name w) offsets _) as [r' st'].
  simpl fst in *. simpl snd in *.
  split.
  - destruct (for_extend (PR.process_pr w) items) as [R|e].
    + destruct HP as [-> [_ Hall]]; [lia|subst n; lia|exact Hoff|].
      simpl. now rewrite Hall.
    + rewrite HP by (try exact Hoff; subst n; lia). reflexivity.
  - destruct (for_extend (Review.process_pr w username) items) as [R|e].
    + destruct HR as [-> [_ Hall]]; [lia|subst n; lia|exact Hoff|].
      simpl. now rewrite Hall.
    + rewrite HR by (try exact Hoff; subst n; lia). reflexivity.
Qed.

Lemma results_do_not_depend_on_batch_size_witness :
  let w := Demo.world [] [] in
  fst (PR.process_prs_in_batches w Demo.three_prs 2 Demo.no_files)
  = (let! found := for_extend (PR.process_pr w) Demo.three_prs in
     Ret (found, PR.progress_file_name w))
  /\ fst (Review.process_prs_for_comments w Demo.three_prs "dika-paper" 2
            Demo.no_files)
     = (let! found := for_extend (Review.process_pr w "dika-paper") Demo.three_prs in
        Ret (VList found, Review.progress_file_name w)).
Proof.
  intros w.
  apply (results_do_not_depend_on_batch_size w Demo.three_prs "dika-paper" 2
           Demo.no_files); [lia|reflexivity|reflexivity].
Defined.

(** A run of the comment report that is interrupted after any number of
    completed batches leaves a checkpoint from which a later run over the
    same items, with any positive batch size, returns what a run from
    scratch returns. *)
Theorem interrupted_comment_run_resumes_to_fresh_result
    (w : env) (items : list value) (username : string)
    (batch_size resumed_batch_size : Z) (m : nat) (offsets : list Z)
    (fs : filesystem) :
  0 < batch_size ->
  0 < resumed_batch_size ->
  files fs !! Review.progress_file_name w = None ->
  range 0 (Z.of_nat (List.length items)) batch_size = Ret offsets ->
  (0 < m <= List.length offsets)%nat ->
  let interrupted :=
    Review.run_batches w items username batch_size (Review.progress_file_name w)
      (firstn m offsets)
      {| Review.processed_prs := VList []; Review.all_comments := VList [];
         Review.disk := fs |} in
  fst interrupted = Ret tt ->
  fst (Review.process_prs_for_comments w items username resumed_batch_size
         (Review.disk (snd interrupted)))
  = fst (Review.process_prs_for_comments w items username resumed_batch_size fs).
Proof.
  intros Hpos Hpos' Hnone Hrange Hm interrupted Hrun.
  pose proof (review_after_batches w items username batch_size
                (Review.progress_file_name w) Hpos m 0 offsets [] fs) as H.
  cbv zeta in H. change (firstn (Z.to_nat 0) items) with (@nil value) in H.
  fold interrupted in H.
  destruct H as [_ [C' [_ [HC Hfile]]]]; [lia|exact Hrange|lia|exact Hrun|].
  destruct Hfile as [d [Hf [Hp [_ Hc]]]]; [lia|].
  set (c := Z.min (0 + Z.of_nat m * batch_size) (Z.of_nat (List.length items))) in *.
  apply (review_resume_matches_fresh_run w items username resumed_batch_size
           (Z.to_nat c) (VDict d) _ fs Hpos'); [|exact Hf|exact Hnone].
  split; [subst c; lia|].
  exists d, C'. split; [reflexivity|]. split; [exact Hp|]. split; [exact Hc|].
  apply HC. reflexivity.
Qed.

Lemma interrupted_comment_run_resumes_to_fresh_result_witness :
  let w := Demo.world [] [] in
  let interrupted :=
    Review.run_batches w Demo.three_prs "dika-paper" 2 (Review.progress_file_name w)
      (firstn 1 [0; 2])
      {| Review.processed_prs := VList []; Review.all_comments := VList [];
         Review.disk := Demo.no_files |} in
  fst (Review.process_prs_for_comments w Demo.three_prs "dika-paper" 1
         (Review.disk (snd interrupted)))
  = fst (Review.process_prs_for_comments w Demo.three_prs "dika-paper" 1
           Demo.no_files).
Proof.
  intros w interrupted.
  apply (interrupted_comment_run_resumes_to_fresh_result w Demo.three_prs
           "dika-paper" 2 1 1 [0; 2] Demo.no_files);
    [lia|lia|reflexivity|reflexivity|simpl; lia|vm_compute; reflexivity].
Defined.

Lemma pr_report_results_witness :
  let w := Demo.world [] [] in
  fst (PR.process_prs_in_batches w Demo.two_release_prs 1 Demo.interrupted_pr_run)
  = (let! found := for_extend (PR.process_pr w) (skipn 1 Demo.two_release_prs) in
     Ret (found, PR.progress_file_name w))
  /\ fst (PR.process_prs_in_batches w Demo.two_release_prs 1 Demo.no_files)
     = (let! found := for_extend (PR.process_pr w) Demo.two_release_prs in
        Ret (found, PR.progress_file_name w)).
Proof.
  intros w.
  eapply (pr_report_results w Demo.two_release_prs 1 1 _
            Demo.interrupted_pr_run Demo.no_files);
    [lia|simpl; lia|vm_compute; reflexivity|reflexivity|reflexivity].
Defined.

(** ** Paginators *)

(** A page whose body is truthy but not a dict (a JSON list, string or
    number) does not end the search crawl silently: the loop breaks at its
    [isinstance] test, and the [return] statement then calls [.get] on that
    body and raises [AttributeError], so the items of the earlier pages are
    lost to the caller. *)
Theorem non_mapping_page_raises (w : env) (query : string) (pages : list value)
    (fuel : nat) (body : value) :
  has_token w = true ->
  Spec.serves w query 1 pages ->
  forallb Spec.well_formed_page pages = true ->
  Spec.terminates 0 pages = false ->
  net w (SearchUrl query per_page (Z.of_nat (List.length pages) + 1)) = Body body ->
  truthy body = true ->
  is_dict body = false ->
  (List.length pages < fuel)%nat ->
  Review.get_filtered_prs w query fuel = Some (Raise AttributeError)
  /\ PR.get_all_prs_fast w query fuel = Some (Raise AttributeError).
Proof.
  intros Ht Hs Hwf Hterm Hnet Htruthy Hdict Hfuel.
  assert (H : search_paginate w query fuel = Some (Raise AttributeError)).
  { unfold search_paginate.
    replace fuel with (List.length pages + S (fuel - List.length pages - 1))%nat
      by lia.
    rewrite (search_loop_continues w query pages Ht Hwf _ 1 [] Hs Hterm).
    replace (1 + Z.of_nat (List.length pages))
      with (Z.of_nat (List.length pages) + 1) by lia.
    simpl search_loop. unfold github_request. rewrite Ht, Hnet. simpl negb.
    cbv iota. rewrite Htruthy. simpl negb. cbv iota.
    unfold search_result. rewrite Htruthy.
    destruct body; try discriminate Hdict; reflexivity. }
  split; exact H.
Qed.

Lemma non_mapping_page_raises_witness :
  let w := Demo.world
             [Demo.search_page (repeat (Demo.pr 1 "alice" "pulls/1") 100) 250;
              Body (VList [VStr "rate limit"])] [] in
  Review.get_filtered_prs w "is:pr" 2 = Some (Raise AttributeError)
  /\ PR.get_all_prs_fast w "is:pr" 2 = Some (Raise AttributeError).
Proof.
  intros w.
  apply (non_mapping_page_raises w "is:pr"
           [Demo.page_value (repeat (Demo.pr 1 "alice" "pulls/1") 100) 250] 2
           (VList [VStr "rate limit"])).
  - reflexivity.
  - intros [|[|j]] v Hj; simpl in Hj; try discriminate Hj;
      injection Hj as <-; reflexivity.
  - vm_compute. reflexivity.
  - vm_compute. reflexivity.
  - reflexivity.
  - reflexivity.
  - reflexivity.
  - simpl. lia.
Defined.

Lemma commits_loop_continues (w : env)
    (org repo user since_date until_date : string) (pages : list (list value)) :
  has_token w = true ->
  forall (fuel : nat) (start : Z) (acc : list value),
    Spec.serves_commits w org repo user since_date until_date start pages ->
    existsb Spec.short_page pages = false ->
    Commit.commits_loop w org repo user since_date until_date
      (List.length pages + fuel) start acc
    = Commit.commits_loop w org repo user since_date until_date fuel
        (start + Z.of_nat (List.length pages)) (acc ++ concat pages).
Proof.
  intros Ht. induction pages as [|cs pages IH]; intros fuel start acc Hs Hfull.
  - simpl. now rewrite app_nil_r, Z.add_0_r.
  - apply serves_commits_tail in Hs as [Hn Hs].
    simpl in Hfull. apply orb_false_elim in Hfull as [Hcs Hfull].
    change (List.length (cs :: pages) + fuel)%nat
      with (S (List.length pages + fuel)).
    simpl Commit.commits_loop. rewrite (request_served w _ _ Ht Hn).
    unfold Spec.short_page in Hcs.
    destruct cs as [|c cs']; [discriminate Hcs|].
    set (cs := c :: cs') in *. simpl truthy. simpl negb. cbv iota.
    rewrite Hcs, (IH fuel (start + 1) (acc ++ cs) Hs Hfull).
    simpl concat. rewrite <- app_assoc. f_equal. simpl List.length. lia.
Qed.

(** A failing request ends the commit crawl like the end of the list
    does: after full pages, an HTTP error, any other fault or a body that
    is not a list makes [get_all_commits_fast] return the commits of the
    earlier pages, with their number as the total, and no exception; the
    caller cannot tell the truncation from a complete crawl. *)
Theorem failed_commit_page_truncates_silently
    (w : env) (org repo user since_date until_date : string)
    (pages : list (list value)) (fuel : nat) :
  has_token w = true ->
  Spec.serves_commits w org repo user since_date until_date 1 pages ->
  existsb Spec.short_page pages = false ->
  Spec.not_a_list
    (net w (CommitsUrl org repo user since_date until_date per_page
              (Z.of_nat (List.length pages) + 1))) = true ->
  (List.length pages < fuel)%nat ->
  Commit.get_all_commits_fast w org repo user since_date until_date fuel
  = Some (Ret (concat pages, Z.of_nat (List.length (concat pages)))).
Proof.
  intros Ht Hs Hfull Hfail Hfuel. unfold Commit.get_all_commits_fast.
  replace fuel with (List.length pages + S (fuel - List.length pages - 1))%nat
    by lia.
  rewrite (commits_loop_continues w org repo user since_date until_date pages
             Ht _ 1 [] Hs Hfull).
  replace (1 + Z.of_nat (List.length pages))
    with (Z.of_nat (List.length pages) + 1) by lia.
  simpl Commit.commits_loop. unfold github_request. rewrite Ht. simpl negb.
  cbv iota. unfold Spec.not_a_list in Hfail.
  destruct (net w _) as [body| | |]; try discriminate Hfail; try reflexivity.
  destruct (truthy body) eqn:Htruthy; simpl; [|reflexivity].
  destruct body; try discriminate Hfail; reflexivity.
Qed.

Lemma failed_commit_page_truncates_silently_witness :
  let pages := [repeat (Demo.commit "1f0c3e9a7b" "Add the sprint report" "Dika"
                          "commits/1") 100] in
  Commit.get_all_commits_fast
    (Demo.world [] (map (fun cs => Body (VList cs)) pages))
    "o" "r" "u" "2025-01-01" "2025-01-14" 2
  = Some (Ret (concat pages, Z.of_nat (List.length (concat pages)))).
Proof.
  intros pages.
  apply (failed_commit_page_truncates_silently
           (Demo.world [] (map (fun cs => Body (VList cs)) pages))
           "o" "r" "u" "2025-01-01" "2025-01-14" pages 2).
  - reflexivity.
  - intros [|[|j]] v Hj; simpl in Hj; try discriminate Hj;
      injection Hj as <-; reflexivity.
  - vm_compute. reflexivity.
  - reflexivity.
  - simpl. lia.
Defined.

(** ** Item requests that fail *)

Lemma filter_comment_by_login (username : string) (c : value) :
  Spec.has_login c = true ->
  Review.filter_comment username c
  = if Spec.written_by username c
    then let! r := Review.user_comment c in Ret [r]
    else Ret [].
Proof.
  unfold Spec.has_login, Spec.written_by, Spec.author_login. intros H.
  destruct c as [| | | | |d]; try discriminate H.
  unfold Review.filter_comment. simpl.
  destruct (assoc "user" d) as [[| | | | |u]|]; try discriminate H. simpl.
  destruct (assoc "login" u) as [[| | |a| |]|]; try discriminate H. simpl.
  reflexivity.
Qed.

(** [get_pr_comments] keeps exactly the comments whose author login
    equals the username up to case, in the order of the response, one
    five-field record each, whatever else the comments hold. *)
Theorem user_comments_are_the_matching_ones (w : env) (pr_number : value)
    (username : string) (comments : list value) :
  has_token w = true ->
  net w (CommentsUrl (ORGANIZATION w) (REPOSITORY w) pr_number)
    = Body (VList comments) ->
  forallb Spec.has_login comments = true ->
  exists found,
    Review.get_pr_comments w pr_number username = Ret found /\
    Forall2 (fun c r => Review.user_comment c = Ret r)
      (List.filter (Spec.written_by username) comments) found.
Proof.
  intros Ht Hnet Hlogins. unfold Review.get_pr_comments, github_request.
  rewrite Ht, Hnet. simpl bind.
  assert (H : exists found,
            for_extend (Review.filter_comment username) comments = Ret found /\
            Forall2 (fun c r => Review.user_comment c = Ret r)
              (List.filter (Spec.written_by username) comments) found).
  { clear Hnet. induction comments as [|c cs IH]; simpl.
    - exists []. split; [reflexivity|constructor].
    - simpl in Hlogins. apply andb_prop in Hlogins as [Hc Hcs].
      destruct (IH Hcs) as [rest [Hrest Hall]].
      rewrite (filter_comment_by_login username c Hc), Hrest.
      destruct (Spec.written_by username c).
      + assert (Hrec : exists r, Review.user_comment c = Ret r).
        { destruct c; try discriminate Hc. unfold Review.user_comment.
          simpl. eauto. }
        destruct Hrec as [r Hr]. rewrite Hr. simpl.
        exists (r :: rest). split; [reflexivity|now constructor].
      + simpl. exists rest. split; [reflexivity|exact Hall]. }
  destruct H as [found [Hfound Hall]].
  destruct comments as [|c cs].
  - simpl. exists []. split; [reflexivity|constructor].
  - exists found. split; [|exact Hall]. simpl truthy. simpl negb. simpl orb.
    cbv iota. exact Hfound.
Qed.

Lemma user_comments_are_the_matching_ones_witness :
  exists found,
    Review.get_pr_comments (Demo.world [] []) (VInt 1) "dika-paper" = Ret found /\
    Forall2 (fun c r => Review.user_comment c = Ret r)
      (List.filter (Spec.written_by "dika-paper")
         [Demo.comment "Dika-Paper" "Looks good" "2025-01-03T10:00:00Z";
          Demo.comment "someone-else" "Thanks" "2025-01-03T11:00:00Z"]) found.
Proof.
  apply (user_comments_are_the_matching_ones (Demo.world [] []) (VInt 1)
           "dika-paper"); reflexivity.
Defined.

(** When the comments request fails (HTTP error or any other fault) or
    its body is not a list, [get_pr_comments] returns no comments and
    raises nothing: the PR is taken to have no comments of the user. *)
Theorem failed_comments_request_gives_no_comments (w : env) (pr_number : value)
    (username : string) :
  has_token w = true ->
  Spec.not_a_list (net w (CommentsUrl (ORGANIZATION w) (REPOSITORY w) pr_number))
    = true ->
  Review.get_pr_comments w pr_number username = Ret [].
Proof.
  intros Ht Hfail. unfold Review.get_pr_comments, github_request.
  rewrite Ht. simpl negb. cbv iota. unfold Spec.not_a_list in Hfail.
  destruct (net w _) as [body| | |]; try discriminate Hfail; try reflexivity.
  simpl bind. destruct body; try discriminate Hfail; simpl;
    try rewrite orb_true_r; reflexivity.
Qed.

Lemma failed_comments_request_gives_no_comments_witness :
  Review.get_pr_comments
    {| GITHUB_TOKEN := Some "ghp_token"; ORGANIZATION := "paper-indonesia";
       REPOSITORY := "paperangularapp"; USERNAME := "dika-paper";
       sprint_config := ∅;
       net := fun _ => HTTPError 403 "rate limit exceeded";
       strftime_now := fun _ => "20250102_090000";
       isoformat_now := fun _ => "2025-01-02T09:00:01" |}
    (VInt 1) "dika-paper" = Ret [].
Proof.
  apply failed_comments_request_gives_no_comments; reflexivity.
Defined.

(** A PR whose detail request gives no detail (an HTTP error such as 404,
    any other fault, or a body that is falsy or not a dict) is skipped by
    both filter pipelines, without an exception and without a record. *)
Theorem failed_detail_request_skips_the_pr (w : env) (username : string)
    (pr url : value) :
  has_token w = true ->
  Spec.detail_url pr = Some url ->
  truthy url = true ->
  Spec.no_detail (net w (DataUrl url)) = true ->
  (Spec.has_string_title pr = true -> PR.process_pr w pr = Ret [])
  /\ (Spec.has_login pr = true -> Review.process_pr w username pr = Ret []).
Proof.
  intros Ht Hurl Htruthy Hfail.
  destruct pr as [| | | | |d]; try discriminate Hurl. simpl in Hurl.
  destruct (assoc "pull_request" d) as [[| | | | |link]|] eqn:Hlink;
    try discriminate Hurl.
  assert (Hreq : exists details,
            github_request w (DataUrl url) = Ret details /\
            negb (truthy details) || negb (is_dict details) = true).
  { unfold github_request. rewrite Ht. simpl negb. cbv iota.
    unfold Spec.no_detail in Hfail.
    destruct (net w _) as [body| | |]; try discriminate Hfail;
      try (exists VNone; split; reflexivity).
    exists body. split; [reflexivity|].
    destruct body as [| | | | |[|p dd]]; try discriminate Hfail;
      simpl; try rewrite orb_true_r; reflexivity. }
  destruct Hreq as [details [Hreq Hbad]].
  split.
  - intros Htitle. simpl in Htitle.
    destruct (assoc "title" d) as [[| | |t| |]|] eqn:Ht'; try discriminate Htitle.
    unfold PR.process_pr. simpl. rewrite Ht', Hlink. simpl. rewrite Hurl.
    simpl bind. rewrite Htruthy. simpl negb. cbv iota.
    rewrite Hreq. simpl bind. now rewrite Hbad.
  - intros Hlogin. unfold Spec.has_login, Spec.author_login in Hlogin.
    unfold Review.process_pr. simpl.
    destruct (assoc "user" d) as [[| | | | |u]|]; try discriminate Hlogin.
    simpl. destruct (assoc "login" u) as [[| | |a| |]|]; try discriminate Hlogin.
    simpl. destruct (String.eqb (lower a) (lower username)); [reflexivity|].
    rewrite Hlink. simpl. rewrite Hurl. simpl bind. rewrite Htruthy.
    simpl negb. cbv iota. rewrite Hreq. simpl bind. now rewrite Hbad.
Qed.

Lemma failed_detail_request_skips_the_pr_witness :
  PR.process_pr (Demo.world [] []) (Demo.pr 1 "alice" "pulls/404") = Ret []
  /\ Review.process_pr (Demo.world [] []) "dika-paper"
       (Demo.pr 1 "alice" "pulls/404") = Ret [].
Proof.
  destruct (failed_detail_request_skips_the_pr (Demo.world [] []) "dika-paper"
              (Demo.pr 1 "alice" "pulls/404") (VStr "pulls/404"))
    as [Hpr Hreview]; try reflexivity.
  split; [apply Hpr|apply Hreview]; reflexivity.
Defined.

(** ** What the filter pipelines let through *)

Ltac step_through H :=
  match type of H with
  | bind ?m _ = Ret _ =>
      let E := fresh "E" in
      destruct m eqn:E; [cbn [bind] in H | discriminate H]
  | (if ?c then _ else _) = Ret _ =>
      let E := fresh "E" in destruct c eqn:E
  | match ?v with _ => _ end = Ret _ =>
      let E := fresh "E" in destruct v eqn:E
  end.

Lemma for_each_results {A B : Type} (f : A -> outcome B) (xs : list A)
    (rs : list B) :
  for_each f xs = Ret rs -> Forall (fun r => exists x, f x = Ret r) rs.
Proof.
  revert rs. induction xs as [|x xs IH]; intros rs H; simpl in H.
  - injection H as <-. constructor.
  - destruct (f x) as [r|] eqn:Hx; [|discriminate H]. simpl in H.
    destruct (for_each f xs) as [rest|]; [|discriminate H]. simpl in H.
    injection H as <-. constructor; [eauto|now apply IH].
Qed.

Lemma for_extend_results {A B : Type} (f : A -> outcome (list B)) (P : B -> Prop)
    (xs : list A) (rs : list B) :
  (forall x l, f x = Ret l -> Forall P l) ->
  for_extend f xs = Ret rs -> Forall P rs.
Proof.
  intros Hf. revert rs. induction xs as [|x xs IH]; intros rs H; simpl in H.
  - injection H as <-. constructor.
  - destruct (f x) as [l|] eqn:Hx; [|discriminate H]. simpl in H.
    destruct (for_extend f xs) as [rest|]; [|discriminate H]. simpl in H.
    injection H as <-. apply List.Forall_app.
    split; [exact (Hf x l Hx)|now apply IH].
Qed.

Lemma pr_process_pr_sound (w : env) (pr : value) (l : list value) :
  PR.process_pr w pr = Ret l ->
  (List.length l <= 1)%nat /\
  Forall (fun info =>
            exists b, item info "target_branch" = Ret (VStr b) /\
                      startswith b "release/" = true /\
                      item info "number" = get pr "number" (VInt 0)) l.
Proof.
  unfold PR.process_pr. intros H.
  repeat step_through H; injection H as <-; (split; [simpl; lia|]);
    try (constructor; fail).
  constructor; [|constructor].
  unfold PR.pr_info in *.
  repeat match goal with
         | E : bind ?m _ = Ret _ |- _ =>
             let E' := fresh "E" in
             destruct m eqn:E'; [cbn [bind] in E | discriminate E]
         end.
  match goal with E : Ret _ = Ret _ |- _ => injection E as <- end.
  match goal with
  | E : negb (is_str ?b) || negb (PR.targets_release_branch ?b) = false |- _ =>
      destruct b as [| | |s| |]; try discriminate E;
      exists s; simpl in E; apply negb_false_iff in E
  end.
  split; [reflexivity|]. split; [assumption|].
  simpl. congruence.
Qed.

(** The PR report's pipeline never lets through a PR that does not target
    a release branch: every record it yields carries a "target_branch"
    that starts with "release/" and the number of the PR it came from, and
    an item yields at most one record, so there are never more records
    than items. *)
Theorem reported_prs_target_release_branches (w : env) (items found : list value) :
  for_extend (PR.process_pr w) items = Ret found ->
  Forall (fun info => exists b, item info "target_branch" = Ret (VStr b) /\
                                startswith b "release/" = true) found
  /\ (List.length found <= List.length items)%nat.
Proof.
  intros H. split.
  - eapply for_extend_results; [|exact H].
    intros pr l Hl. destruct (pr_process_pr_sound w pr l Hl) as [_ Hall].
    eapply List.Forall_impl; [|exact Hall].
    intros info [b [Hb [Hrel _]]]. eauto.
  - revert found H. induction items as [|pr items IH]; intros found H; simpl in H.
    + injection H as <-. simpl. lia.
    + destruct (PR.process_pr w pr) as [l|] eqn:Hl; [|discriminate H].
      simpl in H.
      destruct (for_extend (PR.process_pr w) items) as [rest|];
        [|discriminate H].
      simpl in H. injection H as <-.
      destruct (pr_process_pr_sound w pr l Hl) as [Hlen _].
      specialize (IH rest eq_refl). rewrite length_app. simpl. lia.
Qed.

Lemma reported_prs_target_release_branches_witness :
  exists found,
    for_extend (PR.process_pr (Demo.world [] [])) Demo.three_prs = Ret found /\
    Forall (fun info => exists b, item info "target_branch" = Ret (VStr b) /\
                                  startswith b "release/" = true) found /\
    (List.length found <= List.length Demo.three_prs)%nat.
Proof.
  eexists. split; [vm_compute; reflexivity|].
  apply (reported_prs_target_release_branches (Demo.world [] []) Demo.three_prs).
  vm_compute. reflexivity.
Defined.

Lemma comment_info_fields (pr pr_number pr_title pr_author : value)
    (base_branch : string) (comment r : value) :
  Review.comment_info pr pr_number pr_title pr_author base_branch comment = Ret r ->
  item r "target_branch" = Ret (VStr base_branch) /\
  item r "pr_author" = Ret pr_author /\
  item r "pr_number" = Ret pr_number.
Proof.
  unfold Review.comment_info. intros H.
  repeat step_through H. injection H as <-. repeat split.
Qed.

Lemma review_process_pr_sound (w : env) (username : string) (pr : value)
    (l : list value) :
  Review.process_pr w username pr = Ret l ->
  Forall (fun r =>
            exists b a,
              item r "target_branch" = Ret (VStr b) /\
              Review.targets_wanted_branch b = true /\
              item r "pr_author" = Ret (VStr a) /\
              String.eqb (lower a) (lower username) = false /\
              item r "pr_number" = get pr "number" (VInt 0)) l.
Proof.
  unfold Review.process_pr. intros H.
  repeat step_through H; try (injection H as <-; constructor).
  apply for_each_results in H.
  eapply List.Forall_impl; [|exact H].
  intros r [c Hc]. apply comment_info_fields in Hc as [Hb [Ha Hn]].
  match goal with
  | E : lower_of ?v = Ret _ |- _ =>
      destruct v as [| | |login| |]; try discriminate E;
      simpl in E; injection E as <-
  end.
  eexists _, login. split; [exact Hb|].
  split; [now apply negb_false_iff|].
  split; [exact Ha|]. split; [assumption|]. congruence.
Qed.

(** Every record the comment report's pipeline yields is about a PR that
    targets "staging" or a "release/" branch and whose author is not the
    user (up to case); together with [get_pr_comments] keeping only the
    user's comments, the report holds the user's comments on other
    people's PRs only. *)
Theorem comment_records_are_on_other_peoples_prs (w : env) (username : string)
    (items found : list value) :
  for_extend (Review.process_pr w username) items = Ret found ->
  Forall (fun r =>
            exists b a,
              item r "target_branch" = Ret (VStr b) /\
              (b = "staging" \/ startswith b "release/" = true) /\
              item r "pr_author" = Ret (VStr a) /\
              lower a <> lower username) found.
Proof.
  intros H. eapply for_extend_results; [|exact H].
  intros pr l Hl. pose proof (review_process_pr_sound w username pr l Hl) as Hall.
  eapply List.Forall_impl; [|exact Hall].
  intros r [b [a [Hb [Hwanted [Ha [Hne _]]]]]].
  exists b, a. split; [exact Hb|]. split.
  - rewrite review_branch_test in Hwanted.
    apply orb_true_iff in Hwanted as [Hs|Hr]; [left|right; exact Hr].
    now apply String.eqb_eq.
  - split; [exact Ha|]. now apply String.eqb_neq.
Qed.

Lemma comment_records_are_on_other_peoples_prs_witness :
  exists found,
    for_extend (Review.process_pr (Demo.world [] []) "dika-paper") Demo.three_prs
      = Ret found /\
    Forall (fun r =>
              exists b a,
                item r "target_branch" = Ret (VStr b) /\
                (b = "staging" \/ startswith b "release/" = true) /\
                item r "pr_author" = Ret (VStr a) /\
                lower a <> lower "dika-paper") found.
Proof.
  eexists. split; [vm_compute; reflexivity|].
  apply (comment_records_are_on_other_peoples_prs (Demo.world [] []) "dika-paper"
           Demo.three_prs).
  vm_compute. reflexivity.
Defined.

(** ** The report files *)

Lemma for_each_length {A B : Type} (f : A -> outcome B) (xs : list A)
    (rs : list B) :
  for_each f xs = Ret rs -> List.length rs = List.length xs.
Proof.
  revert rs. induction xs as [|x xs IH]; intros rs H; simpl in H.
  - now injection H as <-.
  - destruct (f x); [|discriminate H]. simpl in H.
    destruct (for_each f xs) as [rest|]; [|discriminate H]. simpl in H.
    injection H as <-. simpl. now rewrite (IH rest).
Qed.

(** Whenever a row of one of the three reports can be built it has one
    cell per column of that report's header (11 for the PR report, 10 for
    the comment report, 14 for the commit list). *)
Theorem csv_rows_match_the_header (sprint_name : string)
    (pr comment commit : value) (pr_cells comment_cells commit_cells : list value) :
  PR.csv_row pr = Ret pr_cells ->
  Review.csv_row comment = Ret comment_cells ->
  Commit.csv_row sprint_name commit = Ret commit_cells ->
  List.length pr_cells = List.length PR.headers
  /\ List.length comment_cells = List.length Review.headers
  /\ List.length commit_cells = List.length Commit.headers.
Proof.
  intros Hpr Hcomment Hcommit. split; [|split].
  - unfold PR.csv_row in Hpr. repeat step_through Hpr; now injection Hpr as <-.
  - unfold Review.csv_row in Hcomment. now apply for_each_length in Hcomment.
  - unfold Commit.csv_row in Hcommit. repeat step_through Hcommit.
    now injection Hcommit as <-.
Qed.

Lemma csv_rows_match_the_header_witness :
  let cells {A} (o : outcome (list A)) :=
    match o with Ret l => l | Raise _ => [] end in
  List.length (cells (PR.csv_row (Demo.pr_record 3 "first")))
  = List.length PR.headers
  /\ List.length (cells (Review.csv_row (Demo.comment_record 4 "2025-01-03T10:00:00Z")))
     = List.length Review.headers
  /\ List.length
       (cells (Commit.csv_row "224"
                 (Demo.commit_entry "9d8e7f6a5b" "2025-01-05T09:00:00Z")))
     = List.length Commit.headers.
Proof.
  intros cells.
  apply (csv_rows_match_the_header "224" (Demo.pr_record 3 "first")
           (Demo.comment_record 4 "2025-01-03T10:00:00Z")
           (Demo.commit_entry "9d8e7f6a5b" "2025-01-05T09:00:00Z"));
    vm_compute; reflexivity.
Defined.

(** pr.py never creates the directory [csvs]: when it does not exist, a
    non-empty PR report fails with [FileNotFoundError] after the sort,
    writes nothing and leaves the checkpoint where it is.  review.py
    creates the directory before it opens its files: after its report,
    however that ends, the directory exists. *)
Theorem pr_report_needs_the_csvs_directory (w : env)
    (release_prs comments : list value)
    (progress_file sprint_name username : string) (fs : filesystem) :
  csvs_dir fs = false ->
  release_prs <> [] ->
  comments <> [] ->
  Forall (fun x => Spec.has_number x = true) release_prs ->
  Forall (fun x => Spec.has_created_at x = true) comments ->
  PR.generate_final_report w release_prs progress_file sprint_name fs
  = (Raise FileNotFoundError, fs)
  /\ csvs_dir (snd (Review.generate_final_report w (VList comments) progress_file
                      sprint_name username fs)) = true.
Proof.
  intros Hdir Hprs Hcs Hnum Hcreated.
  split.
  - unfold PR.generate_final_report.
    destruct release_prs as [|r rs]; [congruence|].
    rewrite (sort_release_prs_stable_sort _ Hnum), Hdir. reflexivity.
  - unfold Review.generate_final_report.
    destruct comments as [|c cs]; [congruence|].
    simpl truthy. simpl negb. cbv iota.
    rewrite (sort_comments_stable_sort _ Hcreated).
    destruct (write_rows Review.csv_row _ _) as [[[]|e] rows]; [|reflexivity].
    destruct (Review.count_unique_prs _) as [[]|e]; [|reflexivity].
    match goal with
    | |- context [if ?c then _ else _] => destruct c
    end; reflexivity.
Qed.

Lemma pr_report_needs_the_csvs_directory_witness :
  let fs := {| files := ∅; csvs_dir := false |} in
  PR.generate_final_report (Demo.world [] []) Demo.accumulated_prs
    "progress.json" "224" fs
  = (Raise FileNotFoundError, fs)
  /\ csvs_dir (snd (Review.generate_final_report (Demo.world [] [])
                      (VList Demo.accumulated_comments) "progress.json" "224"
                      "dika-paper" fs)) = true.
Proof.
  intros fs.
  apply (pr_report_needs_the_csvs_directory (Demo.world [] [])
           Demo.accumulated_prs Demo.accumulated_comments "progress.json" "224"
           "dika-paper" fs);
    try reflexivity; try discriminate; repeat (constructor; try reflexivity).
Defined.

(** When [generate_final_report] returns a file name, the progress file
    it was given no longer exists.  This holds for each script on its own,
    whatever files it starts from: the comment report also where there is
    no directory [csvs] yet, which it creates. *)
Theorem written_report_removes_the_checkpoint (w : env)
    (release_prs : list value) (all_comments : value)
    (progress_file sprint_name username pr_csv comments_csv : string)
    (fs pr_fs fs0 review_fs : filesystem) :
  (PR.generate_final_report w release_prs progress_file sprint_name fs
     = (Ret (VStr pr_csv), pr_fs) ->
   exists_file progress_file pr_fs = false)
  /\ (Review.generate_final_report w all_comments progress_file sprint_name
        username fs0 = (Ret (VStr comments_csv), review_fs) ->
      exists_file progress_file review_fs = false).
Proof.
  split.
  - intros Hpr. eapply report_removes_checkpoint_pr, Hpr.
  - intros Hreview.
    destruct (review_report_dump_in_sorted_order _ _ _ _ _ _ _ _ Hreview)
      as [sorted [_ [Hgone _]]].
    exact Hgone.
Qed.

Lemma written_report_removes_the_checkpoint_witness :
  let w := Demo.world [] [] in
  let fs := write_file "progress.json" (JsonFile (VDict [])) Demo.no_files in
  let no_directory :=
    {| files := {[ "progress.json" := JsonFile (VDict []) ]}; csvs_dir := false |} in
  exists_file "progress.json"
    (snd (PR.generate_final_report w Demo.accumulated_prs "progress.json" "224" fs))
  = false
  /\ exists_file "progress.json"
       (snd (Review.generate_final_report w (VList Demo.accumulated_comments)
               "progress.json" "224" "dika-paper" no_directory))
     = false.
Proof.
  intros w fs no_directory. split.
  - eapply (proj1 (written_report_removes_the_checkpoint w Demo.accumulated_prs
                     VNone "progress.json" "224" "dika-paper" _ "" fs _
                     Demo.no_files Demo.no_files)).
    vm_compute. reflexivity.
  - eapply (proj2 (written_report_removes_the_checkpoint w []
                     (VList Demo.accumulated_comments) "progress.json" "224"
                     "dika-paper" "" _ Demo.no_files Demo.no_files
                     no_directory _)).
    vm_compute. reflexivity.
Defined.

Lemma author_date_key (l : list value) :
  Forall (fun x => Spec.has_author_date x = true) l ->
  Forall (fun x => item x "author_date" = Ret (VStr (Spec.author_date x))) l.
Proof.
  apply List.Forall_impl. intros x. unfold Spec.has_author_date, Spec.author_date.
  destruct (item x "author_date") as [[| | |s| |]|]; intros H;
    try discriminate H; reflexivity.
Qed.

(** When [generate_commit_list_report] returns a file name, that CSV file
    holds the header and then one row per commit of the list, ordered by
    "author_date" ascending with commits of equal date in their listing
    order; no other file is created, changed or removed. *)
Theorem commit_list_is_written_in_author_date_order (w : env)
    (commit_list : list value) (sprint_name user filename : string)
    (fs fs' : filesystem) :
  Forall (fun x => Spec.has_author_date x = true) commit_list ->
  Commit.generate_commit_list_report w commit_list sprint_name user fs
    = (Ret (VStr filename), fs') ->
  exists sorted rows,
    Permutation commit_list sorted
    /\ StronglySorted
         (fun x y => String.leb (Spec.author_date x) (Spec.author_date y) = true)
         sorted
    /\ (forall k, Spec.author_date_is k sorted = Spec.author_date_is k commit_list)
    /\ for_each (Commit.csv_row sprint_name) sorted = Ret rows
    /\ files fs' !! filename = Some (CsvFile (Commit.headers :: rows))
    /\ (forall other, other <> filename -> files fs' !! other = files fs !! other).
Proof.
  intros Hdates H. unfold Commit.generate_commit_list_report in H.
  destruct commit_list as [|c cs]; [discriminate H|].
  unfold Commit.sort_commits in H.
  rewrite (sort_by_strings _ Spec.author_date false (c :: cs)
             (author_date_key _ Hdates)) in H.
  set (sorted := stable_sort _ (c :: cs)) in *.
  destruct (write_rows (Commit.csv_row sprint_name) sorted [Commit.headers])
    as [[[]|] rows'] eqn:Hw; [|discriminate H].
  destruct (write_rows_all _ _ _ _ Hw) as [rows [Hrows ->]].
  destruct (Commit.sum_files_changed sorted) as [[]|]; [|discriminate H].
  injection H as Hname <-. rewrite Hname.
  exists sorted, rows.
  split; [apply stable_sort_permutation|].
  split.
  { apply (stable_sort_sorted Spec.author_date String.leb);
      [apply String.leb_total|apply string_leb_trans]. }
  split.
  { intros k. unfold Spec.author_date_is.
    apply (stable_sort_stable Spec.author_date String.leb String.eqb);
      [apply String.leb_total|apply String.eqb_eq]. }
  split; [exact Hrows|].
  split; [apply lookup_insert_eq|].
  intros other Hother. simpl. now apply lookup_insert_ne.
Qed.

Lemma commit_list_is_written_in_author_date_order_witness :
  let w := Demo.world [] [] in
  let run := Commit.generate_commit_list_report w Demo.listed_commits "224"
               "dika-paper" Demo.no_files in
  exists sorted rows,
    Permutation Demo.listed_commits sorted
    /\ StronglySorted
         (fun x y => String.leb (Spec.author_date x) (Spec.author_date y) = true)
         sorted
    /\ (forall k, Spec.author_date_is k sorted
                  = Spec.author_date_is k Demo.listed_commits)
    /\ for_each (Commit.csv_row "224") sorted = Ret rows
    /\ files (snd run) !! "csvs/dika-paper-commit-list-sprint-224-20250102_090500.csv"
       = Some (CsvFile (Commit.headers :: rows))
    /\ (forall other,
          other <> "csvs/dika-paper-commit-list-sprint-224-20250102_090500.csv" ->
          files (snd run) !! other = files Demo.no_files !! other).
Proof.
  intros w run.
  apply (commit_list_is_written_in_author_date_order w Demo.listed_commits "224"
           "dika-paper" _ Demo.no_files (snd run)).
  - repeat (constructor; try reflexivity).
  - vm_compute. reflexivity.
Defined.

(** ** Runs that do not get to the items *)

(** Without a token, or with a sprint name that is not in the sprint
    table, each of the three scripts exits with code 1 before it makes a
    request, and leaves the files as they are. *)
Theorem runs_stop_without_token_or_sprint (w : env) (a : args) (fuel : nat)
    (fs : filesystem) :
  has_token w = false \/ sprint_config w !! arg_sprint a = None ->
  PR.main w a fuel fs = Some (Ret 1, fs)
  /\ Review.main w a fuel fs = Some (Ret 1, fs)
  /\ Commit.main w a fuel fs = Some (Ret 1, fs).
Proof.
  intros H. unfold PR.main, Review.main, Commit.main.
  change (has_token (with_repository _ _ w)) with (has_token w).
  destruct (has_token w) eqn:Ht; simpl negb; cbv iota.
  - destruct H as [H|H]; [discriminate H|].
    unfold get_sprint_dates.
    change (sprint_config (with_repository _ _ w)) with (sprint_config w).
    rewrite H.
    repeat split;
      match goal with
      | |- (if ?c then _ else _) = _ => destruct c; reflexivity
      end.
  - repeat split.
Qed.

Lemma runs_stop_without_token_or_sprint_witness :
  let w := Demo.world [] [] in
  let a := {| arg_org := None; arg_repo := None; arg_user := None;
              arg_sprint := "no-such-sprint"; arg_batch_size := 25;
              arg_branch_prefix := "release/" |} in
  PR.main w a 0 Demo.no_files = Some (Ret 1, Demo.no_files)
  /\ Review.main w a 0 Demo.no_files = Some (Ret 1, Demo.no_files)
  /\ Commit.main w a 0 Demo.no_files = Some (Ret 1, Demo.no_files).
Proof.
  intros w a.
  apply (runs_stop_without_token_or_sprint w a 0 Demo.no_files).
  right. reflexivity.
Defined.

(** When every request fails (HTTP errors such as 401 or 403, or any
    other fault), each of the three scripts reports that nothing was found
    and exits with code 0, the same as for a sprint without items; no file
    is written. *)
Theorem failing_api_ends_with_exit_code_zero (w : env) (a : args) (fuel : nat)
    (fs : filesystem) :
  has_token w = true ->
  Spec.names_given w a = true ->
  is_Some (sprint_config w !! arg_sprint a) ->
  (forall u, Spec.transport_failure (net w u) = true) ->
  (0 < fuel)%nat ->
  PR.main w a fuel fs = Some (Ret 0, fs)
  /\ Review.main w a fuel fs = Some (Ret 0, fs)
  /\ Commit.main w a fuel fs = Some (Ret 0, fs).
Proof.
  intros Ht Hnames [[start_date end_date] Hsprint] Hfail Hfuel.
  assert (Hreq : forall w' u, has_token w' = true -> net w' = net w ->
                              github_request w' u = Ret VNone).
  { intros w' u Ht' Hnet. unfold github_request. rewrite Ht', Hnet.
    specialize (Hfail u). destruct (net w u); try discriminate Hfail; reflexivity. }
  unfold Spec.names_given in Hnames.
  apply andb_prop in Hnames as [Hnames Huser].
  apply andb_prop in Hnames as [Horg Hrepo].
  apply negb_true_iff in Horg, Hrepo, Huser.
  destruct fuel as [|fuel]; [lia|].
  unfold PR.main, Review.main, Commit.main.
  change (has_token (with_repository _ _ w)) with (has_token w).
  change (ORGANIZATION (with_repository ?o ?r w)) with o.
  change (REPOSITORY (with_repository ?o ?r w)) with r.
  rewrite Ht, Horg, Hrepo, Huser. simpl negb. simpl orb. cbv iota.
  unfold get_sprint_dates.
  change (sprint_config (with_repository _ _ w)) with (sprint_config w).
  rewrite Hsprint.
  unfold PR.get_all_prs_fast, Review.get_filtered_prs, search_paginate,
    Commit.get_all_commits_fast.
  simpl search_loop. simpl Commit.commits_loop.
  rewrite !(Hreq w) by (try exact Ht; reflexivity).
  rewrite (Hreq (with_repository _ _ w)) by (try exact Ht; reflexivity).
  repeat split.
Qed.

Lemma failing_api_ends_with_exit_code_zero_witness :
  let w := Demo.world [] [] in
  let down :=
    {| GITHUB_TOKEN := GITHUB_TOKEN w; ORGANIZATION := ORGANIZATION w;
       REPOSITORY := REPOSITORY w; USERNAME := USERNAME w;
       sprint_config := sprint_config w;
       net := fun _ => HTTPError 401 "Bad credentials";
       strftime_now := strftime_now w; isoformat_now := isoformat_now w |} in
  PR.main down (Demo.cli 25 "release/") 1 Demo.no_files = Some (Ret 0, Demo.no_files)
  /\ Review.main down (Demo.cli 25 "release/") 1 Demo.no_files
     = Some (Ret 0, Demo.no_files)
  /\ Commit.main down (Demo.cli 25 "release/") 1 Demo.no_files
     = Some (Ret 0, Demo.no_files).
Proof.
  intros w down.
  apply (failing_api_ends_with_exit_code_zero down (Demo.cli 25 "release/") 1
           Demo.no_files).
  - reflexivity.
  - reflexivity.
  - eexists. vm_compute. reflexivity.
  - intros u. reflexivity.
  - lia.
Defined.

(** ** Exceptions during a batch *)





(** ** Entries of the commit list *)

Lemma first_line_prefix (s : string) : String.prefix (first_line s) s = true.
Proof.
  induction s as [|c s IH]; simpl; [reflexivity|].
  destruct (Ascii.eqb c "010"); simpl; [reflexivity|].
  destruct (ascii_dec c c); [exact IH|congruence].
Qed.

Lemma first_line_no_newline (s : string) (i : nat) :
  String.get i (first_line s) <> Some "010"%char.
Proof.
  revert i. induction s as [|c s IH]; intros i; simpl; [discriminate|].
  destruct (Ascii.eqb_spec c "010"); simpl; [discriminate|].
  destruct i as [|i]; [congruence|apply IH].
Qed.

Lemma first_line_splits (s : string) :
  exists rest,
    s = String.append (first_line s) rest
    /\ (rest = "" \/ String.get 0 rest = Some "010"%char).
Proof.
  induction s as [|c s [rest [IH Hrest]]]; simpl.
  - exists "". split; [reflexivity|now left].
  - destruct (Ascii.eqb_spec c "010") as [->|_].
    + exists (String "010" s). split; [reflexivity|now right].
    + exists rest. split; [|exact Hrest].
      change (String c s = String c (String.append (first_line s) rest)).
      now rewrite <- IH.
Qed.

Lemma str_take_length (n : nat) (s : string) :
  str_len (str_take n s) = Nat.min n (str_len s).
Proof.
  revert n. induction s as [|c s IH]; intros n; simpl.
  - now rewrite Nat.min_0_r.
  - destruct (is_continuation c) eqn:Hc; simpl; rewrite ?Hc.
    + apply IH.
    + destruct n as [|n]; simpl; [reflexivity|]. rewrite Hc. now rewrite IH.
Qed.

Lemma str_take_prefix (n : nat) (s : string) :
  exists tail, s = String.append (str_take n s) tail.
Proof.
  revert n. induction s as [|c s IH]; intros n; simpl.
  - now exists "".
  - destruct (is_continuation c).
    + destruct (IH n) as [tail Htail]. exists tail.
      change (String c s = String c (String.append (str_take n s) tail)).
      now rewrite <- Htail.
    + destruct n as [|n].
      * now exists (String c s).
      * destruct (IH n) as [tail Htail]. exists tail.
        change (String c s = String c (String.append (str_take n s) tail)).
        now rewrite <- Htail.
Qed.

(** An entry of the commit list, for a commit whose "sha" is a string,
    carries as "full_message" the commit's message and as "message" its
    first line: the message is that line, followed by nothing or by a line
    break and the rest, and the line holds no line break.  Its "short_sha"
    is the first seven characters of "sha" (all of it when it is
    shorter). *)
Theorem listed_commit_is_abbreviated (w : env) (commit entry : value)
    (sha : string) :
  Commit.process_commit w commit = Ret (Some entry) ->
  get commit "sha" (VStr "") = Ret (VStr sha) ->
  exists message short line tail rest,
    Spec.commit_message commit = Ret (VStr message)
    /\ item entry "sha" = Ret (VStr sha)
    /\ item entry "short_sha" = Ret (VStr short)
    /\ sha = String.append short tail
    /\ str_len short = Nat.min 7 (str_len sha)
    /\ item entry "full_message" = Ret (VStr message)
    /\ item entry "message" = Ret (VStr line)
    /\ message = String.append line rest
    /\ (rest = "" \/ String.get 0 rest = Some "010"%char)
    /\ (forall i, String.get i line <> Some "010"%char).
Proof.
  unfold Commit.process_commit, Spec.commit_message. intros H Hsha.
  rewrite Hsha in H. cbn [bind take] in H.
  repeat step_through H; try discriminate H.
  injection H as <-.
  match goal with
  | E : first_line_of ?m = Ret _ |- _ =>
      destruct m as [| | |full| |]; try discriminate E;
      simpl in E; injection E as <-
  end.
  destruct (str_take_prefix 7 sha) as [tail Htail].
  destruct (first_line_splits full) as [rest [Hsplit Hrest]].
  exists full, (str_take 7 sha), (first_line full), tail, rest.
  cbn [bind].
  repeat split; try assumption; try reflexivity.
  - apply str_take_length.
  - apply first_line_no_newline.
Qed.

Lemma listed_commit_is_abbreviated_witness :
  let commit := Demo.commit "1f0c3e9a7b4d" "Add the sprint report" "Dika" "commits/1" in
  let entry := match Commit.process_commit (Demo.world [] []) commit with
               | Ret (Some e) => e
               | _ => VNone
               end in
  exists message short line tail rest,
    Spec.commit_message commit = Ret (VStr message)
    /\ item entry "sha" = Ret (VStr "1f0c3e9a7b4d")
    /\ item entry "short_sha" = Ret (VStr short)
    /\ "1f0c3e9a7b4d" = String.append short tail
    /\ str_len short = Nat.min 7 (str_len "1f0c3e9a7b4d")
    /\ item entry "full_message" = Ret (VStr message)
    /\ item entry "message" = Ret (VStr line)
    /\ message = String.append line rest
    /\ (rest = "" \/ String.get 0 rest = Some "010"%char)
    /\ (forall i, String.get i line <> Some "010"%char).
Proof.
  intros commit entry.
  apply (listed_commit_is_abbreviated (Demo.world [] []) commit entry
           "1f0c3e9a7b4d"); vm_compute; reflexivity.
Defined.

